(** * DFU bootloader: SPI transport, NOR flash driver, flash writer and DFU
    protocol machine (spi.c, usb_dfu.c)

    The C code is embedded as Rocq functions over explicit state.  Machine
    integers are [Z] with their wrap-around written out; the memory-mapped
    SPI controller is a record holding the control register, the values the
    data register will deliver on its next reads, and a trace of what the
    code did on the bus. *)

From Stdlib Require Import ZArith List Bool Lia.
Import ListNotations.
Open Scope Z_scope.

(** ** Machine integers *)

Definition u8 (z : Z) : Z := z mod 256.
Definition u32 (z : Z) : Z := z mod 2 ^ 32.

(** Conversion of a 32-bit pattern to [int] (two's complement). *)
Definition s32 (z : Z) : Z :=
  let r := u32 z in if r <? 2 ^ 31 then r else r - 2 ^ 32.

(** ** Outcomes

    A run either returns, or leaves the model: an access outside the object
    a pointer refers to ([OutOfBounds]), a controller that stops answering
    ([NoResponse]: the list of pending read values is exhausted), or a loop
    budget that is used up ([OutOfFuel]). *)

Inductive fault : Type := OutOfBounds | NoResponse | OutOfFuel.

Inductive result (A : Type) : Type :=
| Ok (a : A)
| Err (f : fault).
Arguments Ok {A} a.
Arguments Err {A} f.

Definition bind {A B : Type} (m : result A) (k : A -> result B) : result B :=
  match m with
  | Ok a => k a
  | Err f => Err f
  end.

Declare Scope result_scope.
Delimit Scope result_scope with result.
Notation "x <- m ;; k" := (bind m (fun x => k))
  (at level 61, m at next level, right associativity) : result_scope.
Notation "' p <- m ;; k" := (bind m (fun x => let p := x in k))
  (at level 61, p pattern, m at next level, right associativity) : result_scope.
Open Scope result_scope.

(** [p[i]] and [p[i] = v] on the object [p] points into. *)
Definition load (p : list Z) (i : nat) : result Z :=
  match nth_error p i with
  | Some v => Ok v
  | None => Err OutOfBounds
  end.

Fixpoint store (p : list Z) (i : nat) (v : Z) : result (list Z) :=
  match p, i with
  | [], _ => Err OutOfBounds
  | _ :: p', O => Ok (v :: p')
  | x :: p', S i' => p'' <- store p' i' v ;; Ok (x :: p'')
  end.

(** * spi.c *)

Module Spi.

(** What the code does on the bus, newest event first. *)
Inductive bus_event : Type :=
| CsLow (cs : Z)           (* csr &= ~(1 << (16+cs)) *)
| DataWr (d : Z)           (* spi_regs->data = d *)
| CsHigh (cs : Z).         (* csr |= (1 << (16+cs)) *)

(** [struct spi] behind the volatile pointer [spi_regs]: [csr] is the
    control register, [rx] the values the next reads of the data register
    return, [bus] the trace. *)
Record spi : Type := mkSpi {
  csr : Z;
  rx : list Z;
  bus : list bus_event
}.

(** Modelled from the spec: spi.h is not among the sources.  A transfer
    chunk is (buffer, length, do_read, do_write); [data] is the object the
    chunk's pointer refers to, from the pointer on. *)
Record spi_xfer_chunk : Type := mkChunk {
  data : list Z;
  len : nat;
  read : bool;
  write : bool
}.

(** Modelled from the spec: the chip select of the NOR flash (spi.h is not
    among the sources; no result below depends on the number). *)
Definition SPI_CS_FLASH : Z := 0.

Definition cs_low (cs : Z) (s : spi) : spi :=
  {| csr := Z.land (csr s) (u32 (Z.lnot (Z.shiftl 1 (16 + cs))));
     rx := rx s;
     bus := CsLow cs :: bus s |}.

Definition cs_high (cs : Z) (s : spi) : spi :=
  {| csr := u32 (Z.lor (csr s) (Z.shiftl 1 (16 + cs)));
     rx := rx s;
     bus := CsHigh cs :: bus s |}.

Definition data_write (d : Z) (s : spi) : spi :=
  {| csr := csr s; rx := rx s; bus := DataWr d :: bus s |}.

(** [do { d = spi_regs->data; } while (d & 0x80000000);] on the pending
    read values. *)
Fixpoint poll (pending : list Z) : result (Z * list Z) :=
  match pending with
  | [] => Err NoResponse
  | d :: rest => if Z.testbit d 31 then poll rest else Ok (d, rest)
  end.

Definition data_poll (s : spi) : result (Z * spi) :=
  '(d, rest) <- poll (rx s) ;;
  Ok (d, {| csr := csr s; rx := rest; bus := bus s |}).

(** The word written to the data register for byte [i] of chunk [c]. *)
Definition tx_word (c : spi_xfer_chunk) (buf : list Z) (i : nat) : result Z :=
  b <- (if write c then load buf i else Ok 0x00) ;;
  Ok (Z.lor b (if read c then 0x100 else 0x000)).

(** Body of the [for] loop of [spi_xfer]. *)
Definition xfer_byte (c : spi_xfer_chunk) (i : nat) (buf : list Z) (s : spi)
  : result (list Z * spi) :=
  d <- tx_word c buf i ;;
  let s := data_write d s in
  if read c then
    '(d, s) <- data_poll s ;;
    buf <- store buf i (u8 d) ;;
    Ok (buf, s)
  else Ok (buf, s).

(** [for (int i=0; i<xfer->len; i++)], with [n] iterations left. *)
Fixpoint xfer_bytes (c : spi_xfer_chunk) (n : nat) (i : nat) (buf : list Z)
    (s : spi) : result (list Z * spi) :=
  match n with
  | O => Ok (buf, s)
  | S n' =>
      '(buf, s) <- xfer_byte c i buf s ;;
      xfer_bytes c n' (S i) buf s
  end.

(** [while (n--) { ...; xfer++; }] *)
Fixpoint xfer_chunks (xfer : list spi_xfer_chunk) (n : nat) (s : spi)
  : result (list spi_xfer_chunk * spi) :=
  match n with
  | O => Ok (xfer, s)
  | S n' =>
      match xfer with
      | [] => Err OutOfBounds
      | c :: xfer' =>
          '(buf, s) <- xfer_bytes c (len c) 0 (data c) s ;;
          '(rest, s) <- xfer_chunks xfer' n' s ;;
          Ok (mkChunk buf (len c) (read c) (write c) :: rest, s)
      end
  end.

Definition spi_xfer (cs : Z) (xfer : list spi_xfer_chunk) (n : nat) (s : spi)
  : result (list spi_xfer_chunk * spi) :=
  let s := cs_low cs s in
  '(xfer, s) <- xfer_chunks xfer n s ;;
  Ok (xfer, cs_high cs s).

(** The three accumulators of [spi_xfer_verify]. *)
Record should : Type := mkShould {
  should_e : Z;
  should_ew : Z;
  should_w : Z
}.

(** Body of the [for] loop of [spi_xfer_verify]: the buffer is compared with
    what is read, and left as it is. *)
Definition verify_byte (c : spi_xfer_chunk) (i : nat) (v : should) (s : spi)
  : result (should * spi) :=
  d <- tx_word c (data c) i ;;
  let s := data_write d s in
  if read c then
    '(d, s) <- data_poll s ;;
    e <- load (data c) i ;;
    Ok ({| should_e := Z.lor (should_e v) (if Z.land e (u8 d) =? e then 0 else 1);
           should_ew := Z.lor (should_ew v) (if e =? 0xFF then 1 else 3);
           should_w := Z.lor (should_w v) (if e =? u8 d then 0 else 2) |}, s)
  else Ok (v, s).

Fixpoint verify_bytes (c : spi_xfer_chunk) (n : nat) (i : nat) (v : should)
    (s : spi) : result (should * spi) :=
  match n with
  | O => Ok (v, s)
  | S n' =>
      '(v, s) <- verify_byte c i v s ;;
      verify_bytes c n' (S i) v s
  end.

Fixpoint verify_chunks (xfer : list spi_xfer_chunk) (n : nat) (v : should)
    (s : spi) : result (should * spi) :=
  match n with
  | O => Ok (v, s)
  | S n' =>
      match xfer with
      | [] => Err OutOfBounds
      | c :: xfer' =>
          '(v, s) <- verify_bytes c (len c) 0 v s ;;
          verify_chunks xfer' n' v s
      end
  end.

Definition spi_xfer_verify (cs : Z) (xfer : list spi_xfer_chunk) (n : nat)
    (s : spi) : result (Z * spi) :=
  let s := cs_low cs s in
  '(v, s) <- verify_chunks xfer n (mkShould 0 0 0) s ;;
  let s := cs_high cs s in
  if should_e v =? 0 then Ok (should_w v, s) else Ok (should_ew v, s).

Definition FLASH_CMD_WRITE_ENABLE : Z := 0x06.
Definition FLASH_CMD_READ_SR1 : Z := 0x05.
Definition FLASH_CMD_READ_DATA : Z := 0x03.
Definition FLASH_CMD_PAGE_PROGRAM : Z := 0x02.
Definition FLASH_CMD_SECTOR_ERASE : Z := 0x20.

(** [{ cmd, (addr >> 16) & 0xff, (addr >> 8) & 0xff, addr & 0xff }] *)
Definition cmd_addr (cmd addr : Z) : list Z :=
  [cmd; Z.land (Z.shiftr addr 16) 0xff; Z.land (Z.shiftr addr 8) 0xff;
   Z.land addr 0xff].

Definition flash_cmd (cmd : Z) (s : spi) : result spi :=
  '(_, s) <- spi_xfer SPI_CS_FLASH [mkChunk [cmd] 1 false true] 1 s ;;
  Ok s.

Definition flash_write_enable (s : spi) : result spi :=
  flash_cmd FLASH_CMD_WRITE_ENABLE s.

(** [rv] is an uninitialised local; every byte of it is overwritten. *)
Definition flash_read_sr (s : spi) : result (Z * spi) :=
  '(xfer, s) <- spi_xfer SPI_CS_FLASH
      [mkChunk [FLASH_CMD_READ_SR1] 1 false true;
       mkChunk [0] 1 true false] 2 s ;;
  rv <- load (data (nth 1 xfer (mkChunk [] 0 false false))) 0 ;;
  Ok (rv, s).

Definition flash_read (dst : list Z) (addr : Z) (n : nat) (s : spi)
  : result (list Z * spi) :=
  '(xfer, s) <- spi_xfer SPI_CS_FLASH
      [mkChunk (cmd_addr FLASH_CMD_READ_DATA addr) 4 false true;
       mkChunk dst n true false] 2 s ;;
  Ok (data (nth 1 xfer (mkChunk [] 0 false false)), s).

Definition flash_verify (dst : list Z) (addr : Z) (n : nat) (s : spi)
  : result (Z * spi) :=
  spi_xfer_verify SPI_CS_FLASH
    [mkChunk (cmd_addr FLASH_CMD_READ_DATA addr) 4 false true;
     mkChunk dst n true false] 2 s.

Definition flash_page_program (src : list Z) (addr : Z) (n : nat) (s : spi)
  : result spi :=
  '(_, s) <- spi_xfer SPI_CS_FLASH
      [mkChunk (cmd_addr FLASH_CMD_PAGE_PROGRAM addr) 4 false true;
       mkChunk src n false true] 2 s ;;
  Ok s.

Definition _flash_erase (cmd_byte addr : Z) (s : spi) : result spi :=
  '(_, s) <- spi_xfer SPI_CS_FLASH [mkChunk (cmd_addr cmd_byte addr) 4 false true] 1 s ;;
  Ok s.

Definition flash_sector_erase (addr : Z) (s : spi) : result spi :=
  _flash_erase FLASH_CMD_SECTOR_ERASE addr s.

(** ** The classification of a verify transfer

    The pairs (expected, actual) a verify transfer compares: for each byte
    of a chunk with [read] set, the caller's byte and the byte the
    controller delivers for it. *)
Fixpoint compared_bytes (c : spi_xfer_chunk) (n i : nat) (pending : list Z)
  : list (Z * Z) * list Z :=
  match n with
  | O => ([], pending)
  | S n' =>
      if read c then
        match poll pending, nth_error (data c) i with
        | Ok (d, rest), Some e =>
            let '(l, rest) := compared_bytes c n' (S i) rest in
            ((e, u8 d) :: l, rest)
        | _, _ => ([], pending)
        end
      else compared_bytes c n' (S i) pending
  end.

Fixpoint compared (xfer : list spi_xfer_chunk) (n : nat) (pending : list Z)
  : list (Z * Z) :=
  match n, xfer with
  | S n', c :: xfer' =>
      let '(l, rest) := compared_bytes c (len c) 0 pending in
      l ++ compared xfer' n' rest
  | _, _ => []
  end.

(** Some bit the caller wants as 1 is 0 in the flash. *)
Definition erase_needed (p : list (Z * Z)) : bool :=
  existsb (fun ea => negb (Z.land (fst ea) (snd ea) =? fst ea)) p.

(** Some byte differs. *)
Definition write_needed (p : list (Z * Z)) : bool :=
  existsb (fun ea => negb (fst ea =? snd ea)) p.

(** Every expected byte is what an erase leaves. *)
Definition all_erased (p : list (Z * Z)) : bool :=
  forallb (fun ea => fst ea =? 0xFF) p.

(** The three accumulators of [spi_xfer_verify], as flags of the pairs
    compared so far. *)
Definition flag_e (p : list (Z * Z)) : Z := if erase_needed p then 1 else 0.
Definition flag_w (p : list (Z * Z)) : Z := if write_needed p then 2 else 0.
Definition flag_ew (p : list (Z * Z)) : Z :=
  match p with
  | [] => 0
  | _ => if all_erased p then 1 else 3
  end.

(** The code of section 4.A: bit 0 erase needed, bit 1 write needed. *)
Definition diff_bits (p : list (Z * Z)) : Z :=
  Z.lor (if erase_needed p then 1 else 0) (if write_needed p then 2 else 0).

(** The code [spi_xfer_verify] computes from the same pairs. *)
Definition verify_code (p : list (Z * Z)) : Z :=
  if erase_needed p then (if all_erased p then 1 else 3)
  else if write_needed p then 2 else 0.

(** Number of transfers begun (chip select assertions) in a trace. *)
Fixpoint spi_ops (t : list bus_event) : nat :=
  match t with
  | [] => O
  | CsLow _ :: t' => S (spi_ops t')
  | _ :: t' => spi_ops t'
  end.

(** Command bytes in a trace: the first data word after each chip select
    assertion (newest first). *)
Fixpoint commands (t : list bus_event) : list Z :=
  match t with
  | [] => []
  | DataWr d :: ((CsLow _ :: _) as t') => Z.land d 0xff :: commands t'
  | _ :: t' => commands t'
  end.

(** ** The rest of the flash driver *)

Definition FLASH_CMD_DEEP_POWER_DOWN : Z := 0xb9.
Definition FLASH_CMD_WAKE_UP : Z := 0xab.
Definition FLASH_CMD_WRITE_ENABLE_VOLATILE : Z := 0x50.
Definition FLASH_CMD_WRITE_DISABLE : Z := 0x04.
Definition FLASH_CMD_READ_MANUF_ID : Z := 0x9f.
Definition FLASH_CMD_READ_UNIQUE_ID : Z := 0x4b.
Definition FLASH_CMD_WRITE_SR1 : Z := 0x01.
Definition FLASH_CMD_WRITE_SR2 : Z := 0x31.
Definition FLASH_CMD_WRITE_SR3 : Z := 0x11.
Definition FLASH_CMD_BLOCK_ERASE_32k : Z := 0x52.
Definition FLASH_CMD_BLOCK_ERASE_64k : Z := 0xd8.

Definition flash_deep_power_down (s : spi) : result spi :=
  flash_cmd FLASH_CMD_DEEP_POWER_DOWN s.

Definition flash_wake_up (s : spi) : result spi :=
  flash_cmd FLASH_CMD_WAKE_UP s.

Definition flash_write_enable_volatile (s : spi) : result spi :=
  flash_cmd FLASH_CMD_WRITE_ENABLE_VOLATILE s.

Definition flash_write_disable (s : spi) : result spi :=
  flash_cmd FLASH_CMD_WRITE_DISABLE s.

(** [spi_regs->csr = 0xff02c0; flash_wake_up();] *)
Definition spi_init (s : spi) : result spi :=
  flash_wake_up {| csr := 0xff02c0; rx := rx s; bus := bus s |}.

(** [manuf] is the object the three bytes are read into. *)
Definition flash_manuf_id (manuf : list Z) (s : spi) : result (list Z * spi) :=
  '(xfer, s) <- spi_xfer SPI_CS_FLASH
      [mkChunk [FLASH_CMD_READ_MANUF_ID] 1 false true;
       mkChunk manuf 3 true false] 2 s ;;
  Ok (data (nth 1 xfer (mkChunk [] 0 false false)), s).

(** The second chunk has a null pointer and neither flag: four bytes 0x00
    go out and nothing is read or stored. *)
Definition flash_unique_id (id : list Z) (s : spi) : result (list Z * spi) :=
  '(xfer, s) <- spi_xfer SPI_CS_FLASH
      [mkChunk [FLASH_CMD_READ_UNIQUE_ID] 1 false true;
       mkChunk [] 4 false false;
       mkChunk id 8 true false] 3 s ;;
  Ok (data (nth 2 xfer (mkChunk [] 0 false false)), s).

Definition flash_read_reg (reg : Z) (s : spi) : result (Z * spi) :=
  '(xfer, s) <- spi_xfer SPI_CS_FLASH
      [mkChunk [reg] 1 false true;
       mkChunk [0] 1 true false] 2 s ;;
  rv <- load (data (nth 1 xfer (mkChunk [] 0 false false))) 0 ;;
  Ok (rv, s).

Definition flash_write_reg (reg val : Z) (s : spi) : result spi :=
  '(_, s) <- spi_xfer SPI_CS_FLASH [mkChunk [reg; val] 2 false true] 1 s ;;
  Ok s.

Definition flash_write_sr (srno sr : Z) (s : spi) : result spi :=
  let cmd0 := 0 in
  let cmd0 := if srno =? 1 then FLASH_CMD_WRITE_SR1 else cmd0 in
  let cmd0 := if srno =? 2 then FLASH_CMD_WRITE_SR2 else cmd0 in
  let cmd0 := if srno =? 3 then FLASH_CMD_WRITE_SR3 else cmd0 in
  if cmd0 =? 0 then Ok s
  else
    '(_, s) <- spi_xfer SPI_CS_FLASH [mkChunk [cmd0; sr] 2 false true] 1 s ;;
    Ok s.

Definition flash_block_erase_32k (addr : Z) (s : spi) : result spi :=
  _flash_erase FLASH_CMD_BLOCK_ERASE_32k addr s.

Definition flash_block_erase_64k (addr : Z) (s : spi) : result spi :=
  _flash_erase FLASH_CMD_BLOCK_ERASE_64k addr s.

(** [while(flash_read_sr() & 1);] with [fuel] status reads allowed. *)
Fixpoint wait_ready (fuel : nat) (s : spi) : result spi :=
  match fuel with
  | O => Err OutOfFuel
  | S fuel' =>
      '(sr, s) <- flash_read_sr s ;;
      if Z.land sr 1 =? 0 then Ok s else wait_ready fuel' s
  end.

(** Enough for any run of the loop above: every status read takes an answer
    of the controller. *)
Definition wait_budget (s : spi) : nat := S (length (rx s)).

(** [winbond_flash_write_protect]; what it prints on the console is not
    part of the state. *)
Definition winbond_flash_write_protect (winbond_sr1_wanted : Z) (s : spi)
  : result spi :=
  let winbond_sr3_wanted := 0x60 in
  '(winbond_sr1, s) <- flash_read_reg 0x05 s ;;
  s <- (if negb (Z.land winbond_sr1 0xFC =? winbond_sr1_wanted) then
          s <- flash_write_enable s ;;
          s <- flash_write_reg 0x01 winbond_sr1_wanted s ;;
          wait_ready (wait_budget s) s
        else Ok s) ;;
  '(winbond_sr3, s) <- flash_read_reg 0x15 s ;;
  if negb (Z.land winbond_sr3 0x64 =? winbond_sr3_wanted) then
    s <- flash_write_enable s ;;
    s <- flash_write_reg 0x11 winbond_sr3_wanted s ;;
    wait_ready (wait_budget s) s
  else Ok s.

Definition issi_flash_write_protect (issi_sr_wanted : Z) (s : spi)
  : result spi :=
  let issi_fr_wanted := 0x02 in
  '(issi_sr, s) <- flash_read_reg 0x05 s ;;
  s <- (if negb (Z.land issi_sr 0x3C =? issi_sr_wanted) then
          s <- flash_write_enable s ;;
          s <- flash_write_reg 0x01 issi_sr_wanted s ;;
          wait_ready (wait_budget s) s
        else Ok s) ;;
  '(issi_fr, s) <- flash_read_reg 0x48 s ;;
  if negb (Z.land issi_fr 0x02 =? issi_fr_wanted) then
    s <- flash_write_enable s ;;
    s <- flash_write_reg 0x42 issi_fr_wanted s ;;
    wait_ready (wait_budget s) s
  else Ok s.

(** The value of a [uint32_t] whose bytes are [b], lowest address first (the
    target is little-endian: 0x1840EF is the JEDEC id EF 40 18 as the flash
    sends it). *)
Definition le32 (b : list Z) : Z :=
  nth 0 b 0 + 256 * nth 1 b 0 + 65536 * nth 2 b 0 + 16777216 * nth 3 b 0.

(** [flash_write_protect_bootloader]: [manuf_id] is a [uint32_t] set to 0
    into whose first three bytes the id is read. *)
Definition flash_write_protect_bootloader (s : spi) : result spi :=
  '(manuf, s) <- flash_manuf_id [0; 0; 0; 0] s ;;
  let manuf_id := le32 manuf in
  s <- (if manuf_id =? 0x1840EF then winbond_flash_write_protect 0x30 s
        else Ok s) ;;
  if manuf_id =? 0x18609D then issi_flash_write_protect 0x18 s else Ok s.

Definition flash_write_unprotect_bootloader (s : spi) : result spi :=
  '(manuf, s) <- flash_manuf_id [0; 0; 0; 0] s ;;
  let manuf_id := le32 manuf in
  s <- (if manuf_id =? 0x1840EF then winbond_flash_write_protect 0 s
        else Ok s) ;;
  if manuf_id =? 0x18609D then issi_flash_write_protect 0 s else Ok s.

(** ** What a transfer does, in terms of its chunks *)

(** The answers of the controller that end a wait: bit 31 clear. *)
Definition ready (pending : list Z) : list Z :=
  filter (fun d => negb (Z.testbit d 31)) pending.

(** The bytes a chunk puts on the bus when it goes through in full. *)
Definition sent (c : spi_xfer_chunk) : list Z :=
  if write c then firstn (len c) (data c) else repeat 0x00 (len c).

(** What a call does to the controller, its other results left out. *)
Definition bus_effect {A : Type} (r : result (A * spi)) : result spi :=
  match r with
  | Ok (_, s) => Ok s
  | Err f => Err f
  end.

(** The address in a command of four bytes. *)
Definition addr24 (cmd : list Z) : Z :=
  nth 1 cmd 0 * 65536 + nth 2 cmd 0 * 256 + nth 3 cmd 0.

(** The trace of a whole transfer that sends [bytes] and reads [n] bytes
    after them. *)
Definition transfer (cs : Z) (bytes : list Z) (n : nat) : list bus_event :=
  CsHigh cs :: repeat (DataWr 0x100) n ++ rev (map DataWr bytes) ++ [CsLow cs].

(** What a command of the flash that only sends [bytes] leaves: the bytes
    in one frame on the bus, the chip select released, the answers of the
    controller untouched. *)
Definition command_frame (bytes : list Z) (s : spi) : result spi :=
  Ok (mkSpi (csr (cs_high SPI_CS_FLASH (cs_low SPI_CS_FLASH s))) (rx s)
        (transfer SPI_CS_FLASH bytes 0 ++ bus s)).

End Spi.

(** * usb_dfu.c *)

Module Dfu.

(** Modelled from the spec: usb_dfu_proto.h is not among the sources.  The
    states are the closed set of section 3, in the order of the rows of
    [dfu_valid_req]. *)
Inductive dfu_state : Type :=
| appIDLE | appDETACH | dfuIDLE | dfuDNLOAD_SYNC | dfuDNBUSY | dfuDNLOAD_IDLE
| dfuMANIFEST_SYNC | dfuMANIFEST | dfuMANIFEST_WAIT_RESET | dfuUPLOAD_IDLE
| dfuERROR.

(** Modelled from the spec: of the status codes of usb_dfu_proto.h only the
    two the code uses. *)
Inductive dfu_status : Type := OK | errUNKNOWN.

Inductive flash_op : Type := FL_IDLE | FL_ERASE | FL_PROGRAM.

(** The numbers the enumerators stand for where the code stores them in a
    byte of the reply (DFU 1.1 numbering). *)
Definition state_code (s : dfu_state) : Z :=
  match s with
  | appIDLE => 0 | appDETACH => 1 | dfuIDLE => 2 | dfuDNLOAD_SYNC => 3
  | dfuDNBUSY => 4 | dfuDNLOAD_IDLE => 5 | dfuMANIFEST_SYNC => 6
  | dfuMANIFEST => 7 | dfuMANIFEST_WAIT_RESET => 8 | dfuUPLOAD_IDLE => 9
  | dfuERROR => 10
  end.

Definition status_code (s : dfu_status) : Z :=
  match s with OK => 0x00 | errUNKNOWN => 0x0e end.

(** Modelled from the spec: the request numbers of section 6. *)
Definition USB_REQ_DFU_DETACH : Z := 0.
Definition USB_REQ_DFU_DNLOAD : Z := 1.
Definition USB_REQ_DFU_UPLOAD : Z := 2.
Definition USB_REQ_DFU_GETSTATUS : Z := 3.
Definition USB_REQ_DFU_CLRSTATUS : Z := 4.
Definition USB_REQ_DFU_GETSTATE : Z := 5.
Definition USB_REQ_DFU_ABORT : Z := 6.

Definition PROG_RETRY : Z := 4.

(** [1 << req] as an entry of the table below. *)
Definition bit (n : Z) : Z := Z.shiftl 1 n.

Definition dfu_valid_req (s : dfu_state) : Z :=
  match s with
  | appIDLE =>
      Z.lor (bit USB_REQ_DFU_DETACH)
        (Z.lor (bit USB_REQ_DFU_GETSTATUS) (bit USB_REQ_DFU_GETSTATE))
  | appDETACH =>
      Z.lor (bit USB_REQ_DFU_GETSTATUS) (bit USB_REQ_DFU_GETSTATE)
  | dfuIDLE =>
      Z.lor (bit USB_REQ_DFU_DETACH)
        (Z.lor (bit USB_REQ_DFU_DNLOAD)
           (Z.lor (bit USB_REQ_DFU_UPLOAD)
              (Z.lor (bit USB_REQ_DFU_GETSTATUS)
                 (Z.lor (bit USB_REQ_DFU_GETSTATE) (bit USB_REQ_DFU_ABORT)))))
  | dfuDNLOAD_SYNC | dfuDNLOAD_IDLE =>
      Z.lor (bit USB_REQ_DFU_DNLOAD)
        (Z.lor (bit USB_REQ_DFU_GETSTATUS)
           (Z.lor (bit USB_REQ_DFU_GETSTATE) (bit USB_REQ_DFU_ABORT)))
  | dfuDNBUSY | dfuMANIFEST | dfuMANIFEST_WAIT_RESET => 0
  | dfuMANIFEST_SYNC =>
      Z.lor (bit USB_REQ_DFU_GETSTATUS)
        (Z.lor (bit USB_REQ_DFU_GETSTATE) (bit USB_REQ_DFU_ABORT))
  | dfuUPLOAD_IDLE =>
      Z.lor (bit USB_REQ_DFU_UPLOAD)
        (Z.lor (bit USB_REQ_DFU_GETSTATUS)
           (Z.lor (bit USB_REQ_DFU_GETSTATE) (bit USB_REQ_DFU_ABORT)))
  | dfuERROR =>
      Z.lor (bit USB_REQ_DFU_GETSTATUS)
        (Z.lor (bit USB_REQ_DFU_CLRSTATUS) (bit USB_REQ_DFU_GETSTATE))
  end.

(** The program state.  The fields of [g_dfu] keep their names, with the
    nested structs [buf] and [flash] flattened ([g_dfu.buf.used] is [used],
    [g_dfu.flash.addr_prog] is [addr_prog]); [data] is [buf.data] as the
    8192 bytes it occupies, slot 0 first.  [prog_retry] and [should] are the
    two statics next to it.  [spi_regs] is the SPI controller, [flashchip]
    the chip last passed to [flashchip_select], [reboots] the number of
    calls of [usb_dfu_cb_reboot]. *)
Record world : Type := mkWorld {
  state : dfu_state;
  status : dfu_status;
  intf : Z;
  alt : Z;
  tick : Z;
  used : Z;
  wr : Z;
  rd : Z;
  data : list Z;
  addr_recv : Z;
  addr_read : Z;
  addr_prog : Z;
  addr_erase : Z;
  addr_end : Z;
  selected : Z;
  op_ofs : Z;
  op_len : Z;
  op : flash_op;
  prog_retry : Z;
  should : Z;
  spi_regs : Spi.spi;
  flashchip : Z;
  reboots : nat
}.

Definition set_state (v : dfu_state) (w : world) : world :=
  mkWorld v (status w) (intf w) (alt w) (tick w) (used w) (wr w) (rd w)
    (data w) (addr_recv w) (addr_read w) (addr_prog w) (addr_erase w)
    (addr_end w) (selected w) (op_ofs w) (op_len w) (op w) (prog_retry w)
    (should w) (spi_regs w) (flashchip w) (reboots w).

Definition set_status (v : dfu_status) (w : world) : world :=
  mkWorld (state w) v (intf w) (alt w) (tick w) (used w) (wr w) (rd w)
    (data w) (addr_recv w) (addr_read w) (addr_prog w) (addr_erase w)
    (addr_end w) (selected w) (op_ofs w) (op_len w) (op w) (prog_retry w)
    (should w) (spi_regs w) (flashchip w) (reboots w).

Definition set_intf (v : Z) (w : world) : world :=
  mkWorld (state w) (status w) v (alt w) (tick w) (used w) (wr w) (rd w)
    (data w) (addr_recv w) (addr_read w) (addr_prog w) (addr_erase w)
    (addr_end w) (selected w) (op_ofs w) (op_len w) (op w) (prog_retry w)
    (should w) (spi_regs w) (flashchip w) (reboots w).

Definition set_alt (v : Z) (w : world) : world :=
  mkWorld (state w) (status w) (intf w) v (tick w) (used w) (wr w) (rd w)
    (data w) (addr_recv w) (addr_read w) (addr_prog w) (addr_erase w)
    (addr_end w) (selected w) (op_ofs w) (op_len w) (op w) (prog_retry w)
    (should w) (spi_regs w) (flashchip w) (reboots w).

Definition set_used (v : Z) (w : world) : world :=
  mkWorld (state w) (status w) (intf w) (alt w) (tick w) v (wr w) (rd w)
    (data w) (addr_recv w) (addr_read w) (addr_prog w) (addr_erase w)
    (addr_end w) (selected w) (op_ofs w) (op_len w) (op w) (prog_retry w)
    (should w) (spi_regs w) (flashchip w) (reboots w).

Definition set_wr (v : Z) (w : world) : world :=
  mkWorld (state w) (status w) (intf w) (alt w) (tick w) (used w) v (rd w)
    (data w) (addr_recv w) (addr_read w) (addr_prog w) (addr_erase w)
    (addr_end w) (selected w) (op_ofs w) (op_len w) (op w) (prog_retry w)
    (should w) (spi_regs w) (flashchip w) (reboots w).

Definition set_rd (v : Z) (w : world) : world :=
  mkWorld (state w) (status w) (intf w) (alt w) (tick w) (used w) (wr w) v
    (data w) (addr_recv w) (addr_read w) (addr_prog w) (addr_erase w)
    (addr_end w) (selected w) (op_ofs w) (op_len w) (op w) (prog_retry w)
    (should w) (spi_regs w) (flashchip w) (reboots w).

Definition set_data (v : list Z) (w : world) : world :=
  mkWorld (state w) (status w) (intf w) (alt w) (tick w) (used w) (wr w)
    (rd w) v (addr_recv w) (addr_read w) (addr_prog w) (addr_erase w)
    (addr_end w) (selected w) (op_ofs w) (op_len w) (op w) (prog_retry w)
    (should w) (spi_regs w) (flashchip w) (reboots w).

Definition set_addr_recv (v : Z) (w : world) : world :=
  mkWorld (state w) (status w) (intf w) (alt w) (tick w) (used w) (wr w)
    (rd w) (data w) v (addr_read w) (addr_prog w) (addr_erase w)
    (addr_end w) (selected w) (op_ofs w) (op_len w) (op w) (prog_retry w)
    (should w) (spi_regs w) (flashchip w) (reboots w).

Definition set_addr_read (v : Z) (w : world) : world :=
  mkWorld (state w) (status w) (intf w) (alt w) (tick w) (used w) (wr w)
    (rd w) (data w) (addr_recv w) v (addr_prog w) (addr_erase w)
    (addr_end w) (selected w) (op_ofs w) (op_len w) (op w) (prog_retry w)
    (should w) (spi_regs w) (flashchip w) (reboots w).

Definition set_addr_prog (v : Z) (w : world) : world :=
  mkWorld (state w) (status w) (intf w) (alt w) (tick w) (used w) (wr w)
    (rd w) (data w) (addr_recv w) (addr_read w) v (addr_erase w)
    (addr_end w) (selected w) (op_ofs w) (op_len w) (op w) (prog_retry w)
    (should w) (spi_regs w) (flashchip w) (reboots w).

Definition set_addr_erase (v : Z) (w : world) : world :=
  mkWorld (state w) (status w) (intf w) (alt w) (tick w) (used w) (wr w)
    (rd w) (data w) (addr_recv w) (addr_read w) (addr_prog w) v (addr_end w)
    (selected w) (op_ofs w) (op_len w) (op w) (prog_retry w) (should w)
    (spi_regs w) (flashchip w) (reboots w).

Definition set_addr_end (v : Z) (w : world) : world :=
  mkWorld (state w) (status w) (intf w) (alt w) (tick w) (used w) (wr w)
    (rd w) (data w) (addr_recv w) (addr_read w) (addr_prog w) (addr_erase w)
    v (selected w) (op_ofs w) (op_len w) (op w) (prog_retry w) (should w)
    (spi_regs w) (flashchip w) (reboots w).

Definition set_selected (v : Z) (w : world) : world :=
  mkWorld (state w) (status w) (intf w) (alt w) (tick w) (used w) (wr w)
    (rd w) (data w) (addr_recv w) (addr_read w) (addr_prog w) (addr_erase w)
    (addr_end w) v (op_ofs w) (op_len w) (op w) (prog_retry w) (should w)
    (spi_regs w) (flashchip w) (reboots w).

Definition set_op_ofs (v : Z) (w : world) : world :=
  mkWorld (state w) (status w) (intf w) (alt w) (tick w) (used w) (wr w)
    (rd w) (data w) (addr_recv w) (addr_read w) (addr_prog w) (addr_erase w)
    (addr_end w) (selected w) v (op_len w) (op w) (prog_retry w) (should w)
    (spi_regs w) (flashchip w) (reboots w).

Definition set_op_len (v : Z) (w : world) : world :=
  mkWorld (state w) (status w) (intf w) (alt w) (tick w) (used w) (wr w)
    (rd w) (data w) (addr_recv w) (addr_read w) (addr_prog w) (addr_erase w)
    (addr_end w) (selected w) (op_ofs w) v (op w) (prog_retry w) (should w)
    (spi_regs w) (flashchip w) (reboots w).

Definition set_op (v : flash_op) (w : world) : world :=
  mkWorld (state w) (status w) (intf w) (alt w) (tick w) (used w) (wr w)
    (rd w) (data w) (addr_recv w) (addr_read w) (addr_prog w) (addr_erase w)
    (addr_end w) (selected w) (op_ofs w) (op_len w) v (prog_retry w)
    (should w) (spi_regs w) (flashchip w) (reboots w).

Definition set_prog_retry (v : Z) (w : world) : world :=
  mkWorld (state w) (status w) (intf w) (alt w) (tick w) (used w) (wr w)
    (rd w) (data w) (addr_recv w) (addr_read w) (addr_prog w) (addr_erase w)
    (addr_end w) (selected w) (op_ofs w) (op_len w) (op w) v (should w)
    (spi_regs w) (flashchip w) (reboots w).

Definition set_should (v : Z) (w : world) : world :=
  mkWorld (state w) (status w) (intf w) (alt w) (tick w) (used w) (wr w)
    (rd w) (data w) (addr_recv w) (addr_read w) (addr_prog w) (addr_erase w)
    (addr_end w) (selected w) (op_ofs w) (op_len w) (op w) (prog_retry w) v
    (spi_regs w) (flashchip w) (reboots w).

Definition set_spi_regs (v : Spi.spi) (w : world) : world :=
  mkWorld (state w) (status w) (intf w) (alt w) (tick w) (used w) (wr w)
    (rd w) (data w) (addr_recv w) (addr_read w) (addr_prog w) (addr_erase w)
    (addr_end w) (selected w) (op_ofs w) (op_len w) (op w) (prog_retry w)
    (should w) v (flashchip w) (reboots w).

Definition set_flashchip (v : Z) (w : world) : world :=
  mkWorld (state w) (status w) (intf w) (alt w) (tick w) (used w) (wr w)
    (rd w) (data w) (addr_recv w) (addr_read w) (addr_prog w) (addr_erase w)
    (addr_end w) (selected w) (op_ofs w) (op_len w) (op w) (prog_retry w)
    (should w) (spi_regs w) v (reboots w).

Definition set_reboots (v : nat) (w : world) : world :=
  mkWorld (state w) (status w) (intf w) (alt w) (tick w) (used w) (wr w)
    (rd w) (data w) (addr_recv w) (addr_read w) (addr_prog w) (addr_erase w)
    (addr_end w) (selected w) (op_ofs w) (op_len w) (op w) (prog_retry w)
    (should w) (spi_regs w) (flashchip w) v.

(** Modelled from the spec: the chip ids of the zone table (the header that
    defines them is not among the sources; only their being named matters
    below). *)
Definition FLASHCHIP_INTERNAL : Z := 0.
Definition FLASHCHIP_CART : Z := 1.

Record zone : Type := mkZone {
  flashsel : Z;
  start : Z;
  end_ : Z
}.

Definition dfu_zones : list zone :=
  [ mkZone FLASHCHIP_INTERNAL 0x00200000 0x01000000;
    mkZone FLASHCHIP_INTERNAL 0x00340000 0x00380000;
    mkZone FLASHCHIP_INTERNAL 0x00380000 0x01000000;
    mkZone FLASHCHIP_INTERNAL 0x00400000 0x01000000;
    mkZone FLASHCHIP_INTERNAL 0x00800000 0x01000000;
    mkZone FLASHCHIP_INTERNAL 0x00000000 0x00200000;
    mkZone FLASHCHIP_CART     0x00000000 0x00000100 ].

(** Modelled from the spec: [flashchip_select] is not among the sources; it
    switches the active flash chip. *)
Definition flashchip_select (id : Z) (w : world) : world := set_flashchip id w.

(** The weak default does nothing; the call is counted. *)
Definition usb_dfu_cb_reboot (w : world) : world :=
  set_reboots (S (reboots w)) w.

(** [&g_dfu.buf.data[slot][ofs]]: the buffer from that byte on. *)
Definition buf_at (w : world) (slot ofs : Z) : result (list Z) :=
  let p := slot * 4096 + ofs in
  if (0 <=? p) && (p <=? 8192) then Ok (skipn (Z.to_nat p) (data w))
  else Err OutOfBounds.

Definition spi_step (f : Spi.spi -> result Spi.spi) (w : world) : result world :=
  s <- f (spi_regs w) ;; Ok (set_spi_regs s w).

(** The first [if] of [_dfu_tick]: [true] when the tick goes on, [false]
    when it returns there. *)
Definition tick_gate (w : world) : result (bool * world) :=
  match op w with
  | FL_IDLE =>
      if used w =? 0 then Ok (false, w)
      else Ok (true, set_op_ofs 0 (set_op_len 4096 (set_op FL_ERASE w)))
  | _ =>
      '(sr, s) <- Spi.flash_read_sr (spi_regs w) ;;
      let w := set_spi_regs s w in
      if Z.land sr 1 =? 0 then Ok (true, w) else Ok (false, w)
  end.

(** [if (prog_retry == 0) { ... return; }] *)
Definition tick_fatal (w : world) : world :=
  let w := set_op FL_IDLE w in
  let w := set_rd (Z.lxor (rd w) 1) w in
  let w := set_used (u8 (used w - 1)) w in
  usb_dfu_cb_reboot w.

(** [l] of the two places that compute it. *)
Definition page_len (w : world) : Z :=
  let l := u32 (op_len w - op_ofs w) in
  let pl := u32 (256 - Z.land (u32 (addr_prog w + op_ofs w)) 0xff) in
  if pl <? l then pl else l.

(** [if(prog_retry) prog_retry--;] *)
Definition retry_dec (w : world) : world :=
  if prog_retry w =? 0 then w else set_prog_retry (prog_retry w - 1) w.

(** [if (g_dfu.flash.op == FL_ERASE) { ... }] *)
Definition tick_erase (w : world) : result world :=
  p <- buf_at w (rd w) (op_ofs w) ;;
  '(sh, s) <- Spi.flash_verify p (addr_prog w) (Z.to_nat 4096) (spi_regs w) ;;
  let w := set_should sh (set_spi_regs s w) in
  if Z.land (should w) 1 =? 0 then
    let w := set_addr_erase (u32 (addr_prog w + 4096)) w in
    Ok (set_op FL_PROGRAM w)
  else
    let w := retry_dec w in
    let w := set_addr_erase (addr_prog w) w in
    w <- spi_step Spi.flash_write_enable w ;;
    w <- spi_step (Spi.flash_sector_erase (addr_erase w)) w ;;
    Ok (set_addr_erase (u32 (addr_erase w + 4096)) w).

(** [if (g_dfu.flash.op == FL_PROGRAM) { ... }] *)
Definition tick_program (w : world) : result world :=
  if Z.land (should w) 2 =? 0 then
    let w := set_prog_retry PROG_RETRY w in
    let w := set_addr_prog (u32 (addr_prog w + op_len w)) w in
    let w := set_rd (Z.lxor (rd w) 1) w in
    let w := set_used (u8 (used w - 1)) w in
    Ok (set_op FL_IDLE w)
  else if op_ofs w =? op_len w then
    let w := retry_dec w in
    let w := set_op_len 4096 w in
    let w := set_op_ofs 0 w in
    Ok (set_op FL_IDLE w)
  else
    let l := page_len w in
    w <- spi_step Spi.flash_write_enable w ;;
    p <- buf_at w (rd w) (op_ofs w) ;;
    w <- spi_step
           (Spi.flash_page_program p (u32 (addr_prog w + op_ofs w)) (Z.to_nat l))
           w ;;
    Ok (set_op_ofs (s32 (op_ofs w + l)) w).

(** What follows the first [if] of [_dfu_tick]. *)
Definition tick_work (w : world) : result world :=
  let w := flashchip_select (selected w) w in
  if prog_retry w =? 0 then Ok (tick_fatal w)
  else
    w <- match op w with
         | FL_ERASE => tick_erase w
         | _ => Ok w
         end ;;
    match op w with
    | FL_PROGRAM => tick_program w
    | _ => Ok w
    end.

Definition _dfu_tick (w : world) : result world :=
  '(go, w) <- tick_gate w ;;
  if go then tick_work w else Ok w.

(** SPI operations performed so far. *)
Definition ops (w : world) : nat := Spi.spi_ops (Spi.bus (spi_regs w)).

(** Answers of the controller not yet taken. *)
Definition pending (w : world) : nat := length (Spi.rx (spi_regs w)).

(** The program state a tick leaves (the state itself when the tick does not
    return). *)
Definition after_tick (w : world) : world :=
  match _dfu_tick w with
  | Ok w' => w'
  | Err _ => w
  end.

(** ** Callbacks and control requests *)

Definition _dfu_dnload_done_cb (w : world) : world :=
  let w := set_wr (Z.lxor (wr w) 1) w in
  let w := set_used (u8 (used w + 1)) w in
  set_state dfuDNLOAD_SYNC w.

Definition _dfu_detach_done_cb (w : world) : world := usb_dfu_cb_reboot w.

Definition _dfu_bus_reset (w : world) : world :=
  match state w with
  | appDETACH => w
  | _ => usb_dfu_cb_reboot w
  end.

(** [_dfu_state_chg]: the argument says whether the new device state is
    [USB_DS_CONFIGURED]. *)
Definition _dfu_state_chg (configured : bool) (w : world) : world :=
  if configured then set_state dfuIDLE w else w.

(** Modelled from the spec: usb.h is not among the sources.  The handler's
    disposition is the three-variant result of section 9. *)
Inductive usb_fnd_resp : Type :=
| USB_FND_CONTINUE | USB_FND_SUCCESS | USB_FND_ERROR.

(** Modelled from the spec: the setup packet of a control request (usb.h is
    not among the sources); [wRequestAndType] overlays [bmRequestType] (low
    byte) and [bRequest] (high byte). *)
Record usb_ctrl_req : Type := mkReq {
  bmRequestType : Z;
  bRequest : Z;
  wValue : Z;
  wIndex : Z;
  wLength : Z
}.

Definition wRequestAndType (req : usb_ctrl_req) : Z :=
  Z.lor (Z.shiftl (bRequest req) 8) (bmRequestType req).

Definition USB_REQ_TYPE (req : usb_ctrl_req) : Z := Z.land (bmRequestType req) 0x60.
Definition USB_REQ_RCPT (req : usb_ctrl_req) : Z := Z.land (bmRequestType req) 0x1f.
Definition USB_REQ_TYPE_CLASS : Z := 0x20.
Definition USB_REQ_TYPE_VENDOR : Z := 0x40.
Definition USB_REQ_RCPT_INTF : Z := 0x01.

(** Modelled from the spec: request number and direction of section 6, on a
    class request to an interface (0x21 host to device, 0xa1 device to
    host). *)
Definition USB_RT_DFU_DETACH : Z := Z.lor (Z.shiftl 0 8) 0x21.
Definition USB_RT_DFU_DNLOAD : Z := Z.lor (Z.shiftl 1 8) 0x21.
Definition USB_RT_DFU_UPLOAD : Z := Z.lor (Z.shiftl 2 8) 0xa1.
Definition USB_RT_DFU_GETSTATUS : Z := Z.lor (Z.shiftl 3 8) 0xa1.
Definition USB_RT_DFU_CLRSTATUS : Z := Z.lor (Z.shiftl 4 8) 0x21.
Definition USB_RT_DFU_GETSTATE : Z := Z.lor (Z.shiftl 5 8) 0xa1.
Definition USB_RT_DFU_ABORT : Z := Z.lor (Z.shiftl 6 8) 0x21.

Definition DFU_HOST_POLL_MS : Z := 5.

(** The two functions the code installs as [cb_done]. *)
Inductive usb_xfer_cb : Type := dnload_done_cb | detach_done_cb.

(** Where [xfer->data] points: into a buffer of the USB stack, or at a byte
    of [g_dfu.buf.data]. *)
Inductive xfer_ptr : Type :=
| PtrStack (bytes : list Z)
| PtrDfuBuf (ofs : Z).

(** Modelled from the spec: the transfer descriptor the handler fills in
    (usb.h is not among the sources): data pointer, length, completion
    callback. *)
Record usb_xfer : Type := mkXfer {
  xfer_data : xfer_ptr;
  xfer_len : Z;
  cb_done : option usb_xfer_cb
}.

(** [xfer->data[i] = v] *)
Definition xfer_store (i : Z) (v : Z) (xw : usb_xfer * world)
  : result (usb_xfer * world) :=
  let '(xfer, w) := xw in
  match xfer_data xfer with
  | PtrStack b =>
      b <- store b (Z.to_nat i) (u8 v) ;;
      Ok (mkXfer (PtrStack b) (xfer_len xfer) (cb_done xfer), w)
  | PtrDfuBuf ofs =>
      if (0 <=? ofs) then
        d <- store (data w) (Z.to_nat (ofs + i)) (u8 v) ;;
        Ok (xfer, set_data d w)
      else Err OutOfBounds
  end.

(** [memset(&g_dfu.buf.data[0][from], c, n)] *)
Definition memset_buf (from : Z) (c : Z) (n : Z) (w : world) : result world :=
  if (0 <=? from) && (0 <=? n) && (from + n <=? Z.of_nat (length (data w))) then
    Ok (set_data (firstn (Z.to_nat from) (data w) ++ repeat c (Z.to_nat n)
                    ++ skipn (Z.to_nat (from + n)) (data w)) w)
  else Err OutOfBounds.

(** [while (g_dfu.buf.used) _dfu_tick();] *)
Fixpoint pump (fuel : nat) (w : world) : result world :=
  if used w =? 0 then Ok w
  else
    match fuel with
    | O => Err OutOfFuel
    | S fuel' => w <- _dfu_tick w ;; pump fuel' w
    end.

(** Enough for any run of the loop above: every tick of it takes an answer
    of the controller or releases a buffer. *)
Definition pump_budget (w : world) : nat :=
  (length (Spi.rx (spi_regs w)) + Z.to_nat (used w))%nat.

Section CtrlReq.

(** The vendor handler is external; it is handed the request, the transfer
    descriptor and, through it, the buffer, and may use the SPI bus. *)
Variable dfu_vendor_ctrl_req :
  usb_ctrl_req -> usb_xfer -> list Z -> Spi.spi ->
  result (usb_fnd_resp * usb_xfer * list Z * Spi.spi).

(** The label [error:]. *)
Definition ctrl_error (xfer : usb_xfer) (w : world)
  : result (usb_fnd_resp * usb_xfer * world) :=
  let w := set_state dfuERROR w in
  let w := set_status errUNKNOWN w in
  Ok (USB_FND_ERROR, xfer, w).

Definition ctrl_success (xw : usb_xfer * world)
  : result (usb_fnd_resp * usb_xfer * world) :=
  Ok (USB_FND_SUCCESS, fst xw, snd xw).

Definition ctrl_dnload (req : usb_ctrl_req) (xfer : usb_xfer) (w : world)
  : result (usb_fnd_resp * usb_xfer * world) :=
  if negb (wLength req =? 0) then
    let w := set_addr_recv (u32 (addr_recv w + wLength req)) w in
    if addr_end w <? addr_recv w then ctrl_error xfer w
    else
      let xfer := mkXfer (PtrDfuBuf (wr w * 4096)) (wLength req)
                    (Some dnload_done_cb) in
      w <- (if xfer_len xfer <? 4096
            then memset_buf (wr w * 4096 + xfer_len xfer) 0xff
                   (4096 - xfer_len xfer) w
            else Ok w) ;;
      ctrl_success (xfer, w)
  else
    ctrl_success (xfer, set_state dfuMANIFEST_SYNC w).

Definition ctrl_upload (req : usb_ctrl_req) (xfer : usb_xfer) (w : world)
  : result (usb_fnd_resp * usb_xfer * world) :=
  let n := wLength req in
  let n := if addr_end w <? u32 (addr_read w + n)
           then s32 (addr_end w - addr_read w) else n in
  let xfer := mkXfer (PtrDfuBuf 0) n (cb_done xfer) in
  if negb (n =? 0) then
    '(d, s) <- Spi.flash_read (data w) (addr_read w) (Z.to_nat (u32 n))
                 (spi_regs w) ;;
    let w := set_data d (set_spi_regs s w) in
    ctrl_success (xfer, set_addr_read (u32 (addr_read w + n)) w)
  else ctrl_success (xfer, w).

(** The "Update state" part of GETSTATUS: the state to report, and the
    program state after it. *)
Definition getstatus_update (w : world) : result (dfu_state * world) :=
  match state w with
  | dfuDNLOAD_SYNC =>
      if used w <? 2 then Ok (dfuDNLOAD_IDLE, set_state dfuDNLOAD_IDLE w)
      else Ok (dfuDNBUSY, w)
  | dfuMANIFEST_SYNC =>
      let w := set_state dfuIDLE w in
      w <- pump (pump_budget w) w ;;
      Ok (dfuIDLE, w)
  | s => Ok (s, w)
  end.

Definition ctrl_getstatus (xfer : usb_xfer) (w : world)
  : result (usb_fnd_resp * usb_xfer * world) :=
  '(st, w) <- getstatus_update w ;;
  xw <- xfer_store 0 (status_code (status w)) (xfer, w) ;;
  xw <- xfer_store 1 (Z.land (Z.shiftr DFU_HOST_POLL_MS 0) 0xff) xw ;;
  xw <- xfer_store 2 (Z.land (Z.shiftr DFU_HOST_POLL_MS 8) 0xff) xw ;;
  xw <- xfer_store 3 (Z.land (Z.shiftr DFU_HOST_POLL_MS 16) 0xff) xw ;;
  xw <- xfer_store 4 (state_code st) xw ;;
  xw <- xfer_store 5 0 xw ;;
  ctrl_success xw.

Definition _dfu_ctrl_req (req : usb_ctrl_req) (xfer : usb_xfer) (w : world)
  : result (usb_fnd_resp * usb_xfer * world) :=
  if negb (wIndex req =? intf w) then Ok (USB_FND_CONTINUE, xfer, w)
  else if Z.lor (USB_REQ_TYPE req) (USB_REQ_RCPT req)
          =? Z.lor USB_REQ_TYPE_VENDOR USB_REQ_RCPT_INTF then
    (* sizeof(g_dfu.buf): three bytes, one of padding, two slots *)
    let xfer := mkXfer (PtrDfuBuf 0) 8196 (cb_done xfer) in
    '(resp, xfer, d, s) <- dfu_vendor_ctrl_req req xfer (data w) (spi_regs w) ;;
    Ok (resp, xfer, set_data d (set_spi_regs s w))
  else if negb (Z.lor (USB_REQ_TYPE req) (USB_REQ_RCPT req)
                =? Z.lor USB_REQ_TYPE_CLASS USB_REQ_RCPT_INTF) then
    Ok (USB_FND_CONTINUE, xfer, w)
  else if Z.land (dfu_valid_req (state w)) (bit (bRequest req)) =? 0 then
    ctrl_error xfer w
  else
    let rt := wRequestAndType req in
    if rt =? USB_RT_DFU_DETACH then
      ctrl_success (mkXfer (xfer_data xfer) (xfer_len xfer) (Some detach_done_cb), w)
    else if rt =? USB_RT_DFU_DNLOAD then ctrl_dnload req xfer w
    else if rt =? USB_RT_DFU_UPLOAD then ctrl_upload req xfer w
    else if rt =? USB_RT_DFU_GETSTATUS then ctrl_getstatus xfer w
    else if rt =? USB_RT_DFU_CLRSTATUS then
      ctrl_success (xfer, set_status OK (set_state dfuIDLE w))
    else if rt =? USB_RT_DFU_GETSTATE then
      xw <- xfer_store 0 (state_code (state w)) (xfer, w) ;;
      ctrl_success xw
    else if rt =? USB_RT_DFU_ABORT then
      ctrl_success (xfer, set_state dfuIDLE w)
    else ctrl_error xfer w.

End CtrlReq.

(** ** Interface selection *)

(** Modelled from the spec: the fields of an interface descriptor the code
    reads (usb.h is not among the sources). *)
Record usb_intf_desc : Type := mkIntf {
  bInterfaceNumber : Z;
  bAlternateSetting : Z;
  bInterfaceClass : Z;
  bInterfaceSubClass : Z;
  bInterfaceProtocol : Z
}.

(** [dfu_zones[i].f]; the table has seven rows. *)
Definition zone_field (f : zone -> Z) (i : Z) : result Z :=
  if i <? 0 then Err OutOfBounds
  else match nth_error dfu_zones (Z.to_nat i) with
       | Some z => Ok (f z)
       | None => Err OutOfBounds
       end.

Definition is_dfu_intf (d : usb_intf_desc) : bool :=
  negb (negb (bInterfaceClass d =? 0xfe)
        || negb (bInterfaceSubClass d =? 0x01)
        || negb (bInterfaceProtocol d =? 0x02)).

Definition _dfu_set_intf (base sel : usb_intf_desc) (w : world)
  : result (usb_fnd_resp * world) :=
  if negb (is_dfu_intf sel) then Ok (USB_FND_CONTINUE, w)
  else
    let w := set_state dfuIDLE w in
    let w := set_intf (bInterfaceNumber sel) w in
    let w := set_alt (bAlternateSetting sel) w in
    v <- zone_field start (alt w) ;; let w := set_addr_recv v w in
    v <- zone_field start (alt w) ;; let w := set_addr_read v w in
    v <- zone_field start (alt w) ;; let w := set_addr_prog v w in
    v <- zone_field start (alt w) ;; let w := set_addr_erase v w in
    v <- zone_field end_ (alt w) ;; let w := set_addr_end v w in
    v <- zone_field flashsel (alt w) ;; let w := set_selected v w in
    Ok (USB_FND_SUCCESS, w).


(** [usb_dfu_init]: [g_dfu] is zeroed and the state set; the statics keep
    their values, which at program start are their initialisers. *)
Definition usb_dfu_init (w : world) : world :=
  mkWorld appDETACH OK 0 0 0 0 0 0 (repeat 0 (Z.to_nat 8192)) 0 0 0 0 0 0 0 0
    FL_IDLE (prog_retry w) (should w) (spi_regs w) (flashchip w) (reboots w).

(** The program state when [usb_dfu_init] returns after start-up, on
    controller state [s]. *)
Definition boot (s : Spi.spi) : world :=
  usb_dfu_init
    (mkWorld appIDLE OK 0 0 0 0 0 0 [] 0 0 0 0 0 0 0 0 FL_IDLE PROG_RETRY 0 s
       0 0).

(** ** Runs of the machine

    What can happen to the program between two observable points: a
    callback of the function driver, a tick of the writer, or the
    environment acting on what the program reads (the USB stack storing the
    data phase of a transfer in the buffer, the controller having new
    answers pending). *)
Inductive event : Type :=
| EvStateChg (configured : bool)
| EvBusReset
| EvSetIntf (base sel : usb_intf_desc)
| EvCtrlReq (req : usb_ctrl_req) (xfer : usb_xfer)
| EvDataPhase (d : list Z)
| EvDnloadDone
| EvDetachDone
| EvTick
| EvAnswers (pending : list Z).

Definition set_answers (pending : list Z) (w : world) : world :=
  set_spi_regs
    (Spi.mkSpi (Spi.csr (spi_regs w)) pending (Spi.bus (spi_regs w))) w.

Section Runs.

Variable dfu_vendor_ctrl_req :
  usb_ctrl_req -> usb_xfer -> list Z -> Spi.spi ->
  result (usb_fnd_resp * usb_xfer * list Z * Spi.spi).

Definition step (ev : event) (w : world) : result world :=
  match ev with
  | EvStateChg configured => Ok (_dfu_state_chg configured w)
  | EvBusReset => Ok (_dfu_bus_reset w)
  | EvSetIntf base sel => '(_, w) <- _dfu_set_intf base sel w ;; Ok w
  | EvCtrlReq req xfer =>
      '(_, _, w) <- _dfu_ctrl_req dfu_vendor_ctrl_req req xfer w ;; Ok w
  | EvDataPhase d => Ok (set_data d w)
  | EvDnloadDone => Ok (_dfu_dnload_done_cb w)
  | EvDetachDone => Ok (_dfu_detach_done_cb w)
  | EvTick => _dfu_tick w
  | EvAnswers pending => Ok (set_answers pending w)
  end.

Fixpoint run (evs : list event) (w : world) : result world :=
  match evs with
  | [] => Ok w
  | ev :: evs' => w <- step ev w ;; run evs' w
  end.

(** The states the machine reaches from start-up through events that
    [allowed] admits. *)
Inductive reach (allowed : event -> world -> Prop) : world -> Prop :=
| reach_boot (s : Spi.spi) : reach allowed (boot s)
| reach_step (ev : event) (w w' : world) :
    reach allowed w -> allowed ev w -> step ev w = Ok w' -> reach allowed w'.

End Runs.


(** Any event. *)
Definition any_event (ev : event) (w : world) : Prop := True.

(** The commit callback runs only when a slot is free. *)
Definition commit_when_free (ev : event) (w : world) : Prop :=
  match ev with
  | EvDnloadDone => used w < 2
  | _ => True
  end.

(** The handler leaves [_dfu_ctrl_req] through the [goto error] of the
    bounds check of DNLOAD. *)
Definition dnload_exceeds (req : usb_ctrl_req) (w : world) : bool :=
  (wIndex req =? intf w)
  && (Z.lor (USB_REQ_TYPE req) (USB_REQ_RCPT req)
      =? Z.lor USB_REQ_TYPE_CLASS USB_REQ_RCPT_INTF)
  && negb (Z.land (dfu_valid_req (state w)) (bit (bRequest req)) =? 0)
  && (wRequestAndType req =? USB_RT_DFU_DNLOAD)
  && negb (wLength req =? 0)
  && (addr_end w <? u32 (addr_recv w + wLength req)).

(** Any event but a DNLOAD rejected for exceeding the zone. *)
Definition no_dnload_exceeds (ev : event) (w : world) : Prop :=
  match ev with
  | EvCtrlReq req _ => dnload_exceeds req w = false
  | _ => True
  end.

(** The run of [while (g_dfu.buf.used) _dfu_tick();]: ticks as long as a
    buffer is pending. *)
Inductive pumped : world -> world -> Prop :=
| pumped_done (w : world) : used w = 0 -> pumped w w
| pumped_tick (w w1 w2 : world) :
    used w <> 0 -> _dfu_tick w = Ok w1 -> pumped w1 w2 -> pumped w w2.

(** What the writer does not touch: the protocol state, the write side of
    the buffer, the host's cursors and the zone. *)
Definition writer_frame (w w' : world) : Prop :=
  state w' = state w /\ status w' = status w /\ intf w' = intf w /\
  alt w' = alt w /\ wr w' = wr w /\ data w' = data w /\
  addr_recv w' = addr_recv w /\ addr_read w' = addr_read w /\
  addr_end w' = addr_end w /\ selected w' = selected w.

(** The length of the block a tick entered in [w] works on: [op_len] as the
    tick sets it when it starts a block, or as it stands. *)
Definition block_len (w : world) : Z :=
  match op w with
  | FL_IDLE => 4096
  | _ => op_len w
  end.

(** The states the code assigns to [g_dfu.state], and the initial one. *)
Definition live_state (s : dfu_state) : Prop :=
  s = appDETACH \/ s = dfuIDLE \/ s = dfuDNLOAD_SYNC \/ s = dfuDNLOAD_IDLE \/
  s = dfuMANIFEST_SYNC \/ s = dfuERROR.

(** Two program states that differ at most in the buffer contents, the SPI
    controller and the read cursor. *)
Definition same_machine (w w' : world) : Prop :=
  state w' = state w /\ status w' = status w /\ intf w' = intf w /\
  alt w' = alt w /\ used w' = used w /\ wr w' = wr w /\ rd w' = rd w /\
  addr_recv w' = addr_recv w /\ addr_prog w' = addr_prog w /\
  addr_erase w' = addr_erase w /\ addr_end w' = addr_end w /\
  selected w' = selected w /\ op_ofs w' = op_ofs w /\ op_len w' = op_len w /\
  op w' = op w /\ prog_retry w' = prog_retry w /\ should w' = should w /\
  flashchip w' = flashchip w /\ reboots w' = reboots w.

(** What the handler of a control request does to the protocol state before
    any pumping of the writer: the state moves within the set below,
    [addr_recv] stays or takes the length of a DNLOAD, which then either
    exceeds the zone or does not; the rest stays. *)
Definition proto_step (req : usb_ctrl_req) (w w1 : world) : Prop :=
  (state w1 = state w \/ state w1 = dfuIDLE \/ state w1 = dfuDNLOAD_IDLE \/
   state w1 = dfuMANIFEST_SYNC \/ state w1 = dfuERROR) /\
  (addr_recv w1 = addr_recv w \/
   addr_recv w1 = u32 (addr_recv w + wLength req) /\
   (dnload_exceeds req w = true \/ addr_recv w1 <= addr_end w)) /\
  intf w1 = intf w /\ alt w1 = alt w /\ used w1 = used w /\ wr w1 = wr w /\
  rd w1 = rd w /\ addr_prog w1 = addr_prog w /\
  addr_erase w1 = addr_erase w /\ addr_end w1 = addr_end w /\
  selected w1 = selected w /\ op_ofs w1 = op_ofs w /\ op_len w1 = op_len w /\
  op w1 = op w /\ prog_retry w1 = prog_retry w /\ should w1 = should w /\
  flashchip w1 = flashchip w /\ reboots w1 = reboots w /\
  data w1 = data w /\ spi_regs w1 = spi_regs w /\ addr_read w1 = addr_read w.

(** The six bytes of the reply to GETSTATUS, in the stack's buffer. *)
Definition getstatus_reply (s : dfu_status) (st : dfu_state) (buf : list Z)
  : list Z :=
  [status_code s; DFU_HOST_POLL_MS; 0; 0; state_code st; 0] ++ skipn 6 buf.

(** The indices of the double buffer: both are 0 or 1, they agree when no
    or both slots are in use and differ when one is, and a writer that is
    not idle has a buffer to work on. *)
Definition buf_wf (w : world) : Prop :=
  (wr w = 0 \/ wr w = 1) /\ (rd w = 0 \/ rd w = 1) /\
  (used w = 0 /\ wr w = rd w \/ used w = 1 /\ wr w <> rd w \/
   used w = 2 /\ wr w = rd w) /\
  (op w <> FL_IDLE -> used w <> 0).


(** The program state a run leaves (the initial one when the run does not
    return). *)
Definition after_run
    (vendor : usb_ctrl_req -> usb_xfer -> list Z -> Spi.spi ->
              result (usb_fnd_resp * usb_xfer * list Z * Spi.spi))
    (evs : list event) (w : world) : world :=
  match run vendor evs w with
  | Ok w' => w'
  | Err _ => w
  end.

(** The transfer descriptor after the reply has been stored in it. *)
Definition reply_xfer (xfer : usb_xfer) (s : dfu_status) (st : dfu_state)
    (buf : list Z) : usb_xfer :=
  mkXfer (PtrStack (getstatus_reply s st buf)) (xfer_len xfer) (cb_done xfer).

(** The cursor order of section 8. *)
Definition cursor_order (w : world) : Prop :=
  addr_prog w <= addr_recv w <= addr_end w.

(** The double-buffer invariant of section 8. *)
Definition buf_inv (w : world) : Prop :=
  (used w = 0 \/ used w = 1 \/ used w = 2) /\
  (used w = 0 -> wr w = rd w) /\
  (used w = 2 -> wr w = rd w) /\
  (used w = 1 -> wr w <> rd w).

(** Every event of a run is admitted by [allowed] where it occurs. *)
Fixpoint run_allowed
    (vendor : usb_ctrl_req -> usb_xfer -> list Z -> Spi.spi ->
              result (usb_fnd_resp * usb_xfer * list Z * Spi.spi))
    (allowed : event -> world -> Prop) (evs : list event) (w : world) : Prop :=
  match evs with
  | [] => True
  | ev :: evs' =>
      allowed ev w /\
      match step vendor ev w with
      | Ok w1 => run_allowed vendor allowed evs' w1
      | Err _ => True
      end
  end.

(** ** Observations

    What the properties below look at in a program state, taken together so
    that a sample run is evaluated once. *)
Record view : Type := mkView {
  v_state : dfu_state;
  v_status : dfu_status;
  v_intf : Z;
  v_used : Z;
  v_wr : Z;
  v_rd : Z;
  v_op : flash_op;
  v_retry : Z;
  v_prog : Z;
  v_recv : Z;
  v_end : Z;
  v_reboots : nat;
  v_ops : nat;
  v_commands : list Z;
  v_answers : list Z
}.

Definition observe (w : world) : view :=
  mkView (state w) (status w) (intf w) (used w) (wr w) (rd w) (op w)
    (prog_retry w) (addr_prog w) (addr_recv w) (addr_end w) (reboots w)
    (ops w) (Spi.commands (Spi.bus (spi_regs w))) (Spi.rx (spi_regs w)).

(** A state and the state a tick leaves from it, if the tick returns. *)
Definition observe_tick (w : world) : view * option view :=
  (observe w,
   match _dfu_tick w with
   | Ok w' => Some (observe w')
   | Err _ => None
   end).

(** ** Sample inputs *)

(** A vendor handler that rejects every request. *)
Definition no_vendor (req : usb_ctrl_req) (xfer : usb_xfer) (d : list Z)
    (s : Spi.spi) : result (usb_fnd_resp * usb_xfer * list Z * Spi.spi) :=
  Ok (USB_FND_ERROR, xfer, d, s).

(** The controller after [spi_init], with [pending] answers. *)
Definition spi0 (pending : list Z) : Spi.spi := Spi.mkSpi 0xff02c0 pending [].

Definition dfu_intf (alt : Z) : usb_intf_desc := mkIntf 0 alt 0xfe 0x01 0x02.

Definition dnload_req (n : Z) : usb_ctrl_req := mkReq 0x21 1 0 0 n.
Definition getstatus_req : usb_ctrl_req := mkReq 0xa1 3 0 0 6.

(** The transfer descriptor as the stack hands it over: its own 64 bytes. *)
Definition xfer0 : usb_xfer := mkXfer (PtrStack (repeat 0 64)) 0 None.

Definition zeros : list Z := repeat 0x00 (Z.to_nat 4096).
Definition ones : list Z := repeat 0xFF (Z.to_nat 4096).

(** The machine configured and set to alternate setting [alt], from
    start-up. *)
Definition start_zone (alt : Z) : world :=
  after_run no_vendor [EvStateChg true; EvSetIntf (dfu_intf 0) (dfu_intf alt)]
    (boot (spi0 [])).

(** A block of 4096 bytes [payload] downloaded to zone 0 and committed,
    followed by the events [evs]. *)
Definition downloaded_run (payload : list Z) (evs : list event) : list event :=
  [EvCtrlReq (dnload_req 4096) xfer0; EvDataPhase (payload ++ zeros);
   EvDnloadDone] ++ evs.

Definition downloaded (payload : list Z) (evs : list event) : world :=
  after_run no_vendor (downloaded_run payload evs) (start_zone 0).

(** A block of zeroes committed, the flash erased (it answers the verify
    read with 0xFF). *)
Definition block_for_erased_flash : world :=
  downloaded zeros [EvAnswers ones].

(** A tick on a flash that holds zeroes where 0xFF is wanted, and then
    answers the status read with [sr] and the verify read with zeroes. *)
Definition failed_attempt (sr : Z) : list event :=
  [EvTick; EvAnswers (sr :: zeros)].

(** A block of 0xFF committed to a flash that stays at zero; one erase has
    been started, the flash is ready again. *)
Definition erase_under_way : world :=
  downloaded ones (EvAnswers zeros :: failed_attempt 0).

(** The same after four erases: the retry counter is at 0, the writer still
    in ERASE, and the flash answers the next status read with [sr]. *)
Definition retries_spent (sr : Z) : world :=
  downloaded ones
    (EvAnswers zeros :: failed_attempt 0 ++ failed_attempt 0 ++ failed_attempt 0
       ++ [EvTick; EvAnswers [sr]]).

(** A DNLOAD of 0x101 bytes into the 0x100 bytes of zone 6, and the state
    the handler leaves. *)
Definition over_zone6 : world :=
  after_run no_vendor [EvCtrlReq (dnload_req 0x101) xfer0] (start_zone 6).

(** A block of 100 bytes downloaded to zone 0, committed, and found in the
    flash by one tick of the writer. *)
Definition short_block_run : list event :=
  [EvCtrlReq (dnload_req 100) xfer0; EvDnloadDone;
   EvAnswers (repeat 0x00 (Z.to_nat 100) ++ repeat 0xFF (Z.to_nat 3996));
   EvTick].

Definition short_block : world :=
  after_run no_vendor short_block_run (start_zone 0).

(** A block of 4096 bytes 0xFF downloaded to zone 0 and committed, the
    end of the download announced, and the flash about to answer the
    verify read with the same bytes. *)
Definition manifest_pending_run : list event :=
  [EvCtrlReq (dnload_req 4096) xfer0; EvDataPhase (ones ++ zeros);
   EvDnloadDone; EvCtrlReq (dnload_req 0) xfer0; EvAnswers ones].

Definition manifest_pending : world :=
  after_run no_vendor manifest_pending_run (start_zone 0).

(** Two blocks downloaded to zone 0 and committed, no tick in between. *)
Definition both_slots_run : list event :=
  [EvCtrlReq (dnload_req 4096) xfer0; EvDnloadDone;
   EvCtrlReq (dnload_req 4096) xfer0; EvDnloadDone].

Definition both_slots_used : world :=
  after_run no_vendor both_slots_run (start_zone 0).

(** ** The writer's bookkeeping *)

(** What the writer keeps about its block: [addr_prog] is a multiple of the
    block size, the retry counter is within its range, [op_ofs] is a whole
    number of pages within [op_len], and a writer at work has a block of
    4096 bytes, which it has not begun while it still erases. *)
Definition writer_wf (w : world) : Prop :=
  addr_prog w mod 4096 = 0 /\ 0 <= addr_prog w < 2 ^ 32 /\
  0 <= prog_retry w <= PROG_RETRY /\
  0 <= op_ofs w <= op_len w /\ op_ofs w mod 256 = 0 /\
  (op_len w = 0 \/ op_len w = 4096) /\
  (op w <> FL_IDLE -> op_len w = 4096) /\
  (op w = FL_ERASE -> op_ofs w = 0).


(** The slot the writer works on: the 4096 bytes of [data[rd]]. *)
Definition slot (w : world) : list Z :=
  firstn (Z.to_nat 4096) (skipn (Z.to_nat (rd w * 4096)) (data w)).

(** What the tick that programs page [k] of a block does on the bus: the
    status read, write-enable, and the page-program command with the 256
    bytes of the page (newest first). *)
Definition page_tick (addr : Z) (bytes : list Z) (k : nat)
  : list Spi.bus_event :=
  Spi.transfer Spi.SPI_CS_FLASH
    (Spi.cmd_addr Spi.FLASH_CMD_PAGE_PROGRAM (addr + 256 * Z.of_nat k)
       ++ firstn 256 (skipn (256 * k) bytes)) 0
  ++ Spi.transfer Spi.SPI_CS_FLASH [Spi.FLASH_CMD_WRITE_ENABLE] 0
  ++ Spi.transfer Spi.SPI_CS_FLASH [Spi.FLASH_CMD_READ_SR1] 1.

(** The trace of the ticks that program [k] pages from page [j] on. *)
Fixpoint page_ticks (addr : Z) (bytes : list Z) (j k : nat)
  : list Spi.bus_event :=
  match k with
  | O => []
  | S k' => page_ticks addr bytes (S j) k' ++ page_tick addr bytes j
  end.

(** ** What a handler leaves *)

(** Two program states that differ at most in the buffer contents and the
    SPI controller. *)
Definition data_spi_only (w w' : world) : Prop :=
  w' = set_data (data w') (set_spi_regs (spi_regs w') w).

(** The class request is admitted by the row of the current state. *)
Definition admitted (req : usb_ctrl_req) (w : world) : Prop :=
  wIndex req = intf w /\
  Z.land (dfu_valid_req (state w)) (bit (bRequest req)) <> 0.


(** The error state comes with the error status. *)
Definition error_inv (w : world) : Prop :=
  state w = dfuERROR -> status w = errUNKNOWN.


(** Whether byte [i] of the buffer is in the padding of a block of [n]
    bytes in slot [slot]. *)
Definition in_padding (slot n : Z) (i : nat) : bool :=
  (slot * 4096 + n <=? Z.of_nat i) && (Z.of_nat i <? slot * 4096 + 4096).

(** ** More sample inputs *)

Definition upload_req (n : Z) : usb_ctrl_req := mkReq 0xa1 2 0 0 n.
Definition clrstatus_req : usb_ctrl_req := mkReq 0x21 4 0 0 0.

(** A block of 0xFF committed, the flash at zero (it answers the verify
    read with 0x00). *)
Definition block_for_zero_flash : world :=
  downloaded ones [EvAnswers zeros].

(** A block of zeroes committed to an erased flash, the first page sent,
    and the flash answering the next two status reads with "ready". *)
Definition first_page_written : world :=
  downloaded zeros [EvAnswers ones; EvTick; EvAnswers [0; 0]].

(** Zone 6 selected, its 256 bytes about to be read as 0x5A. *)
Definition zone6_readable : world :=
  after_run no_vendor [EvAnswers (repeat 0x5A (Z.to_nat 256))] (start_zone 6).

(** The machine just configured, before any interface is selected. *)
Definition just_configured : world := _dfu_state_chg true (boot (spi0 [])).


End Dfu.

(** * Properties of the SPI transport *)

Module SpiFacts.
Import Spi.

#[local] Arguments Z.testbit : simpl never.
#[local] Arguments Z.land : simpl never.
#[local] Arguments Z.lor : simpl never.
#[local] Arguments Z.lxor : simpl never.
#[local] Arguments Z.shiftl : simpl never.
#[local] Arguments Z.shiftr : simpl never.
#[local] Arguments Z.modulo : simpl never.
#[local] Arguments Z.pow : simpl never.
#[local] Arguments Z.eqb : simpl never.
#[local] Arguments Z.ltb : simpl never.
#[local] Arguments Z.leb : simpl never.
#[local] Arguments flag_e : simpl never.
#[local] Arguments flag_w : simpl never.
#[local] Arguments flag_ew : simpl never.

Ltac inv H := inversion H; subst; clear H.

(** Takes apart a hypothesis [m = Ok r] along the binds and branches of [m]. *)
Ltac step_ok :=
  match goal with
  | H : bind ?m _ = Ok _ |- _ =>
      let E := fresh "E" in destruct m eqn:E; simpl in H; [ | discriminate H ]
  | H : (let '(_, _) := ?p in _) = Ok _ |- _ => destruct p
  | H : (if ?c then _ else _) = Ok _ |- _ =>
      let E := fresh "E" in destruct c eqn:E
  | H : Ok _ = Ok _ |- _ => inv H
  | H : Err _ = Ok _ |- _ => discriminate H
  end.

Lemma poll_shorter (pending : list Z) (d : Z) (rest : list Z) :
  poll pending = Ok (d, rest) -> (length rest < length pending)%nat.
Proof.
  induction pending as [|x pending IH]; simpl; intros H; [discriminate|].
  destruct (Z.testbit x 31).
  - apply IH in H. lia.
  - inv H. lia.
Qed.

Lemma data_poll_frame (s s' : spi) (d : Z) :
  data_poll s = Ok (d, s') ->
  bus s' = bus s /\ csr s' = csr s /\ (length (rx s') < length (rx s))%nat.
Proof.
  unfold data_poll. intros H. repeat step_ok. simpl.
  repeat split. eapply poll_shorter; eauto.
Qed.

(** A data byte of a transfer adds data words to the trace only. *)
Lemma xfer_byte_frame c i buf s buf' s' :
  xfer_byte c i buf s = Ok (buf', s') ->
  spi_ops (bus s') = spi_ops (bus s) /\
  (length (rx s') <= length (rx s))%nat /\
  (read c = true -> (length (rx s') < length (rx s))%nat).
Proof.
  unfold xfer_byte. intros H. repeat step_ok.
  - apply data_poll_frame in E1 as (Hb & _ & Hr). rewrite Hb. simpl in *.
    repeat split; auto; lia.
  - simpl. repeat split; auto. congruence.
Qed.

Lemma xfer_bytes_frame c n : forall i buf s buf' s',
  xfer_bytes c n i buf s = Ok (buf', s') ->
  spi_ops (bus s') = spi_ops (bus s) /\
  (length (rx s') <= length (rx s))%nat /\
  (read c = true -> n <> O -> (length (rx s') < length (rx s))%nat).
Proof.
  induction n as [|n IH]; simpl; intros i buf s buf' s' H.
  - inv H. repeat split; auto; congruence.
  - repeat step_ok. apply xfer_byte_frame in E as (A1 & A2 & A3).
    apply IH in H as (B1 & B2 & _).
    repeat split; try congruence; try lia.
    intros R _. specialize (A3 R). lia.
Qed.

Lemma xfer_chunks_frame xfer : forall n s xfer' s',
  xfer_chunks xfer n s = Ok (xfer', s') ->
  spi_ops (bus s') = spi_ops (bus s) /\
  (length (rx s') <= length (rx s))%nat.
Proof.
  induction xfer as [|c xfer IH]; intros [|n] s xfer' s' H; simpl in H;
    try discriminate; try (inv H; split; auto; fail).
  repeat step_ok.
  apply xfer_bytes_frame in E as (A1 & A2 & _).
  apply IH in E0 as (B1 & B2). split; [congruence | lia].
Qed.

(** A transfer is one SPI operation. *)
Lemma spi_xfer_one_op cs xfer n s xfer' s' :
  spi_xfer cs xfer n s = Ok (xfer', s') ->
  spi_ops (bus s') = S (spi_ops (bus s)) /\
  (length (rx s') <= length (rx s))%nat.
Proof.
  unfold spi_xfer. intros H. repeat step_ok.
  apply xfer_chunks_frame in E as (A1 & A2). simpl in *. split; [congruence | lia].
Qed.

Lemma verify_byte_frame c i v s v' s' :
  verify_byte c i v s = Ok (v', s') ->
  spi_ops (bus s') = spi_ops (bus s) /\
  (length (rx s') <= length (rx s))%nat /\
  (read c = true -> (length (rx s') < length (rx s))%nat).
Proof.
  unfold verify_byte. intros H. repeat step_ok.
  - apply data_poll_frame in E1 as (Hb & _ & Hr). rewrite Hb. simpl in *.
    repeat split; auto; lia.
  - simpl. repeat split; auto. congruence.
Qed.

Lemma verify_bytes_frame c n : forall i v s v' s',
  verify_bytes c n i v s = Ok (v', s') ->
  spi_ops (bus s') = spi_ops (bus s) /\
  (length (rx s') <= length (rx s))%nat /\
  (read c = true -> n <> O -> (length (rx s') < length (rx s))%nat).
Proof.
  induction n as [|n IH]; simpl; intros i v s v' s' H.
  - inv H. repeat split; auto; congruence.
  - repeat step_ok. apply verify_byte_frame in E as (A1 & A2 & A3).
    apply IH in H as (B1 & B2 & _).
    repeat split; try congruence; try lia.
    intros R _. specialize (A3 R). lia.
Qed.

Lemma verify_chunks_frame xfer : forall n v s v' s',
  verify_chunks xfer n v s = Ok (v', s') ->
  spi_ops (bus s') = spi_ops (bus s) /\
  (length (rx s') <= length (rx s))%nat.
Proof.
  induction xfer as [|c xfer IH]; intros [|n] v s v' s' H; simpl in H;
    try discriminate; try (inv H; split; auto; fail).
  repeat step_ok.
  apply verify_bytes_frame in E as (A1 & A2 & _).
  apply IH in H as (B1 & B2). split; [congruence | lia].
Qed.

Lemma spi_xfer_verify_one_op cs xfer n s r s' :
  spi_xfer_verify cs xfer n s = Ok (r, s') ->
  spi_ops (bus s') = S (spi_ops (bus s)) /\
  (length (rx s') <= length (rx s))%nat.
Proof.
  unfold spi_xfer_verify. intros H. repeat step_ok;
  apply verify_chunks_frame in E as (A1 & A2); simpl in *;
    (split; [congruence | lia]).
Qed.

(** ** What the verify transfer returns *)

Lemma flag_e_cons e a p :
  flag_e ((e, a) :: p) = Z.lor (if Z.land e a =? e then 0 else 1) (flag_e p).
Proof.
  unfold flag_e, erase_needed. simpl.
  destruct (Z.land e a =? e); simpl; [reflexivity|].
  destruct (existsb _ p); reflexivity.
Qed.

Lemma flag_w_cons e a p :
  flag_w ((e, a) :: p) = Z.lor (if e =? a then 0 else 2) (flag_w p).
Proof.
  unfold flag_w, write_needed. simpl.
  destruct (e =? a); simpl; [reflexivity|].
  destruct (existsb _ p); reflexivity.
Qed.

Lemma flag_ew_cons e a p :
  flag_ew ((e, a) :: p) = Z.lor (if e =? 0xFF then 1 else 3) (flag_ew p).
Proof.
  unfold flag_ew, all_erased. simpl.
  destruct (e =? 255); simpl.
  - destruct p as [|q p]; [reflexivity|].
    destruct (forallb _ (q :: p)); reflexivity.
  - destruct p as [|q p]; [reflexivity|].
    destruct (forallb _ (q :: p)); reflexivity.
Qed.

Lemma verify_bytes_acc c n : forall i v s v' s',
  verify_bytes c n i v s = Ok (v', s') ->
  let p := fst (compared_bytes c n i (rx s)) in
  rx s' = snd (compared_bytes c n i (rx s)) /\
  should_e v' = Z.lor (should_e v) (flag_e p) /\
  should_ew v' = Z.lor (should_ew v) (flag_ew p) /\
  should_w v' = Z.lor (should_w v) (flag_w p).
Proof.
  induction n as [|n IH]; intros i v s v' s' H; simpl in H.
  - inv H. simpl. rewrite !Z.lor_0_r. auto.
  - destruct (verify_byte c i v s) as [[v1 s1]|] eqn:E; simpl in H;
      [|discriminate].
    apply IH in H. cbv zeta in H. destruct H as (Hr & He & Hew & Hw).
    unfold verify_byte in E.
    destruct (tx_word c (data c) i) as [d|] eqn:Ed; simpl in E; [|discriminate].
    cbn [compared_bytes]. cbv zeta.
    destruct (read c) eqn:R.
    + unfold data_poll in E. simpl in E.
      destruct (poll (rx s)) as [[d' rest]|] eqn:Ep; simpl in E; [|discriminate].
      unfold load in E.
      destruct (nth_error (data c) i) as [e|] eqn:En; simpl in E; [|discriminate].
      inv E. simpl in *.
      destruct (compared_bytes c n (S i) rest) as [l rest'] eqn:Ec. simpl in *.
      rewrite flag_e_cons, flag_ew_cons, flag_w_cons.
      rewrite He, Hew, Hw, !Z.lor_assoc. auto.
    + inv E. simpl in *. auto.
Qed.

Lemma flag_e_app p q : flag_e (p ++ q) = Z.lor (flag_e p) (flag_e q).
Proof.
  induction p as [|[e a] p IH]; [reflexivity|].
  simpl app. rewrite !flag_e_cons, IH, Z.lor_assoc. reflexivity.
Qed.

Lemma flag_w_app p q : flag_w (p ++ q) = Z.lor (flag_w p) (flag_w q).
Proof.
  induction p as [|[e a] p IH]; [reflexivity|].
  simpl app. rewrite !flag_w_cons, IH, Z.lor_assoc. reflexivity.
Qed.

Lemma flag_ew_app p q : flag_ew (p ++ q) = Z.lor (flag_ew p) (flag_ew q).
Proof.
  induction p as [|[e a] p IH]; [reflexivity|].
  simpl app. rewrite !flag_ew_cons, IH, Z.lor_assoc. reflexivity.
Qed.

Lemma verify_chunks_acc xfer : forall n v s v' s',
  verify_chunks xfer n v s = Ok (v', s') ->
  let p := compared xfer n (rx s) in
  should_e v' = Z.lor (should_e v) (flag_e p) /\
  should_ew v' = Z.lor (should_ew v) (flag_ew p) /\
  should_w v' = Z.lor (should_w v) (flag_w p).
Proof.
  induction xfer as [|c xfer IH]; intros [|n] v s v' s' H; simpl in H;
    try discriminate;
    try (inv H; simpl; rewrite !Z.lor_0_r; auto; fail).
  destruct (verify_bytes c (len c) 0 v s) as [[v1 s1]|] eqn:E; simpl in H;
    [|discriminate].
  apply verify_bytes_acc in E. cbv zeta in E. destruct E as (Hr & He & Hew & Hw).
  apply IH in H. cbv zeta in H. destruct H as (He' & Hew' & Hw').
  cbn [compared]. destruct (compared_bytes c (len c) 0 (rx s)) as [l rest].
  simpl in *. subst rest.
  rewrite flag_e_app, flag_ew_app, flag_w_app.
  rewrite He', Hew', Hw', He, Hew, Hw, !Z.lor_assoc. auto.
Qed.

Lemma verify_code_flags p :
  verify_code p = if flag_e p =? 0 then flag_w p else flag_ew p.
Proof.
  unfold verify_code, flag_e, flag_w, flag_ew.
  destruct (erase_needed p) eqn:E; simpl.
  - destruct p; [discriminate E | reflexivity].
  - reflexivity.
Qed.

Lemma erase_needs_write p : erase_needed p = true -> write_needed p = true.
Proof.
  unfold erase_needed, write_needed.
  induction p as [|[e a] p IH]; simpl; [discriminate|].
  destruct (e =? a) eqn:E; simpl.
  - apply Z.eqb_eq in E. subst a. rewrite Z.land_diag, Z.eqb_refl. simpl. exact IH.
  - reflexivity.
Qed.

(** C2 (amended).  Whatever the chip select and the chunks, the verify
    transfer returns one of 0, 1, 2, 3, computed from the compared pairs
    (expected, actual): 0 or 2 when no byte needs an erase, and when one
    does, 1 if every expected byte compared is 0xFF and 3 otherwise.  So it
    is the two-bit code of section 4.A except that erase-only (1) is
    returned, with the write bit clear, when an erase alone produces the
    expected bytes. *)
Theorem spi_xfer_verify_code cs xfer n s r s' :
  spi_xfer_verify cs xfer n s = Ok (r, s') ->
  let p := compared xfer n (rx s) in
  r = verify_code p /\
  (r = 0 \/ r = 1 \/ r = 2 \/ r = 3) /\
  (r = 1 <-> erase_needed p = true /\ all_erased p = true) /\
  r = (if erase_needed p && all_erased p then 1 else diff_bits p).
Proof.
  intros H p.
  assert (Hr : r = verify_code p).
  { unfold spi_xfer_verify in H.
    destruct (verify_chunks xfer n (mkShould 0 0 0) (cs_low cs s))
      as [[v s1]|] eqn:E; simpl in H; [|discriminate].
    apply verify_chunks_acc in E. cbv zeta in E. simpl in E.
    destruct E as (He & Hew & Hw). fold p in He, Hew, Hw.
    rewrite verify_code_flags.
    rewrite Z.lor_0_l in He, Hew, Hw. rewrite <- He, <- Hew, <- Hw.
    destruct (should_e v =? 0); inv H; reflexivity. }
  subst r. unfold verify_code, diff_bits.
  destruct (erase_needed p) eqn:Ee.
  - rewrite (erase_needs_write p Ee).
    destruct (all_erased p); simpl; repeat split; auto; try discriminate;
      intros [_ ?]; discriminate.
  - destruct (write_needed p); simpl; repeat split; auto; try discriminate;
      intros [? _]; discriminate.
Qed.

(** C2: the claim fails on a single byte: the caller expects 0xFF, the flash
    holds 0x00; an erase is needed and nothing is left to write after it,
    and the transfer returns 1. *)
Lemma spi_xfer_verify_returns_1 :
  spi_xfer_verify SPI_CS_FLASH [mkChunk [0xFF] 1 true false] 1
    (mkSpi 0xff02c0 [0x00] [])
  = Ok (1, mkSpi 0xff02c0 []
             [CsHigh SPI_CS_FLASH; DataWr 0x100; CsLow SPI_CS_FLASH]) /\
  ~ (1 = 0 \/ 1 = 2 \/ 1 = 3) /\
  Z.testbit 1 0 = true /\ Z.testbit 1 1 = false.
Proof.
  split; [vm_compute; reflexivity|].
  split; [intros [H|[H|H]]; discriminate H|].
  split; reflexivity.
Qed.

Lemma spi_xfer_verify_code_witness :
  let p := compared [mkChunk [0xFF] 1 true false] 1 [0x00] in
  1 = verify_code p /\
  (1 = 0 \/ 1 = 1 \/ 1 = 2 \/ 1 = 3) /\
  (1 = 1 <-> erase_needed p = true /\ all_erased p = true) /\
  1 = (if erase_needed p && all_erased p then 1 else diff_bits p).
Proof.
  apply (spi_xfer_verify_code SPI_CS_FLASH [mkChunk [0xFF] 1 true false] 1
           (mkSpi 0xff02c0 [0x00] []) 1
           (mkSpi 0xff02c0 []
              [CsHigh SPI_CS_FLASH; DataWr 0x100; CsLow SPI_CS_FLASH])).
  vm_compute. reflexivity.
Defined.

End SpiFacts.

(** * Properties of the flash writer and the DFU machine *)

Module DfuFacts.
Import Dfu.
Import SpiFacts.

#[local] Arguments Z.testbit : simpl never.
#[local] Arguments Z.land : simpl never.
#[local] Arguments Z.lor : simpl never.
#[local] Arguments Z.lxor : simpl never.
#[local] Arguments Z.shiftl : simpl never.
#[local] Arguments Z.shiftr : simpl never.
#[local] Arguments Z.modulo : simpl never.
#[local] Arguments Z.pow : simpl never.
#[local] Arguments Z.eqb : simpl never.
#[local] Arguments Z.ltb : simpl never.
#[local] Arguments Z.leb : simpl never.
#[local] Arguments Z.add : simpl never.
#[local] Arguments Z.sub : simpl never.
#[local] Arguments Z.mul : simpl never.
#[local] Arguments u8 : simpl never.
#[local] Arguments u32 : simpl never.
#[local] Arguments s32 : simpl never.

Lemma flash_cmd_one_op cmd s s' :
  Spi.flash_cmd cmd s = Ok s' ->
  Spi.spi_ops (Spi.bus s') = S (Spi.spi_ops (Spi.bus s)) /\
  (length (Spi.rx s') <= length (Spi.rx s))%nat.
Proof.
  unfold Spi.flash_cmd. intros H. repeat step_ok.
  eapply spi_xfer_one_op; eauto.
Qed.

Lemma flash_erase_one_op cmd addr s s' :
  Spi._flash_erase cmd addr s = Ok s' ->
  Spi.spi_ops (Spi.bus s') = S (Spi.spi_ops (Spi.bus s)) /\
  (length (Spi.rx s') <= length (Spi.rx s))%nat.
Proof.
  unfold Spi._flash_erase. intros H. repeat step_ok.
  eapply spi_xfer_one_op; eauto.
Qed.

Lemma flash_page_program_one_op src addr n s s' :
  Spi.flash_page_program src addr n s = Ok s' ->
  Spi.spi_ops (Spi.bus s') = S (Spi.spi_ops (Spi.bus s)) /\
  (length (Spi.rx s') <= length (Spi.rx s))%nat.
Proof.
  unfold Spi.flash_page_program. intros H. repeat step_ok.
  eapply spi_xfer_one_op; eauto.
Qed.

Lemma flash_read_one_op dst addr n s dst' s' :
  Spi.flash_read dst addr n s = Ok (dst', s') ->
  Spi.spi_ops (Spi.bus s') = S (Spi.spi_ops (Spi.bus s)) /\
  (length (Spi.rx s') <= length (Spi.rx s))%nat.
Proof.
  unfold Spi.flash_read. intros H. repeat step_ok.
  eapply spi_xfer_one_op; eauto.
Qed.

(** The status read: its four bus events, and one answer taken. *)
Lemma flash_read_sr_trace s rv s' :
  Spi.flash_read_sr s = Ok (rv, s') ->
  Spi.bus s' =
    [Spi.CsHigh Spi.SPI_CS_FLASH; Spi.DataWr 0x100;
     Spi.DataWr Spi.FLASH_CMD_READ_SR1; Spi.CsLow Spi.SPI_CS_FLASH] ++ Spi.bus s /\
  (length (Spi.rx s') < length (Spi.rx s))%nat.
Proof.
  unfold Spi.flash_read_sr, Spi.spi_xfer. simpl.
  unfold Spi.xfer_byte, Spi.tx_word. simpl.
  unfold Spi.data_poll. simpl.
  destruct (Spi.poll (Spi.rx s)) as [[d rest]|] eqn:E; simpl; [|discriminate].
  intros H. inv H. simpl. split; [reflexivity|].
  eapply poll_shorter; eauto.
Qed.

Lemma flash_verify_one_op dst addr n s r s' :
  Spi.flash_verify dst addr n s = Ok (r, s') ->
  Spi.spi_ops (Spi.bus s') = S (Spi.spi_ops (Spi.bus s)) /\
  (length (Spi.rx s') <= length (Spi.rx s))%nat /\
  (n <> O -> (length (Spi.rx s') < length (Spi.rx s))%nat).
Proof.
  intros H. pose proof H as H0.
  apply spi_xfer_verify_one_op in H0 as (A & B). repeat split; auto.
  intros Hn. unfold Spi.flash_verify, Spi.spi_xfer_verify in H.
  cbn [Spi.verify_chunks Spi.len Spi.data] in H.
  destruct (Spi.verify_bytes _ 4 0 _ _) as [[v1 s1]|] eqn:E1; simpl in H;
    [|discriminate].
  destruct (Spi.verify_bytes _ n 0 v1 s1) as [[v2 s2]|] eqn:E2; simpl in H;
    [|discriminate].
  apply verify_bytes_frame in E1 as (_ & L1 & _).
  apply verify_bytes_frame in E2 as (_ & _ & L2).
  specialize (L2 eq_refl Hn). simpl in *.
  destruct (Spi.should_e v2 =? 0); inv H; simpl; lia.
Qed.

#[local] Arguments Spi.flash_read_sr : simpl never.
#[local] Arguments Spi.flash_verify : simpl never.
#[local] Arguments Spi.flash_write_enable : simpl never.
#[local] Arguments Spi.flash_sector_erase : simpl never.
#[local] Arguments Spi.flash_page_program : simpl never.
#[local] Arguments Spi.flash_read : simpl never.
#[local] Arguments buf_at : simpl never.
#[local] Arguments Z.to_nat : simpl never.

Lemma spi_step_inv f w w' :
  spi_step f w = Ok w' ->
  exists s, f (spi_regs w) = Ok s /\ w' = set_spi_regs s w.
Proof.
  unfold spi_step. intros H. repeat step_ok. eauto.
Qed.


Lemma bind_ok {A B : Type} (m : result A) (k : A -> result B) (b : B) :
  bind m k = Ok b -> exists a, m = Ok a /\ k a = Ok b.
Proof. destruct m; simpl; intros H; [eauto|discriminate]. Qed.

(** Takes apart a hypothesis [m = Ok r] of the writer along its binds and
    branches, leaving the calls of the flash driver as they are. *)
Ltac tick_step :=
  match goal with
  | H : bind _ _ = Ok _ |- _ =>
      let a := fresh "a" in
      let E := fresh "E" in
      apply bind_ok in H as (a & E & H); cbv beta zeta in H
  | H : (let '(_, _) := ?p in _) = Ok _ |- _ => destruct p; cbv beta iota zeta in H
  | H : (if ?c then _ else _) = Ok _ |- _ =>
      let E := fresh "E" in destruct c eqn:E
  | H : match op ?w with _ => _ end = Ok _ |- _ =>
      let E := fresh "E" in destruct (op w) eqn:E
  | H : Ok _ = Ok _ |- _ => inv H
  | H : Err _ = Ok _ |- _ => discriminate H
  | H : spi_step _ _ = Ok _ |- _ =>
      let s := fresh "s" in
      apply spi_step_inv in H as (s & H & ->)
  end.

(** ** Runs *)

Lemma reach_inv vendor allowed (I : world -> Prop) :
  (forall s, I (boot s)) ->
  (forall ev w w', I w -> allowed ev w -> step vendor ev w = Ok w' -> I w') ->
  forall w, reach vendor allowed w -> I w.
Proof. intros Hb Hs w H. induction H; eauto. Qed.

Lemma run_reach vendor allowed evs : forall w w',
  reach vendor allowed w -> run_allowed vendor allowed evs w ->
  run vendor evs w = Ok w' -> reach vendor allowed w'.
Proof.
  induction evs as [|ev evs IH]; intros w w' Hr Ha H; simpl in H.
  - inv H. exact Hr.
  - apply bind_ok in H as (w1 & E & H). simpl in Ha. destruct Ha as (A1 & A2).
    rewrite E in A2.
    eapply IH; [|exact A2|exact H]. eapply reach_step; eauto.
Qed.

Lemma start_zone_run alt :
  0 <= alt <= 6 ->
  run no_vendor [EvStateChg true; EvSetIntf (dfu_intf 0) (dfu_intf alt)]
    (boot (spi0 [])) = Ok (start_zone alt).
Proof.
  intros Ha. unfold start_zone, after_run.
  assert (H : alt = 0 \/ alt = 1 \/ alt = 2 \/ alt = 3 \/ alt = 4 \/ alt = 5 \/
              alt = 6) by lia.
  repeat (destruct H as [H|H]; [subst alt; vm_compute; reflexivity|]).
  subst alt. vm_compute. reflexivity.
Qed.

Lemma start_zone_reach allowed alt :
  0 <= alt <= 6 ->
  (forall ev w, (forall req x, ev <> EvCtrlReq req x) -> ev <> EvDnloadDone ->
                allowed ev w) ->
  reach no_vendor allowed (start_zone alt).
Proof.
  intros Ha Hall.
  eapply run_reach; [apply reach_boot| |apply start_zone_run; exact Ha].
  simpl. split; [apply Hall; discriminate|].
  split; [apply Hall; discriminate|].
  destruct (_dfu_set_intf _ _ _) as [[r w]|]; simpl; exact I.
Qed.


Lemma commit_when_free_other ev w :
  (forall req x, ev <> EvCtrlReq req x) -> ev <> EvDnloadDone ->
  commit_when_free ev w.
Proof. intros _ H. destruct ev; simpl; auto. congruence. Qed.

Lemma no_dnload_exceeds_other ev w :
  (forall req x, ev <> EvCtrlReq req x) -> ev <> EvDnloadDone ->
  no_dnload_exceeds ev w.
Proof. intros H _. destruct ev; simpl; auto. exfalso. eapply H; eauto. Qed.

Lemma run_allowed_any vendor evs : forall w,
  run_allowed vendor any_event evs w.
Proof.
  induction evs as [|ev evs IH]; intros w; simpl; [exact I|].
  split; [exact I|]. destruct (step vendor ev w); auto.
Qed.

(** What a run leaves is reached. *)
Lemma after_run_reach vendor evs w :
  reach vendor any_event w -> reach vendor any_event (after_run vendor evs w).
Proof.
  intros Hr. unfold after_run.
  destruct (run vendor evs w) as [w'|] eqn:E; [|exact Hr].
  eapply run_reach; [exact Hr|apply run_allowed_any|exact E].
Qed.

Lemma downloaded_reach payload evs :
  reach no_vendor any_event (downloaded payload evs).
Proof.
  unfold downloaded. apply after_run_reach.
  unfold start_zone. apply after_run_reach. apply reach_boot.
Qed.

Lemma observe_fields w st e i u wi ri o r p rc en rb n cs an :
  observe w = mkView st e i u wi ri o r p rc en rb n cs an ->
  state w = st /\ status w = e /\ intf w = i /\ used w = u /\ wr w = wi /\
  rd w = ri /\ op w = o /\ prog_retry w = r /\ addr_prog w = p /\
  addr_recv w = rc /\ addr_end w = en /\ reboots w = rb /\ ops w = n /\
  Spi.commands (Spi.bus (spi_regs w)) = cs /\ Spi.rx (spi_regs w) = an.
Proof.
  unfold observe. intros H. injection H as <- <- <- <- <- <- <- <- <- <- <- <- <- <- <-.
  repeat apply conj; reflexivity.
Qed.

Lemma observe_tick_inv w v v' :
  observe_tick w = (v, Some v') ->
  observe w = v /\ _dfu_tick w = Ok (after_tick w) /\ observe (after_tick w) = v'.
Proof.
  unfold observe_tick, after_tick. destruct (_dfu_tick w) as [w'|].
  - intros H. injection H as H1 H2. auto.
  - intros H. discriminate H.
Qed.

(** The status read on a controller whose next answer is ready. *)
Lemma flash_read_sr_answer s sr rest :
  Spi.rx s = sr :: rest -> Z.testbit sr 31 = false ->
  exists s', Spi.flash_read_sr s = Ok (u8 sr, s').
Proof.
  intros Hrx Hb. unfold Spi.flash_read_sr, Spi.spi_xfer. simpl.
  unfold Spi.xfer_byte, Spi.tx_word. simpl.
  unfold Spi.data_poll. simpl. rewrite Hrx. simpl. rewrite Hb. simpl.
  eexists. reflexivity.
Qed.

(** ** The sample states, before and after a tick *)

Lemma block_for_erased_flash_tick :
  observe_tick block_for_erased_flash =
    (mkView dfuDNLOAD_SYNC OK 0 1 1 0 FL_IDLE 4 0x200000 0x201000 0x1000000
       0 0 [] ones,
     Some (mkView dfuDNLOAD_SYNC OK 0 1 1 0 FL_PROGRAM 4 0x200000 0x201000
             0x1000000 0 3 [2; 6; 3] [])).
Proof. vm_compute. reflexivity. Qed.

Lemma erase_under_way_tick :
  observe_tick erase_under_way =
    (mkView dfuDNLOAD_SYNC OK 0 1 1 0 FL_ERASE 3 0x200000 0x201000 0x1000000
       0 3 [0x20; 6; 3] (0 :: zeros),
     Some (mkView dfuDNLOAD_SYNC OK 0 1 1 0 FL_ERASE 2 0x200000 0x201000
             0x1000000 0 7 [0x20; 6; 3; 5; 0x20; 6; 3] [])).
Proof. vm_compute. reflexivity. Qed.

Lemma retries_spent_busy_tick :
  observe_tick (retries_spent 1) =
    (mkView dfuDNLOAD_SYNC OK 0 1 1 0 FL_ERASE 0 0x200000 0x201000 0x1000000
       0 15 [0x20; 6; 3; 5; 0x20; 6; 3; 5; 0x20; 6; 3; 5; 0x20; 6; 3] [1],
     Some (mkView dfuDNLOAD_SYNC OK 0 1 1 0 FL_ERASE 0 0x200000 0x201000
             0x1000000 0 16
             [5; 0x20; 6; 3; 5; 0x20; 6; 3; 5; 0x20; 6; 3; 5; 0x20; 6; 3] [])).
Proof. vm_compute. reflexivity. Qed.

Lemma retries_spent_ready_tick :
  observe_tick (retries_spent 0) =
    (mkView dfuDNLOAD_SYNC OK 0 1 1 0 FL_ERASE 0 0x200000 0x201000 0x1000000
       0 15 [0x20; 6; 3; 5; 0x20; 6; 3; 5; 0x20; 6; 3; 5; 0x20; 6; 3] [0],
     Some (mkView dfuDNLOAD_SYNC OK 0 0 1 1 FL_IDLE 0 0x200000 0x201000
             0x1000000 1 16
             [5; 0x20; 6; 3; 5; 0x20; 6; 3; 5; 0x20; 6; 3; 5; 0x20; 6; 3] [])).
Proof. vm_compute. reflexivity. Qed.

Lemma manifest_pending_tick :
  observe_tick (set_state dfuIDLE manifest_pending) =
    (mkView dfuIDLE OK 0 1 1 0 FL_IDLE 4 0x200000 0x201000 0x1000000
       0 0 [] ones,
     Some (mkView dfuIDLE OK 0 0 1 1 FL_IDLE 4 0x201000 0x201000 0x1000000
             0 1 [3] [])).
Proof. vm_compute. reflexivity. Qed.

(** ** SPI operations of a tick *)

Lemma tick_gate_ops w go w1 :
  tick_gate w = Ok (go, w1) -> (ops w1 <= ops w + 1)%nat.
Proof.
  unfold tick_gate, ops. intros H. repeat tick_step; simpl; try lia.
  all: apply flash_read_sr_trace in E0 as (-> & _); simpl; lia.
Qed.




Ltac flash_facts :=
  repeat match goal with
  | H : Spi.flash_write_enable _ = Ok _ |- _ =>
      apply flash_cmd_one_op in H as (? & ?)
  | H : Spi.flash_sector_erase _ _ = Ok _ |- _ =>
      apply flash_erase_one_op in H as (? & ?)
  | H : Spi.flash_page_program _ _ _ _ = Ok _ |- _ =>
      apply flash_page_program_one_op in H as (? & ?)
  | H : Spi.flash_verify _ _ _ _ = Ok _ |- _ =>
      apply flash_verify_one_op in H as (? & ? & ?)
  | H : Spi.flash_read_sr _ = Ok _ |- _ =>
      apply flash_read_sr_trace in H as (? & ?)
  | H : Spi.flash_read _ _ _ _ = Ok _ |- _ =>
      apply flash_read_one_op in H as (? & ?)
  end.

Ltac retry_cases :=
  unfold retry_dec in *;
  repeat match goal with
  | |- context [if prog_retry ?w =? 0 then _ else _] =>
      destruct (prog_retry w =? 0) eqn:?
  end.

Lemma tick_erase_ops w w1 :
  tick_erase w = Ok w1 ->
  (op w1 = FL_PROGRAM /\ ops w1 = S (ops w)) \/
  (op w1 = op w /\ ops w1 = S (S (S (ops w)))).
Proof.
  unfold tick_erase, ops. intros H. repeat tick_step; flash_facts; simpl in *.
  - left. auto.
  - right. retry_cases; simpl in *; split; auto; congruence.
Qed.

Lemma tick_program_ops w w1 :
  tick_program w = Ok w1 -> (ops w1 <= ops w + 2)%nat.
Proof.
  unfold tick_program, ops. intros H. repeat tick_step; simpl;
    retry_cases; simpl; try lia.
  flash_facts. simpl in *. lia.
Qed.

Lemma tick_work_ops w w1 :
  tick_work w = Ok w1 -> (ops w1 <= ops w + 3)%nat.
Proof.
  unfold tick_work, flashchip_select, tick_fatal, usb_dfu_cb_reboot.
  intros H. simpl in H.
  destruct (prog_retry w =? 0); [inv H; unfold ops; simpl; lia|].
  change (ops w) with (ops (set_flashchip (selected w) w)).
  destruct (op w) eqn:Eop; simpl in H.
  - rewrite Eop in H. inv H. lia.
  - destruct (tick_erase _) as [w2|] eqn:E; simpl in H; [|discriminate].
    apply tick_erase_ops in E. simpl in E. rewrite Eop in E.
    destruct E as [(Ep & Ho) | (Ep & Ho)]; rewrite Ep in H.
    + apply tick_program_ops in H. lia.
    + inv H. lia.
  - rewrite Eop in H. apply tick_program_ops in H. lia.
Qed.

(** C1 (amended).  One invocation of the writer tick performs at most four
    SPI operations: the status read, the verify read, and a write-enable
    with the sector erase or page program it precedes. *)
Theorem tick_spi_ops_bound w w' :
  _dfu_tick w = Ok w' -> (ops w' <= ops w + 4)%nat.
Proof.
  unfold _dfu_tick. intros H.
  destruct (tick_gate w) as [[go w1]|] eqn:E; simpl in H; [|discriminate].
  apply tick_gate_ops in E. destruct go.
  - apply tick_work_ops in H. lia.
  - inv H. lia.
Qed.

(** C1: the claim fails on the first tick after a block is committed to an
    erased flash: the verify read, a write-enable and a page program are
    three operations of one invocation. *)
Lemma tick_three_spi_ops :
  reach no_vendor any_event block_for_erased_flash /\
  ops block_for_erased_flash = 0%nat /\
  _dfu_tick block_for_erased_flash = Ok (after_tick block_for_erased_flash) /\
  ops (after_tick block_for_erased_flash) = 3%nat /\
  Spi.commands (Spi.bus (spi_regs (after_tick block_for_erased_flash)))
    = [Spi.FLASH_CMD_PAGE_PROGRAM; Spi.FLASH_CMD_WRITE_ENABLE;
       Spi.FLASH_CMD_READ_DATA].
Proof.
  destruct (observe_tick_inv _ _ _ block_for_erased_flash_tick) as (Hv & Ht & Hv').
  apply observe_fields in Hv, Hv'.
  destruct Hv as (_ & _ & _ & _ & _ & _ & _ & _ & _ & _ & _ & _ & Hn & _).
  destruct Hv' as (_ & _ & _ & _ & _ & _ & _ & _ & _ & _ & _ & _ & Hn' & Hc & _).
  split; [unfold block_for_erased_flash; apply downloaded_reach|].
  split; [exact Hn|]. split; [exact Ht|]. split; [exact Hn'|exact Hc].
Qed.

(** The bound is reached: with an erase under way and the flash still not
    erased, a tick reads the status, verifies, enables writing and erases. *)
Example tick_four_spi_ops :
  reach no_vendor any_event erase_under_way /\
  _dfu_tick erase_under_way = Ok (after_tick erase_under_way) /\
  (ops (after_tick erase_under_way) = ops erase_under_way + 4)%nat /\
  Spi.commands (Spi.bus (spi_regs (after_tick erase_under_way)))
    = [Spi.FLASH_CMD_SECTOR_ERASE; Spi.FLASH_CMD_WRITE_ENABLE;
       Spi.FLASH_CMD_READ_DATA; Spi.FLASH_CMD_READ_SR1]
      ++ Spi.commands (Spi.bus (spi_regs erase_under_way)).
Proof.
  destruct (observe_tick_inv _ _ _ erase_under_way_tick) as (Hv & Ht & Hv').
  apply observe_fields in Hv, Hv'.
  destruct Hv as (_ & _ & _ & _ & _ & _ & _ & _ & _ & _ & _ & _ & Hn & Hc & _).
  destruct Hv' as (_ & _ & _ & _ & _ & _ & _ & _ & _ & _ & _ & _ & Hn' & Hc' & _).
  split; [unfold erase_under_way; apply downloaded_reach|]. split; [exact Ht|].
  rewrite Hn, Hn', Hc, Hc'. split; reflexivity.
Qed.

Lemma tick_spi_ops_bound_witness :
  (ops (after_tick erase_under_way) <= ops erase_under_way + 4)%nat.
Proof.
  apply (tick_spi_ops_bound erase_under_way).
  apply (observe_tick_inv _ _ _ erase_under_way_tick).
Defined.

(** ** Retry exhaustion *)

Lemma tick_idle_exhausted w :
  op w = FL_IDLE -> prog_retry w = 0 -> used w <> 0 ->
  _dfu_tick w =
    Ok (tick_fatal
          (flashchip_select (selected w)
             (set_op_ofs 0 (set_op_len 4096 (set_op FL_ERASE w))))).
Proof.
  intros Ho Hr Hu. unfold _dfu_tick, tick_gate. rewrite Ho.
  apply Z.eqb_neq in Hu. rewrite Hu. simpl.
  unfold tick_work. simpl. rewrite Hr. reflexivity.
Qed.

Lemma tick_busy_exhausted w sr s :
  op w <> FL_IDLE -> prog_retry w = 0 ->
  Spi.flash_read_sr (spi_regs w) = Ok (sr, s) -> Z.land sr 1 = 0 ->
  _dfu_tick w =
    Ok (tick_fatal (flashchip_select (selected w) (set_spi_regs s w))).
Proof.
  intros Ho Hr Hs Hb. unfold _dfu_tick, tick_gate.
  destruct (op w) eqn:E; [congruence| |];
    rewrite Hs; simpl; rewrite Hb; simpl;
    unfold tick_work; simpl; rewrite Hr; reflexivity.
Qed.

(** C8 (amended).  A tick entered with a pending buffer and the retry
    counter at 0 that gets past the first test of [_dfu_tick] (the writer
    is idle, or the status read finds the flash not busy) sets [op] to
    IDLE, releases the read slot, calls the reboot hook and leaves
    [addr_prog] and the counter as they are; the only command it may have
    issued is that status read. *)
Theorem tick_retry_exhausted w :
  used w <> 0 -> prog_retry w = 0 ->
  (op w = FL_IDLE \/
   exists sr s, Spi.flash_read_sr (spi_regs w) = Ok (sr, s) /\ Z.land sr 1 = 0) ->
  exists w',
    _dfu_tick w = Ok w' /\
    op w' = FL_IDLE /\
    rd w' = Z.lxor (rd w) 1 /\
    used w' = u8 (used w - 1) /\
    reboots w' = S (reboots w) /\
    addr_prog w' = addr_prog w /\
    prog_retry w' = 0 /\
    (Spi.commands (Spi.bus (spi_regs w')) = Spi.commands (Spi.bus (spi_regs w)) \/
     Spi.commands (Spi.bus (spi_regs w'))
       = Spi.FLASH_CMD_READ_SR1 :: Spi.commands (Spi.bus (spi_regs w))).
Proof.
  intros Hu Hr Hg.
  destruct (op w) eqn:Ho.
  - eexists. split; [apply tick_idle_exhausted; auto|].
    simpl. repeat apply conj; auto.
  - destruct Hg as [Hg | (sr & s & Hs & Hb)]; [discriminate|].
    eexists. split; [eapply tick_busy_exhausted; eauto; congruence|].
    apply flash_read_sr_trace in Hs as (Hbus & _).
    simpl. rewrite Hbus. repeat apply conj; auto.
  - destruct Hg as [Hg | (sr & s & Hs & Hb)]; [discriminate|].
    eexists. split; [eapply tick_busy_exhausted; eauto; congruence|].
    apply flash_read_sr_trace in Hs as (Hbus & _).
    simpl. rewrite Hbus. repeat apply conj; auto.
Qed.

(** C8: the claim fails while an erase is under way: the fourth attempt has
    taken the counter to 0, the flash is still busy with it, and the tick
    returns at the status test with the buffer kept and the hook not
    called. *)
Lemma tick_exhausted_but_busy :
  reach no_vendor any_event (retries_spent 1) /\
  used (retries_spent 1) = 1 /\
  prog_retry (retries_spent 1) = 0 /\
  _dfu_tick (retries_spent 1) = Ok (after_tick (retries_spent 1)) /\
  op (after_tick (retries_spent 1)) = FL_ERASE /\
  rd (after_tick (retries_spent 1)) = rd (retries_spent 1) /\
  used (after_tick (retries_spent 1)) = 1 /\
  reboots (after_tick (retries_spent 1)) = 0%nat.
Proof.
  destruct (observe_tick_inv _ _ _ retries_spent_busy_tick) as (Hv & Ht & Hv').
  apply observe_fields in Hv, Hv'.
  destruct Hv as (_ & _ & _ & Hu & _ & Hd & _ & Hr & _).
  destruct Hv' as (_ & _ & _ & Hu' & _ & Hd' & Ho' & _ & _ & _ & _ & Hb' & _).
  split; [unfold retries_spent; apply downloaded_reach|].
  split; [exact Hu|]. split; [exact Hr|]. split; [exact Ht|].
  split; [exact Ho'|]. split; [rewrite Hd, Hd'; reflexivity|].
  split; [exact Hu'|exact Hb'].
Qed.

Lemma tick_retry_exhausted_witness :
  exists w',
    _dfu_tick (retries_spent 0) = Ok w' /\
    op w' = FL_IDLE /\
    rd w' = Z.lxor (rd (retries_spent 0)) 1 /\
    used w' = u8 (used (retries_spent 0) - 1) /\
    reboots w' = S (reboots (retries_spent 0)) /\
    addr_prog w' = addr_prog (retries_spent 0) /\
    prog_retry w' = 0 /\
    (Spi.commands (Spi.bus (spi_regs w'))
       = Spi.commands (Spi.bus (spi_regs (retries_spent 0))) \/
     Spi.commands (Spi.bus (spi_regs w'))
       = Spi.FLASH_CMD_READ_SR1
         :: Spi.commands (Spi.bus (spi_regs (retries_spent 0)))).
Proof.
  apply (tick_retry_exhausted (retries_spent 0)).
  - destruct (observe_tick_inv _ _ _ retries_spent_ready_tick) as (Hv & _).
    apply observe_fields in Hv.
    destruct Hv as (_ & _ & _ & Hu & _). rewrite Hu. discriminate.
  - destruct (observe_tick_inv _ _ _ retries_spent_ready_tick) as (Hv & _).
    apply observe_fields in Hv.
    destruct Hv as (_ & _ & _ & _ & _ & _ & _ & Hr & _). exact Hr.
  - right.
    destruct (observe_tick_inv _ _ _ retries_spent_ready_tick) as (Hv & _).
    apply observe_fields in Hv.
    destruct Hv as (_ & _ & _ & _ & _ & _ & _ & _ & _ & _ & _ & _ & _ & _ & Ha).
    destruct (flash_read_sr_answer _ 0 [] Ha eq_refl) as (s & Hs).
    exists (u8 0), s. split; [exact Hs|reflexivity].
Defined.





(** ** Interface selection *)

Lemma zone_field_row f i z :
  0 <= i -> nth_error dfu_zones (Z.to_nat i) = Some z ->
  zone_field f i = Ok (f z).
Proof.
  intros Hi Hz. unfold zone_field.
  destruct (i <? 0) eqn:E; [apply Z.ltb_lt in E; lia|].
  rewrite Hz. reflexivity.
Qed.

Lemma zone_field_outside f i : 6 < i -> zone_field f i = Err OutOfBounds.
Proof.
  intros Hi. unfold zone_field.
  destruct (i <? 0) eqn:E; [reflexivity|].
  assert (H : nth_error dfu_zones (Z.to_nat i) = None).
  { apply nth_error_None. simpl. lia. }
  rewrite H. reflexivity.
Qed.

Lemma zone_row i :
  0 <= i <= 6 -> exists z, nth_error dfu_zones (Z.to_nat i) = Some z.
Proof.
  intros Hi.
  destruct (nth_error dfu_zones (Z.to_nat i)) as [z|] eqn:E; [eauto|].
  apply nth_error_None in E. simpl in E. lia.
Qed.

Lemma is_dfu_intf_true d :
  bInterfaceClass d = 0xfe -> bInterfaceSubClass d = 0x01 ->
  bInterfaceProtocol d = 0x02 -> is_dfu_intf d = true.
Proof.
  intros H1 H2 H3. unfold is_dfu_intf. rewrite H1, H2, H3. reflexivity.
Qed.

(** On the DFU interface the handler copies row [bAlternateSetting] of the
    table. *)
Lemma set_intf_row base sel w z :
  bInterfaceClass sel = 0xfe -> bInterfaceSubClass sel = 0x01 ->
  bInterfaceProtocol sel = 0x02 ->
  0 <= bAlternateSetting sel ->
  nth_error dfu_zones (Z.to_nat (bAlternateSetting sel)) = Some z ->
  exists w',
    _dfu_set_intf base sel w = Ok (USB_FND_SUCCESS, w') /\
    state w' = dfuIDLE /\
    addr_recv w' = start z /\ addr_read w' = start z /\
    addr_prog w' = start z /\ addr_erase w' = start z /\
    addr_end w' = end_ z /\ selected w' = flashsel z /\
    intf w' = bInterfaceNumber sel /\ alt w' = bAlternateSetting sel.
Proof.
  intros Hc Hs Hp Ha Hz. eexists.
  unfold _dfu_set_intf. rewrite (is_dfu_intf_true sel Hc Hs Hp). simpl.
  rewrite !(zone_field_row _ _ z Ha Hz). simpl.
  repeat apply conj; reflexivity.
Qed.

(** C7.  Selecting alternate setting alt <= 6 of the DFU interface puts the
    machine in dfuIDLE, sets the four cursors to the start of row alt of the
    zone table, [addr_end] to its end and [selected] to its chip; the table
    is the seven rows of section 6. *)
Theorem set_intf_selects_zone base sel w :
  bInterfaceClass sel = 0xfe -> bInterfaceSubClass sel = 0x01 ->
  bInterfaceProtocol sel = 0x02 ->
  0 <= bAlternateSetting sel <= 6 ->
  exists z w',
    nth_error dfu_zones (Z.to_nat (bAlternateSetting sel)) = Some z /\
    _dfu_set_intf base sel w = Ok (USB_FND_SUCCESS, w') /\
    state w' = dfuIDLE /\
    addr_recv w' = start z /\ addr_read w' = start z /\
    addr_prog w' = start z /\ addr_erase w' = start z /\
    addr_end w' = end_ z /\ selected w' = flashsel z /\
    intf w' = bInterfaceNumber sel /\ alt w' = bAlternateSetting sel /\
    map (fun z => (flashsel z, start z, end_ z)) dfu_zones =
      [ (FLASHCHIP_INTERNAL, 0x00200000, 0x01000000);
        (FLASHCHIP_INTERNAL, 0x00340000, 0x00380000);
        (FLASHCHIP_INTERNAL, 0x00380000, 0x01000000);
        (FLASHCHIP_INTERNAL, 0x00400000, 0x01000000);
        (FLASHCHIP_INTERNAL, 0x00800000, 0x01000000);
        (FLASHCHIP_INTERNAL, 0x00000000, 0x00200000);
        (FLASHCHIP_CART, 0x00000000, 0x00000100) ].
Proof.
  intros Hc Hs Hp Ha.
  destruct (zone_row _ Ha) as (z & Hz).
  destruct (set_intf_row base sel w z Hc Hs Hp (proj1 Ha) Hz) as (w' & H).
  exists z, w'. split; [exact Hz|].
  repeat (split; [apply H|]). reflexivity.
Qed.

Lemma set_intf_selects_zone_witness :
  exists z w',
    nth_error dfu_zones (Z.to_nat (bAlternateSetting (dfu_intf 6))) = Some z /\
    _dfu_set_intf (dfu_intf 0) (dfu_intf 6) (boot (spi0 []))
      = Ok (USB_FND_SUCCESS, w') /\
    state w' = dfuIDLE /\
    addr_recv w' = start z /\ addr_read w' = start z /\
    addr_prog w' = start z /\ addr_erase w' = start z /\
    addr_end w' = end_ z /\ selected w' = flashsel z /\
    intf w' = bInterfaceNumber (dfu_intf 6) /\
    alt w' = bAlternateSetting (dfu_intf 6) /\
    map (fun z => (flashsel z, start z, end_ z)) dfu_zones =
      [ (FLASHCHIP_INTERNAL, 0x00200000, 0x01000000);
        (FLASHCHIP_INTERNAL, 0x00340000, 0x00380000);
        (FLASHCHIP_INTERNAL, 0x00380000, 0x01000000);
        (FLASHCHIP_INTERNAL, 0x00400000, 0x01000000);
        (FLASHCHIP_INTERNAL, 0x00800000, 0x01000000);
        (FLASHCHIP_INTERNAL, 0x00000000, 0x00200000);
        (FLASHCHIP_CART, 0x00000000, 0x00000100) ].
Proof.
  apply (set_intf_selects_zone (dfu_intf 0) (dfu_intf 6) (boot (spi0 [])));
    simpl; try reflexivity; lia.
Defined.

(** C10.  The handler reads row [bAlternateSetting] of the seven-row table
    without a test of the index: the six reads stay inside the table when
    the alternate setting is at most 6, and the first of them leaves it
    otherwise. *)
Theorem set_intf_index_in_table base sel w :
  bInterfaceClass sel = 0xfe -> bInterfaceSubClass sel = 0x01 ->
  bInterfaceProtocol sel = 0x02 ->
  0 <= bAlternateSetting sel ->
  (bAlternateSetting sel <= 6 ->
   exists w', _dfu_set_intf base sel w = Ok (USB_FND_SUCCESS, w')) /\
  (6 < bAlternateSetting sel ->
   _dfu_set_intf base sel w = Err OutOfBounds) /\
  ((exists r, _dfu_set_intf base sel w = Ok r) <-> bAlternateSetting sel <= 6) /\
  length dfu_zones = 7%nat.
Proof.
  intros Hc Hs Hp Ha.
  assert (In6 : bAlternateSetting sel <= 6 ->
                exists w', _dfu_set_intf base sel w = Ok (USB_FND_SUCCESS, w')).
  { intros H6.
    destruct (zone_row _ (conj Ha H6)) as (z & Hz).
    destruct (set_intf_row base sel w z Hc Hs Hp Ha Hz) as (w' & H & _).
    eauto. }
  assert (Out : 6 < bAlternateSetting sel ->
                _dfu_set_intf base sel w = Err OutOfBounds).
  { intros H6. unfold _dfu_set_intf.
    rewrite (is_dfu_intf_true sel Hc Hs Hp). simpl.
    rewrite zone_field_outside by exact H6. reflexivity. }
  repeat apply conj; auto.
  - intros (r & Hr). destruct (Z_le_gt_dec (bAlternateSetting sel) 6); [auto|].
    rewrite Out in Hr by lia. discriminate.
  - intros H6. destruct (In6 H6) as (w' & Hw). eauto.
Qed.

Lemma set_intf_index_in_table_witness :
  (bAlternateSetting (dfu_intf 7) <= 6 ->
   exists w', _dfu_set_intf (dfu_intf 0) (dfu_intf 7) (boot (spi0 []))
              = Ok (USB_FND_SUCCESS, w')) /\
  (6 < bAlternateSetting (dfu_intf 7) ->
   _dfu_set_intf (dfu_intf 0) (dfu_intf 7) (boot (spi0 [])) = Err OutOfBounds) /\
  ((exists r, _dfu_set_intf (dfu_intf 0) (dfu_intf 7) (boot (spi0 [])) = Ok r)
   <-> bAlternateSetting (dfu_intf 7) <= 6) /\
  length dfu_zones = 7%nat.
Proof.
  apply (set_intf_index_in_table (dfu_intf 0) (dfu_intf 7) (boot (spi0 [])));
    simpl; try reflexivity; lia.
Defined.

(** ** Control requests *)

(** The two bytes overlaid by [wRequestAndType]. *)
Lemma request_and_type req v :
  0 <= bmRequestType req < 256 -> 0 <= bRequest req ->
  wRequestAndType req = v ->
  bmRequestType req = v mod 256 /\ bRequest req = v / 256.
Proof.
  unfold wRequestAndType. intros Ht Hb Hv. subst v. split.
  - change 256 with (2 ^ 8). rewrite <- Z.land_ones by lia.
    rewrite Z.land_lor_distr_l, !Z.land_ones by lia.
    rewrite Z.shiftl_mul_pow2 by lia. rewrite Z_mod_mult.
    rewrite Z.lor_0_l. symmetry. apply Z.mod_small. exact Ht.
  - change 256 with (2 ^ 8). rewrite <- Z.shiftr_div_pow2 by lia.
    rewrite Z.shiftr_lor, Z.shiftr_shiftl_l by lia.
    rewrite Z.sub_diag, Z.shiftl_0_r.
    rewrite (Z.shiftr_div_pow2 (bmRequestType req)) by lia.
    rewrite Z.div_small by exact Ht. rewrite Z.lor_0_r. reflexivity.
Qed.

(** A class request to the DFU interface that the state admits reaches the
    [switch]. *)
Lemma ctrl_req_dispatch vendor req xfer w (rt b t : Z) :
  0 <= bmRequestType req < 256 -> 0 <= bRequest req ->
  wIndex req = intf w ->
  wRequestAndType req = rt -> rt / 256 = b -> rt mod 256 = t ->
  Z.lor (Z.land t 0x60) (Z.land t 0x1f) = 0x21 ->
  Z.land (dfu_valid_req (state w)) (bit b) <> 0 ->
  bRequest req = b /\
  _dfu_ctrl_req vendor req xfer w =
    (if rt =? USB_RT_DFU_DETACH then
       ctrl_success (mkXfer (xfer_data xfer) (xfer_len xfer) (Some detach_done_cb), w)
     else if rt =? USB_RT_DFU_DNLOAD then ctrl_dnload req xfer w
     else if rt =? USB_RT_DFU_UPLOAD then ctrl_upload req xfer w
     else if rt =? USB_RT_DFU_GETSTATUS then ctrl_getstatus xfer w
     else if rt =? USB_RT_DFU_CLRSTATUS then
       ctrl_success (xfer, set_status OK (set_state dfuIDLE w))
     else if rt =? USB_RT_DFU_GETSTATE then
       xw <- xfer_store 0 (state_code (state w)) (xfer, w) ;;
       ctrl_success xw
     else if rt =? USB_RT_DFU_ABORT then
       ctrl_success (xfer, set_state dfuIDLE w)
     else ctrl_error xfer w).
Proof.
  intros Ht Hb Hi Hrt Hdiv Hmod Hty Hok.
  destruct (request_and_type req rt Ht Hb Hrt) as (Et & Eb).
  rewrite Hmod in Et. rewrite Hdiv in Eb. split; [exact Eb|].
  unfold _dfu_ctrl_req, USB_REQ_TYPE, USB_REQ_RCPT.
  rewrite Hi, Z.eqb_refl, Et, Eb, Hty, Hrt. simpl.
  apply Z.eqb_neq in Hok. rewrite Hok. reflexivity.
Qed.



(** ** What a tick does to the buffer and the cursors *)

Lemma writer_frame_refl w : writer_frame w w.
Proof. unfold writer_frame. repeat apply conj; reflexivity. Qed.

Lemma writer_frame_trans w1 w2 w3 :
  writer_frame w1 w2 -> writer_frame w2 w3 -> writer_frame w1 w3.
Proof.
  unfold writer_frame. intros H1 H2.
  repeat match goal with H : _ /\ _ |- _ => destruct H end.
  repeat apply conj; congruence.
Qed.

Ltac frame_ok :=
  unfold writer_frame; simpl; repeat apply conj; reflexivity.

Lemma tick_gate_spec w go w1 :
  tick_gate w = Ok (go, w1) ->
  (op w = FL_IDLE /\ used w = 0 /\ go = false /\ w1 = w) \/
  (op w = FL_IDLE /\ used w <> 0 /\ go = true /\
   w1 = set_op_ofs 0 (set_op_len 4096 (set_op FL_ERASE w))) \/
  (op w <> FL_IDLE /\
   exists s, w1 = set_spi_regs s w /\
             (length (Spi.rx s) < length (Spi.rx (spi_regs w)))%nat).
Proof.
  unfold tick_gate. intros H.
  destruct (op w) eqn:Ho.
  - destruct (used w =? 0) eqn:Hu; inv H.
    + left. apply Z.eqb_eq in Hu. auto.
    + right. left. apply Z.eqb_neq in Hu. auto.
  - right. right. split; [discriminate|].
    repeat tick_step; flash_facts; eauto.
  - right. right. split; [discriminate|].
    repeat tick_step; flash_facts; eauto.
Qed.

Lemma tick_erase_spec w w1 :
  tick_erase w = Ok w1 ->
  writer_frame w w1 /\ (pending w1 < pending w)%nat /\
  used w1 = used w /\ rd w1 = rd w /\ addr_prog w1 = addr_prog w /\
  op_len w1 = op_len w /\ (op w1 = FL_PROGRAM \/ op w1 = op w).
Proof.
  unfold tick_erase, pending. intros H. repeat tick_step; flash_facts;
    retry_cases; simpl in *;
    (split; [frame_ok|]); repeat apply conj; auto; lia.
Qed.

Lemma tick_program_spec w w1 :
  tick_program w = Ok w1 ->
  writer_frame w w1 /\ (pending w1 <= pending w)%nat /\
  ((used w1 = u8 (used w - 1) /\ rd w1 = Z.lxor (rd w) 1 /\ op w1 = FL_IDLE /\
    addr_prog w1 = u32 (addr_prog w + op_len w)) \/
   (used w1 = used w /\ rd w1 = rd w /\ addr_prog w1 = addr_prog w /\
    (op w1 = FL_IDLE \/ op w1 = op w /\ op_len w1 = op_len w))).
Proof.
  unfold tick_program, pending. intros H. repeat tick_step; flash_facts;
    retry_cases; simpl in *;
    (split; [frame_ok|]); (split; [lia|]); auto 10.
Qed.

Ltac fin :=
  repeat apply conj; try discriminate; try lia;
  solve [intuition (try congruence; try lia)].

Lemma tick_work_spec w w' :
  tick_work w = Ok w' ->
  writer_frame w w' /\ (pending w' <= pending w)%nat /\
  ((used w' = used w /\ rd w' = rd w /\ addr_prog w' = addr_prog w /\
    (op w' = FL_IDLE \/ op_len w' = op_len w))
   \/
   (used w' = u8 (used w - 1) /\ rd w' = Z.lxor (rd w) 1 /\ op w' = FL_IDLE /\
    (addr_prog w' = addr_prog w \/ addr_prog w' = u32 (addr_prog w + op_len w))))
  /\
  (op w = FL_ERASE -> (pending w' < pending w)%nat \/ used w' = u8 (used w - 1)).
Proof.
  unfold tick_work, flashchip_select. intros H. cbv zeta in H.
  change (prog_retry (set_flashchip (selected w) w)) with (prog_retry w) in H.
  change (op (set_flashchip (selected w) w)) with (op w) in H.
  assert (F0 : writer_frame w (set_flashchip (selected w) w)) by frame_ok.
  destruct (prog_retry w =? 0).
  { inv H. split; [frame_ok|]. unfold pending. simpl. fin. }
  apply bind_ok in H as (w2 & E & H).
  destruct (op w) eqn:Ho.
  - inv E. simpl in H. rewrite Ho in H. inv H.
    split; [frame_ok|]. unfold pending. simpl. fin.
  - apply tick_erase_spec in E.
    destruct E as (F & P & U & R & A & L & O).
    change (pending (set_flashchip (selected w) w)) with (pending w) in P.
    simpl in U, R, A, L, O.
    destruct (op w2) eqn:Ho2.
    + inv H. split; [eapply writer_frame_trans; eauto|]. fin.
    + inv H. split; [eapply writer_frame_trans; eauto|]. fin.
    + apply tick_program_spec in H. destruct H as (F2 & P2 & B).
      split; [eapply writer_frame_trans; [|exact F2];
              eapply writer_frame_trans; eauto|].
      rewrite <- U, <- R, <- A, <- L. fin.
  - inv E. simpl in H. rewrite Ho in H.
    apply tick_program_spec in H. destruct H as (F2 & P2 & B).
    change (pending (set_flashchip (selected w) w)) with (pending w) in P2.
    simpl in B.
    split; [eapply writer_frame_trans; eauto|]. fin.
Qed.

(** What one tick does, as far as the buffer, the cursors and the pending
    answers go. *)
Lemma tick_spec w w' :
  _dfu_tick w = Ok w' ->
  writer_frame w w' /\ (pending w' <= pending w)%nat /\
  ((used w' = used w /\ rd w' = rd w /\ addr_prog w' = addr_prog w /\
    (op w' = FL_IDLE \/ (op_len w' = block_len w /\ (op w = FL_IDLE -> used w <> 0))))
   \/
   (used w' = u8 (used w - 1) /\ rd w' = Z.lxor (rd w) 1 /\ op w' = FL_IDLE /\
    (op w = FL_IDLE -> used w <> 0) /\
    (addr_prog w' = addr_prog w \/ addr_prog w' = u32 (addr_prog w + block_len w))))
  /\
  (used w <> 0 -> (pending w' < pending w)%nat \/ used w' = u8 (used w - 1)).
Proof.
  unfold _dfu_tick. intros H.
  apply bind_ok in H as ([go w1] & G & H).
  apply tick_gate_spec in G.
  destruct G as [(Ho & Hu & -> & ->) | [(Ho & Hu & -> & ->) | (Ho & s & -> & Hs)]].
  - inv H. split; [apply writer_frame_refl|]. fin.
  - apply tick_work_spec in H. destruct H as (F & P & B & M).
    assert (F0 : writer_frame w (set_op_ofs 0 (set_op_len 4096 (set_op FL_ERASE w))))
      by frame_ok.
    change (pending (set_op_ofs 0 (set_op_len 4096 (set_op FL_ERASE w))))
      with (pending w) in *.
    simpl in B, M. unfold block_len. rewrite Ho.
    split; [eapply writer_frame_trans; eauto|]. fin.
  - assert (F0 : writer_frame w (set_spi_regs s w)) by frame_ok.
    assert (P0 : (pending (set_spi_regs s w) < pending w)%nat)
      by (unfold pending; simpl; exact Hs).
    assert (HL : block_len w = op_len w)
      by (unfold block_len; destruct (op w); congruence).
    destruct go.
    + apply tick_work_spec in H. destruct H as (F & P & B & M).
      simpl in B, M. rewrite HL.
      split; [eapply writer_frame_trans; eauto|]. fin.
    + inv H. split; [exact F0|]. rewrite HL. simpl. fin.
Qed.

(** ** The pumping loop of GETSTATUS *)

Lemma pump_sound fuel : forall w w', pump fuel w = Ok w' -> pumped w w'.
Proof.
  induction fuel as [|fuel IH]; intros w w' H; simpl in H.
  - destruct (used w =? 0) eqn:E; [|discriminate].
    inv H. apply pumped_done. apply Z.eqb_eq. exact E.
  - destruct (used w =? 0) eqn:E.
    + inv H. apply pumped_done. apply Z.eqb_eq. exact E.
    + apply bind_ok in H as (w1 & T & H).
      eapply pumped_tick; eauto. apply Z.eqb_neq. exact E.
Qed.

Lemma u8_range z : 0 <= u8 z < 256.
Proof. unfold u8. apply Z.mod_pos_bound. lia. Qed.

Lemma u8_le z : 0 <= z -> u8 z <= z.
Proof. intros H. unfold u8. apply Z.mod_le; lia. Qed.

(** A tick of the loop takes an answer of the controller or releases a
    buffer. *)
Lemma tick_measure w w1 :
  0 <= used w -> used w <> 0 -> _dfu_tick w = Ok w1 ->
  0 <= used w1 /\
  (pending w1 + Z.to_nat (used w1) < pending w + Z.to_nat (used w))%nat.
Proof.
  intros H0 Hu T. apply tick_spec in T. destruct T as (_ & P & B & M).
  specialize (M Hu).
  pose proof (u8_range (used w - 1)). pose proof (u8_le (used w - 1)).
  destruct B as [(B1 & _) | (B1 & _)]; rewrite B1 in *; split; try lia.
Qed.

(** Whenever the loop has a run, the budget of the handler yields it. *)
Lemma pump_complete w w' :
  pumped w w' ->
  forall fuel, 0 <= used w ->
    (pending w + Z.to_nat (used w) <= fuel)%nat -> pump fuel w = Ok w'.
Proof.
  induction 1 as [w Hu | w w1 w2 Hu T _ IH]; intros fuel H0 Hf.
  - destruct fuel; simpl; rewrite Hu; reflexivity.
  - destruct (tick_measure w w1 H0 Hu T) as (H1 & Hm).
    destruct fuel as [|fuel]; [lia|].
    simpl. apply Z.eqb_neq in Hu. rewrite Hu, T. simpl.
    apply IH; [exact H1 | lia].
Qed.

Lemma pumped_end w w' : pumped w w' -> used w' = 0.
Proof. induction 1; auto. Qed.

(** An invariant of the tick is an invariant of the loop. *)
Lemma pumped_inv (I : world -> Prop) :
  (forall w w', I w -> _dfu_tick w = Ok w' -> I w') ->
  forall w w', pumped w w' -> I w -> I w'.
Proof. intros HI w w' Hp. induction Hp; eauto. Qed.

(** ** What a control request does *)

Ltac same_ok :=
  unfold same_machine, proto_step; simpl; repeat apply conj; auto.

Lemma same_machine_refl w : same_machine w w.
Proof. same_ok. Qed.

Lemma same_machine_trans w1 w2 w3 :
  same_machine w1 w2 -> same_machine w2 w3 -> same_machine w1 w3.
Proof.
  unfold same_machine. intros H1 H2.
  repeat match goal with H : _ /\ _ |- _ => destruct H end.
  repeat apply conj; congruence.
Qed.

Lemma proto_step_refl req w : proto_step req w w.
Proof. same_ok. Qed.

Lemma xfer_store_same i v x w x' w' :
  xfer_store i v (x, w) = Ok (x', w') -> same_machine w w'.
Proof.
  unfold xfer_store. intros H.
  destruct (xfer_data x).
  - apply bind_ok in H as (b & _ & H). inv H. apply same_machine_refl.
  - destruct (0 <=? ofs); [|discriminate].
    apply bind_ok in H as (d & _ & H). inv H. same_ok.
Qed.

Lemma ctrl_success_inv xw resp x' w' :
  ctrl_success xw = Ok (resp, x', w') ->
  resp = USB_FND_SUCCESS /\ xw = (x', w').
Proof.
  unfold ctrl_success. destruct xw. simpl. intros H. inv H. auto.
Qed.

Lemma getstatus_stores_same a b c d e f x w resp x' w' :
  (xw <- xfer_store 0 a (x, w) ;;
   xw <- xfer_store 1 b xw ;;
   xw <- xfer_store 2 c xw ;;
   xw <- xfer_store 3 d xw ;;
   xw <- xfer_store 4 e xw ;;
   xw <- xfer_store 5 f xw ;;
   ctrl_success xw) = Ok (resp, x', w') ->
  same_machine w w'.
Proof.
  intros H.
  apply bind_ok in H as ([x1 w1] & E1 & H).
  apply bind_ok in H as ([x2 w2] & E2 & H).
  apply bind_ok in H as ([x3 w3] & E3 & H).
  apply bind_ok in H as ([x4 w4] & E4 & H).
  apply bind_ok in H as ([x5 w5] & E5 & H).
  apply bind_ok in H as ([x6 w6] & E6 & H).
  apply ctrl_success_inv in H as (_ & H). inv H.
  apply xfer_store_same in E1, E2, E3, E4, E5, E6.
  repeat (eapply same_machine_trans; [eassumption|]).
  apply same_machine_refl.
Qed.

(** Inversion of [Ok a = Ok b] that keeps the earlier names. *)
Ltac out H :=
  inversion H; clear H;
  repeat match goal with E : _ = ?v |- _ => is_var v; subst v end.

Lemma ctrl_req_spec vendor req xfer w resp xfer' w' :
  _dfu_ctrl_req vendor req xfer w = Ok (resp, xfer', w') ->
  exists w1,
    proto_step req w w1 /\
    (same_machine w1 w' \/
     state w = dfuMANIFEST_SYNC /\ state w1 = dfuIDLE /\
     exists w2, pumped w1 w2 /\ same_machine w2 w').
Proof.
  unfold _dfu_ctrl_req. intros H.
  destruct (wIndex req =? intf w) eqn:Ei; simpl in H;
    [|out H; exists w; split; [apply proto_step_refl|left; apply same_machine_refl]].
  destruct (_ =? Z.lor USB_REQ_TYPE_VENDOR USB_REQ_RCPT_INTF) eqn:Ev.
  { apply bind_ok in H as ([[[r x] d] s] & _ & H). out H.
    exists w. split; [apply proto_step_refl|left; same_ok]. }
  destruct (_ =? Z.lor USB_REQ_TYPE_CLASS USB_REQ_RCPT_INTF) eqn:Ec; simpl in H;
    [|out H; exists w; split; [apply proto_step_refl|left; apply same_machine_refl]].
  destruct (Z.land (dfu_valid_req (state w)) (bit (bRequest req)) =? 0) eqn:Eg.
  { out H. eexists. split; [|left; apply same_machine_refl]. same_ok. }
  cbv zeta in H.
  destruct (wRequestAndType req =? USB_RT_DFU_DETACH).
  { apply ctrl_success_inv in H as (_ & H). out H.
    exists w. split; [apply proto_step_refl|left; apply same_machine_refl]. }
  destruct (wRequestAndType req =? USB_RT_DFU_DNLOAD) eqn:Ed.
  { unfold ctrl_dnload in H.
    destruct (wLength req =? 0) eqn:El; simpl in H.
    - apply ctrl_success_inv in H as (_ & H). out H.
      eexists. split; [|left; apply same_machine_refl]. same_ok.
    - destruct (addr_end w <? u32 (addr_recv w + wLength req)) eqn:Eo.
      + out H. eexists. split; [|left; apply same_machine_refl].
        same_ok. right. split; auto. left.
        unfold dnload_exceeds. rewrite Ei, Ec, Eg, Ed, El, Eo. reflexivity.
      + apply bind_ok in H as (wm & Em & H).
        apply ctrl_success_inv in H as (_ & H). out H.
        exists (set_addr_recv (u32 (addr_recv w + wLength req)) w).
        split.
        * same_ok. right. split; auto. right. apply Z.ltb_ge. exact Eo.
        * left. destruct (wLength req <? 4096).
          -- unfold memset_buf in Em.
             destruct (_ && _); out Em. same_ok.
          -- out Em. apply same_machine_refl. }
  destruct (wRequestAndType req =? USB_RT_DFU_UPLOAD).
  { unfold ctrl_upload in H. cbv zeta in H.
    exists w. split; [apply proto_step_refl|left].
    destruct (negb _).
    - apply bind_ok in H as ([d s] & _ & H).
      apply ctrl_success_inv in H as (_ & H). out H. same_ok.
    - apply ctrl_success_inv in H as (_ & H). out H. apply same_machine_refl. }
  destruct (wRequestAndType req =? USB_RT_DFU_GETSTATUS).
  { unfold ctrl_getstatus in H.
    apply bind_ok in H as ([st wm] & Eu & H).
    apply getstatus_stores_same in H.
    unfold getstatus_update in Eu.
    destruct (state w) eqn:Es;
      try (out Eu; exists w; split; [apply proto_step_refl|left; exact H]).
    - destruct (used w <? 2); out Eu.
      + eexists. split; [|left; exact H]. same_ok.
      + exists w. split; [apply proto_step_refl|left; exact H].
    - apply bind_ok in Eu as (w2 & Ep & Eu). out Eu.
      apply pump_sound in Ep.
      exists (set_state dfuIDLE w). split; [same_ok|].
      right. repeat split; eauto. }
  destruct (wRequestAndType req =? USB_RT_DFU_CLRSTATUS).
  { apply ctrl_success_inv in H as (_ & H). out H.
    eexists. split; [|left; apply same_machine_refl]. same_ok. }
  destruct (wRequestAndType req =? USB_RT_DFU_GETSTATE).
  { apply bind_ok in H as ([x1 w1] & E1 & H).
    apply ctrl_success_inv in H as (_ & H). out H.
    apply xfer_store_same in E1.
    exists w. split; [apply proto_step_refl|left; exact E1]. }
  destruct (wRequestAndType req =? USB_RT_DFU_ABORT).
  { apply ctrl_success_inv in H as (_ & H). out H.
    eexists. split; [|left; apply same_machine_refl]. same_ok. }
  out H. eexists. split; [|left; apply same_machine_refl]. same_ok.
Qed.

(** ** Invariants of the runs *)

Lemma zones_wf :
  Forall (fun z => 0 <= start z <= end_ z /\ end_ z <= 0x01000000) dfu_zones.
Proof. repeat constructor; simpl; lia. Qed.

Lemma set_intf_spec base sel w resp w' :
  _dfu_set_intf base sel w = Ok (resp, w') ->
  (resp = USB_FND_CONTINUE /\ w' = w) \/
  (resp = USB_FND_SUCCESS /\ state w' = dfuIDLE /\
   addr_recv w' = addr_prog w' /\ 0 <= addr_prog w' /\
   addr_recv w' <= addr_end w' /\ addr_end w' <= 0x01000000 /\
   used w' = used w /\ wr w' = wr w /\ rd w' = rd w /\ op w' = op w /\
   op_len w' = op_len w).
Proof.
  unfold _dfu_set_intf. intros H.
  destruct (negb (is_dfu_intf sel)); [out H; auto|]. right.
  cbv zeta in H.
  apply bind_ok in H as (v1 & E1 & H). apply bind_ok in H as (v2 & E2 & H).
  apply bind_ok in H as (v3 & E3 & H). apply bind_ok in H as (v4 & E4 & H).
  apply bind_ok in H as (v5 & E5 & H). apply bind_ok in H as (v6 & E6 & H).
  out H. simpl in *.
  unfold zone_field in *.
  destruct (bAlternateSetting sel <? 0); [discriminate|].
  destruct (nth_error dfu_zones (Z.to_nat (bAlternateSetting sel))) as [z|] eqn:E;
    [|discriminate].
  inv E1. inv E3. inv E5.
  apply nth_error_In in E.
  pose proof (proj1 (Forall_forall _ _) zones_wf z E) as Hz. simpl in Hz.
  repeat apply conj; auto; lia.
Qed.

(** The protocol state stays among the states the code assigns, and the
    occupancy within a byte. *)
Lemma live_inv vendor w :
  reach vendor any_event w -> live_state (state w) /\ 0 <= used w < 256.
Proof.
  apply (reach_inv vendor any_event
           (fun w => live_state (state w) /\ 0 <= used w < 256)).
  - intros s. unfold live_state. simpl. split; [auto|lia].
  - assert (Ht : forall w w', (live_state (state w) /\ 0 <= used w < 256) ->
                 _dfu_tick w = Ok w' ->
                 live_state (state w') /\ 0 <= used w' < 256).
    { intros w0 w' (L & U) T. apply tick_spec in T.
      destruct T as ((Fs & _) & _ & B & _). rewrite Fs. split; [exact L|].
      pose proof (u8_range (used w0 - 1)).
      destruct B as [(B1 & _) | (B1 & _)]; rewrite B1; lia. }
    intros ev w0 w' (L & U) _ H. unfold live_state in *.
    destruct ev; simpl in H.
    + out H. destruct configured; simpl; auto.
    + out H. unfold _dfu_bus_reset.
      destruct (state w0) eqn:Es; simpl; rewrite ?Es; auto.
    + apply bind_ok in H as ([r w1] & E & H). out H.
      apply set_intf_spec in E.
      destruct E as [(_ & ->) | (_ & Es & _ & _ & _ & _ & Eu & _)]; auto.
      rewrite Es, Eu. auto.
    + apply bind_ok in H as ([[r x] wx] & E & H). out H.
      apply ctrl_req_spec in E. destruct E as (w1 & P & S).
      assert (I1 : live_state (state w1) /\ 0 <= used w1 < 256).
      { unfold proto_step in P. unfold live_state.
        destruct P as (Ps & _ & _ & _ & Pu & _). rewrite Pu. split; [|exact U].
        intuition congruence. }
      destruct S as [S | (_ & _ & w2 & Pm & S)].
      * destruct S as (S1 & _ & _ & _ & S2 & _). rewrite S1, S2. exact I1.
      * destruct S as (S1 & _ & _ & _ & S2 & _). rewrite S1, S2.
        eapply (pumped_inv _ Ht); eauto.
    + out H. simpl. auto.
    + out H. simpl. split; [auto|apply u8_range].
    + out H. simpl. auto.
    + eapply Ht; eauto.
    + out H. simpl. auto.
Qed.

(** ** GETSTATUS *)

Lemma u8_status_code s : u8 (status_code s) = status_code s.
Proof. destruct s; reflexivity. Qed.

Lemma u8_state_code s : u8 (state_code s) = state_code s.
Proof. destruct s; reflexivity. Qed.

Lemma getstatus_stores xfer buf s st w :
  xfer_data xfer = PtrStack buf -> (6 <= length buf)%nat ->
  (xw <- xfer_store 0 (status_code s) (xfer, w) ;;
   xw <- xfer_store 1 (Z.land (Z.shiftr DFU_HOST_POLL_MS 0) 0xff) xw ;;
   xw <- xfer_store 2 (Z.land (Z.shiftr DFU_HOST_POLL_MS 8) 0xff) xw ;;
   xw <- xfer_store 3 (Z.land (Z.shiftr DFU_HOST_POLL_MS 16) 0xff) xw ;;
   xw <- xfer_store 4 (state_code st) xw ;;
   xw <- xfer_store 5 0 xw ;;
   ctrl_success xw)
  = Ok (USB_FND_SUCCESS, reply_xfer xfer s st buf, w).
Proof.
  intros Hd Hl.
  destruct buf as [|b0 [|b1 [|b2 [|b3 [|b4 [|b5 rest]]]]]]; simpl in Hl; try lia.
  unfold xfer_store, reply_xfer, getstatus_reply. rewrite Hd.
  change (Z.to_nat 0) with 0%nat. change (Z.to_nat 1) with 1%nat.
  change (Z.to_nat 2) with 2%nat. change (Z.to_nat 3) with 3%nat.
  change (Z.to_nat 4) with 4%nat. change (Z.to_nat 5) with 5%nat.
  cbn [store bind xfer_data xfer_len cb_done ctrl_success fst snd skipn app].
  rewrite u8_status_code, u8_state_code. reflexivity.
Qed.

Lemma getstatus_allowed s :
  live_state s -> Z.land (dfu_valid_req s) (bit USB_REQ_DFU_GETSTATUS) <> 0.
Proof.
  unfold live_state. intros H.
  repeat (destruct H as [H|H]; [subst s; vm_compute; discriminate|]).
  subst s. vm_compute. discriminate.
Qed.

(** C5.  A GETSTATUS request to the DFU interface, in any state the machine
    reaches: from dfuDNLOAD_SYNC it reports dfuDNLOAD_IDLE and moves there
    when fewer than two buffers are in use, and reports dfuDNBUSY without
    moving otherwise; from dfuMANIFEST_SYNC it moves to dfuIDLE, runs the
    writer tick by tick until no buffer is in use, and reports dfuIDLE
    (every run of that loop is what the handler returns, and the handler
    returns nothing else); from any other state it reports that state and
    changes nothing.  The reply is status, poll time 5, state, 0. *)
Theorem getstatus_report vendor req xfer buf w :
  reach vendor any_event w ->
  0 <= bmRequestType req < 256 -> 0 <= bRequest req ->
  wIndex req = intf w ->
  wRequestAndType req = USB_RT_DFU_GETSTATUS ->
  xfer_data xfer = PtrStack buf -> (6 <= length buf)%nat ->
  match state w with
  | dfuDNLOAD_SYNC =>
      (used w < 2 ->
       _dfu_ctrl_req vendor req xfer w =
         Ok (USB_FND_SUCCESS, reply_xfer xfer (status w) dfuDNLOAD_IDLE buf,
             set_state dfuDNLOAD_IDLE w)) /\
      (2 <= used w ->
       _dfu_ctrl_req vendor req xfer w =
         Ok (USB_FND_SUCCESS, reply_xfer xfer (status w) dfuDNBUSY buf, w))
  | dfuMANIFEST_SYNC =>
      (forall w', pumped (set_state dfuIDLE w) w' ->
         _dfu_ctrl_req vendor req xfer w =
           Ok (USB_FND_SUCCESS, reply_xfer xfer (status w) dfuIDLE buf, w')) /\
      (forall resp xfer' w',
         _dfu_ctrl_req vendor req xfer w = Ok (resp, xfer', w') ->
         pumped (set_state dfuIDLE w) w' /\ state w' = dfuIDLE /\ used w' = 0 /\
         resp = USB_FND_SUCCESS /\
         xfer' = reply_xfer xfer (status w) dfuIDLE buf)
  | st =>
      _dfu_ctrl_req vendor req xfer w =
        Ok (USB_FND_SUCCESS, reply_xfer xfer (status w) st buf, w)
  end.
Proof.
  intros Hr Ht Hb Hi Hrt Hd Hl.
  destruct (live_inv vendor w Hr) as (Hlive & Hu).
  destruct (ctrl_req_dispatch vendor req xfer w USB_RT_DFU_GETSTATUS
              USB_REQ_DFU_GETSTATUS 0xa1 Ht Hb Hi Hrt eq_refl eq_refl eq_refl
              (getstatus_allowed _ Hlive)) as (_ & ->).
  change (USB_RT_DFU_GETSTATUS =? USB_RT_DFU_DETACH) with false.
  change (USB_RT_DFU_GETSTATUS =? USB_RT_DFU_DNLOAD) with false.
  change (USB_RT_DFU_GETSTATUS =? USB_RT_DFU_UPLOAD) with false.
  rewrite Z.eqb_refl. cbv iota.
  assert (Hp : forall w0 w', pumped w0 w' ->
               status w' = status w0 /\ state w' = state w0).
  { intros w0 w' P.
    apply (pumped_inv (fun x => status x = status w0 /\ state x = state w0))
      with (w := w0); auto.
    intros x x' (A & B) T. apply tick_spec in T.
    destruct T as ((Fs & Ft & _) & _). split; congruence. }
  unfold ctrl_getstatus, getstatus_update.
  destruct (state w) eqn:Es; cbn [bind];
    try (apply getstatus_stores; assumption).
  - split; intros Hc.
    + apply Z.ltb_lt in Hc. rewrite Hc. cbn [bind].
      apply getstatus_stores; assumption.
    + apply Z.ltb_ge in Hc. rewrite Hc. cbn [bind].
      apply getstatus_stores; assumption.
  - split.
    + intros w' P.
      rewrite (pump_complete _ _ P) by (unfold pump_budget, pending; simpl; lia).
      cbn [bind]. destruct (Hp _ _ P) as (Hs & _). simpl in Hs. rewrite Hs.
      apply getstatus_stores; assumption.
    + intros resp xfer' w' H.
      apply bind_ok in H as ([st w2] & E & H).
      apply bind_ok in E as (w3 & P & E). out E.
      apply pump_sound in P.
      destruct (Hp _ _ P) as (Hs & Hst). simpl in Hs, Hst.
      rewrite Hs in H.
      rewrite (getstatus_stores xfer buf (status w) dfuIDLE w3 Hd Hl) in H.
      out H. repeat apply conj; auto. eapply pumped_end; eauto.
Qed.

(** ** The double buffer *)

Lemma buf_wf_tick w w' : buf_wf w -> _dfu_tick w = Ok w' -> buf_wf w'.
Proof.
  unfold buf_wf. intros (Hw & Hr & Hu & Ho) T. apply tick_spec in T.
  destruct T as ((_ & _ & _ & _ & Fw & _) & _ & B & _). rewrite Fw.
  destruct B as [(B1 & B2 & _ & B4) | (B1 & B2 & B3 & B4 & _)].
  - rewrite B1, B2. repeat apply conj; auto.
    intros Hop. destruct B4 as [B4 | (_ & B4)]; [congruence|].
    destruct (op w) eqn:E; [auto | apply Ho; discriminate | apply Ho; discriminate].
  - assert (Hn : used w <> 0).
    { destruct (op w) eqn:E; [auto | apply Ho; discriminate | apply Ho; discriminate]. }
    rewrite B1, B2, B3.
    destruct Hw as [Hw | Hw], Hr as [Hr | Hr]; rewrite Hw, Hr in *;
      destruct Hu as [(U & V) | [(U & V) | (U & V)]]; rewrite U in *;
      try congruence; try lia;
      (repeat apply conj; auto; try congruence;
       vm_compute; intuition congruence).
Qed.

Lemma buf_wf_same w w' :
  used w' = used w -> wr w' = wr w -> rd w' = rd w -> op w' = op w ->
  buf_wf w -> buf_wf w'.
Proof. unfold buf_wf. intros -> -> -> ->. auto. Qed.

Lemma buf_wf_commit w : buf_wf w -> used w < 2 -> buf_wf (_dfu_dnload_done_cb w).
Proof.
  unfold buf_wf, _dfu_dnload_done_cb. simpl. intros (Hw & Hr & Hu & Ho) Hf.
  destruct Hw as [Hw | Hw], Hr as [Hr | Hr]; rewrite Hw, Hr in *;
    destruct Hu as [(U & V) | [(U & V) | (U & V)]]; rewrite U in *;
    try congruence; try lia;
    (repeat apply conj; auto; try congruence;
     vm_compute; intuition congruence).
Qed.

Lemma buf_wf_reach vendor w : reach vendor commit_when_free w -> buf_wf w.
Proof.
  apply (reach_inv vendor commit_when_free buf_wf).
  - intros s. unfold buf_wf. simpl. repeat apply conj; auto; congruence.
  - intros ev w0 w' Hwf Ha H.
    destruct ev; simpl in H.
    + out H. destruct configured; [|exact Hwf].
      eapply buf_wf_same; [| | | |exact Hwf]; reflexivity.
    + out H. unfold _dfu_bus_reset. destruct (state w0); try exact Hwf;
        (eapply buf_wf_same; [| | | |exact Hwf]; reflexivity).
    + apply bind_ok in H as ([r wx] & E & H). out H.
      apply set_intf_spec in E.
      destruct E as [(_ & ->) | (_ & _ & _ & _ & _ & _ & Eu & Ew & Er & Eo & _)];
        [exact Hwf|].
      eapply buf_wf_same; eauto.
    + apply bind_ok in H as ([[r x] wx] & E & H). out H.
      apply ctrl_req_spec in E. destruct E as (w1 & P & S).
      assert (I1 : buf_wf w1).
      { unfold proto_step in P.
        destruct P as (_ & _ & _ & _ & Pu & Pw & Pr & _ & _ & _ & _ & _ & _ & Po & _).
        eapply buf_wf_same; eauto. }
      assert (Hs : forall a b, same_machine a b -> buf_wf a -> buf_wf b).
      { intros a b Sm. unfold same_machine in Sm.
        destruct Sm as (_ & _ & _ & _ & Su & Sw & Sr & _ & _ & _ & _ & _ & _ & _ & So & _).
        eapply buf_wf_same; eauto. }
      destruct S as [S | (_ & _ & w2 & Pm & S)].
      * eapply Hs; eauto.
      * eapply Hs; eauto. eapply (pumped_inv _ buf_wf_tick); eauto.
    + out H. eapply buf_wf_same; [| | | |exact Hwf]; reflexivity.
    + out H. apply buf_wf_commit; assumption.
    + out H. eapply buf_wf_same; [| | | |exact Hwf]; reflexivity.
    + eapply buf_wf_tick; eauto.
    + out H. eapply buf_wf_same; [| | | |exact Hwf]; reflexivity.
Qed.

(** C6.  In every state reached from start-up by commit callbacks that run
    only when a slot is free, writer ticks, and whatever else the driver
    does in between: [used] is 0, 1 or 2, [wr] and [rd] agree when it is 0
    or 2 and differ when it is 1; and a tick releases a buffer only when one
    is in use. *)
Theorem double_buffer_invariant vendor w :
  reach vendor commit_when_free w ->
  buf_inv w /\
  (forall w', _dfu_tick w = Ok w' ->
     used w' = used w \/ 0 < used w /\ used w' = used w - 1).
Proof.
  intros Hr. apply buf_wf_reach in Hr. split.
  - unfold buf_inv. unfold buf_wf in Hr. destruct Hr as (_ & _ & Hu & _).
    repeat apply conj; intuition lia.
  - intros w' T. pose proof (buf_wf_tick w w' Hr T) as Hwf'.
    apply tick_spec in T. destruct T as (_ & _ & B & _).
    unfold buf_wf in Hr, Hwf'.
    destruct Hr as (_ & _ & Hu & Ho). destruct Hwf' as (_ & _ & Hu' & _).
    destruct B as [(B1 & _) | (B1 & _ & _ & B4 & _)]; [auto|].
    right.
    assert (Hn : used w <> 0).
    { destruct (op w) eqn:E; [auto | apply Ho; discriminate | apply Ho; discriminate]. }
    destruct Hu as [(U & _) | [(U & _) | (U & _)]]; rewrite U in *;
      try congruence; (split; [lia|]); rewrite B1; reflexivity.
Qed.

(** ** The cursors *)





(** ** The sample runs *)


(** The writer passes [addr_recv] when a block is shorter than 4096 bytes:
    after a DNLOAD of 100 bytes to zone 0 and one tick, [addr_prog] is a
    whole block further and [addr_recv] 100 bytes. *)
Example short_block_passes_addr_recv :
  reach no_vendor no_dnload_exceeds short_block /\
  addr_prog short_block = 0x00201000 /\
  addr_recv short_block = 0x00200064 /\
  ~ cursor_order short_block.
Proof.
  assert (Hv : observe short_block =
               mkView dfuDNLOAD_SYNC OK 0 0 1 1 FL_IDLE 4 0x201000 0x200064
                 0x1000000 0 1 [3] [])
    by (vm_compute; reflexivity).
  apply observe_fields in Hv.
  destruct Hv as (_ & _ & _ & _ & _ & _ & _ & _ & A & B & _).
  split.
  { apply run_reach with (evs := short_block_run) (w := start_zone 0).
    - apply start_zone_reach; [lia|apply no_dnload_exceeds_other].
    - vm_compute. repeat split.
    - vm_compute. reflexivity. }
  split; [exact A|]. split; [exact B|].
  unfold cursor_order. rewrite A, B. lia.
Qed.



Lemma double_buffer_invariant_witness : buf_inv both_slots_used.
Proof.
  refine (proj1 (double_buffer_invariant no_vendor both_slots_used _)).
  apply run_reach with (evs := both_slots_run) (w := start_zone 0).
  - apply start_zone_reach; [lia|apply commit_when_free_other].
  - vm_compute. repeat split.
  - vm_compute. reflexivity.
Defined.

Lemma getstatus_report_witness :
  state manifest_pending = dfuMANIFEST_SYNC /\
  used manifest_pending = 1 /\
  _dfu_ctrl_req no_vendor getstatus_req xfer0 manifest_pending
    = Ok (USB_FND_SUCCESS,
          reply_xfer xfer0 (status manifest_pending) dfuIDLE (repeat 0 64),
          after_tick (set_state dfuIDLE manifest_pending)) /\
  used (after_tick (set_state dfuIDLE manifest_pending)) = 0.
Proof.
  assert (Hv : observe manifest_pending =
               mkView dfuMANIFEST_SYNC OK 0 1 1 0 FL_IDLE 4 0x200000 0x201000
                 0x1000000 0 0 [] ones)
    by (vm_compute; reflexivity).
  apply observe_fields in Hv.
  destruct Hv as (Hs & _ & Hi & Hu & _).
  destruct (observe_tick_inv _ _ _ manifest_pending_tick) as (Hv1 & Ht & Hv').
  apply observe_fields in Hv1, Hv'.
  destruct Hv1 as (_ & _ & _ & Hu1 & _).
  destruct Hv' as (_ & _ & _ & Hu' & _).
  split; [exact Hs|]. split; [exact Hu|]. split; [|exact Hu'].
  assert (R : reach no_vendor any_event manifest_pending).
  { unfold manifest_pending. apply after_run_reach.
    unfold start_zone. apply after_run_reach. apply reach_boot. }
  pose proof (getstatus_report no_vendor getstatus_req xfer0 (repeat 0 64)
                manifest_pending R) as H.
  rewrite Hs in H.
  apply H.
  - simpl. lia.
  - simpl. lia.
  - rewrite Hi. reflexivity.
  - reflexivity.
  - reflexivity.
  - simpl. lia.
  - eapply pumped_tick with (w1 := after_tick (set_state dfuIDLE manifest_pending)).
    + rewrite Hu1. discriminate.
    + exact Ht.
    + apply pumped_done. exact Hu'.
Defined.

End DfuFacts.

(** * The flash driver: what its transfers do *)

Module DriverFacts.
Import Spi.
Import SpiFacts.

#[local] Arguments Z.testbit : simpl never.
#[local] Arguments Z.land : simpl never.
#[local] Arguments Z.lor : simpl never.
#[local] Arguments Z.lxor : simpl never.
#[local] Arguments Z.shiftl : simpl never.
#[local] Arguments Z.shiftr : simpl never.
#[local] Arguments Z.modulo : simpl never.
#[local] Arguments Z.pow : simpl never.
#[local] Arguments Z.eqb : simpl never.
#[local] Arguments Z.ltb : simpl never.
#[local] Arguments Z.leb : simpl never.

(** ** Loads and stores *)

Lemma store_ok (buf : list Z) : forall i v,
  (i < length buf)%nat ->
  store buf i v = Ok (firstn i buf ++ v :: skipn (S i) buf).
Proof.
  induction buf as [|x buf IH]; intros [|i] v H; simpl in H; try lia.
  - reflexivity.
  - cbn [store]. rewrite IH by lia. reflexivity.
Qed.

Lemma store_outside (buf : list Z) : forall i v,
  (length buf <= i)%nat -> store buf i v = Err OutOfBounds.
Proof.
  induction buf as [|x buf IH]; intros [|i] v H; simpl in H; try lia;
    try reflexivity.
  cbn [store]. rewrite IH by lia. reflexivity.
Qed.

Lemma skipn_nth (buf : list Z) : forall i b,
  nth_error buf i = Some b -> skipn i buf = b :: skipn (S i) buf.
Proof.
  induction buf as [|x buf IH]; intros [|i] b H; simpl in H; try discriminate.
  - inv H. reflexivity.
  - apply IH in H. exact H.
Qed.

Lemma nth_error_skipn (buf : list Z) : forall i,
  nth_error buf i = hd_error (skipn i buf).
Proof.
  induction buf as [|x buf IH]; intros [|i]; try reflexivity.
  simpl. apply IH.
Qed.

Lemma spi_eta s : mkSpi (csr s) (rx s) (bus s) = s.
Proof. destruct s; reflexivity. Qed.

Lemma chunk_eta c : mkChunk (data c) (len c) (read c) (write c) = c.
Proof. destruct c; reflexivity. Qed.

Lemma firstn_stored (buf : list Z) v : forall i t,
  (i < length buf)%nat ->
  firstn (S i) (firstn i buf ++ v :: t) = firstn i buf ++ [v].
Proof.
  induction buf as [|x buf IH]; intros [|i] t H; simpl in H; try lia.
  - reflexivity.
  - cbn [firstn app]. f_equal. apply IH. lia.
Qed.

Lemma skipn_stored (buf : list Z) v n : forall i,
  (i < length buf)%nat ->
  skipn (S i + n) (firstn i buf ++ v :: skipn (S i) buf) = skipn (i + S n) buf.
Proof.
  induction buf as [|x buf IH]; intros [|i] H; simpl in H; try lia.
  - reflexivity.
  - cbn [firstn app]. change (S (S i) + n)%nat with (S (S i + n)).
    change (S i + S n)%nat with (S (i + S n)). cbn [skipn].
    apply IH. lia.
Qed.

(** ** Waiting for an answer *)

Lemma poll_ready (pending : list Z) : forall d r,
  ready pending = d :: r ->
  exists rest, poll pending = Ok (d, rest) /\ ready rest = r.
Proof.
  induction pending as [|x pending IH]; intros d r H; simpl in H;
    [discriminate|].
  simpl. destruct (Z.testbit x 31); simpl in H.
  - apply IH. exact H.
  - inv H. eauto.
Qed.

Lemma poll_never (pending : list Z) :
  ready pending = [] -> poll pending = Err NoResponse.
Proof.
  induction pending as [|x pending IH]; intros H; simpl in H; [reflexivity|].
  simpl. destruct (Z.testbit x 31); simpl in H; [auto|discriminate].
Qed.

(** ** Chunks that are only sent *)

Lemma xfer_bytes_send c n : forall i buf s,
  read c = false ->
  (write c = true -> (i + n <= length buf)%nat) ->
  xfer_bytes c n i buf s =
    Ok (buf,
        mkSpi (csr s) (rx s)
          (rev (map DataWr (if write c then firstn n (skipn i buf)
                            else repeat 0x00 n)) ++ bus s)).
Proof.
  induction n as [|n IH]; intros i buf s Hr Hw.
  - simpl. destruct (write c); simpl; rewrite spi_eta; reflexivity.
  - cbn [xfer_bytes]. unfold xfer_byte, tx_word. rewrite Hr.
    destruct (write c) eqn:W.
    + specialize (Hw eq_refl).
      destruct (nth_error buf i) as [b|] eqn:E;
        [|apply nth_error_None in E; lia].
      unfold load. rewrite E. cbn [bind].
      rewrite IH by (auto; intros _; lia). rewrite ?W.
      rewrite (skipn_nth buf i b E). cbn [firstn map rev data_write csr rx bus].
      rewrite Z.lor_0_r, <- app_assoc. reflexivity.
    + cbn [bind]. rewrite IH by (auto; discriminate). rewrite ?W.
      cbn [repeat map rev data_write csr rx bus].
      rewrite <- app_assoc. reflexivity.
Qed.

Lemma xfer_bytes_short c n : forall i buf s,
  read c = false -> write c = true ->
  (i <= length buf)%nat -> (length buf < i + n)%nat ->
  xfer_bytes c n i buf s = Err OutOfBounds.
Proof.
  induction n as [|n IH]; intros i buf s Hr Hw Hi Hl; [lia|].
  cbn [xfer_bytes]. unfold xfer_byte, tx_word. rewrite Hr, Hw.
  unfold load. destruct (nth_error buf i) as [b|] eqn:E; [|reflexivity].
  cbn [bind]. apply IH; auto; [|lia].
  assert (i < length buf)%nat by (apply nth_error_Some; congruence). lia.
Qed.

(** The bytes of [k] chunks, in the order they go out. *)
Lemma sent_length c :
  (write c = true -> (len c <= length (data c))%nat) ->
  length (sent c) = len c.
Proof.
  unfold sent. intros H. destruct (write c).
  - rewrite length_firstn. specialize (H eq_refl). lia.
  - apply repeat_length.
Qed.

Lemma xfer_chunks_send xfer : forall s,
  Forall (fun c => read c = false /\
                   (write c = true -> (len c <= length (data c))%nat)) xfer ->
  xfer_chunks xfer (length xfer) s =
    Ok (xfer,
        mkSpi (csr s) (rx s)
          (rev (map DataWr (concat (map sent xfer))) ++ bus s)).
Proof.
  induction xfer as [|c xfer IH]; intros s H.
  - simpl. rewrite spi_eta. reflexivity.
  - inversion H as [|? ? (Hr & Hw) Hrest]; subst.
    cbn [length xfer_chunks].
    rewrite xfer_bytes_send by (auto; intros W; simpl; auto).
    cbn [bind]. rewrite IH by exact Hrest. cbn [bind csr rx bus].
    rewrite chunk_eta. cbn [map concat]. rewrite map_app, rev_app_distr.
    rewrite <- app_assoc. unfold sent. simpl. reflexivity.
Qed.

(** ** Chunks that are only read *)

Lemma xfer_bytes_read c n : forall i buf s,
  read c = true -> write c = false ->
  (i + n <= length buf)%nat -> (n <= length (ready (rx s)))%nat ->
  exists rest,
    xfer_bytes c n i buf s =
      Ok (firstn i buf ++ map u8 (firstn n (ready (rx s)))
            ++ skipn (i + n) buf,
          mkSpi (csr s) rest (repeat (DataWr 0x100) n ++ bus s)) /\
    ready rest = skipn n (ready (rx s)).
Proof.
  induction n as [|n IH]; intros i buf s Hr Hw Hl Ha.
  - exists (rx s). simpl. rewrite Nat.add_0_r, firstn_skipn, spi_eta. auto.
  - destruct (ready (rx s)) as [|d r] eqn:E; simpl in Ha; [lia|].
    destruct (poll_ready _ _ _ E) as (rest1 & Hp & Hr1).
    cbn [xfer_bytes]. unfold xfer_byte, tx_word. rewrite Hr, Hw. cbn [bind].
    unfold data_poll. cbn [data_write rx csr bus]. rewrite Hp. cbn [bind].
    rewrite store_ok by lia. cbn [bind].
    destruct (IH (S i) (firstn i buf ++ u8 d :: skipn (S i) buf)
                (mkSpi (csr s) rest1 (DataWr (Z.lor 0 256) :: bus s)))
      as (rest & Hx & Hrest); auto.
    { rewrite length_app, length_firstn. cbn [length]. rewrite length_skipn. lia. }
    { simpl. rewrite Hr1. lia. }
    exists rest. rewrite Hx. cbn [csr rx bus] in *. rewrite Hr1 in *.
    split; [|exact Hrest].
    rewrite firstn_stored, skipn_stored by lia.
    rewrite <- app_assoc. cbn [firstn map app].
    change (Z.lor 0 256) with 256.
    change (repeat (DataWr 256) (S n)) with (DataWr 256 :: repeat (DataWr 256) n).
    rewrite (repeat_cons n (DataWr 256)), <- app_assoc. reflexivity.
Qed.

Lemma xfer_bytes_starved c n : forall i buf s,
  read c = true -> write c = false ->
  (i + n <= length buf)%nat -> (length (ready (rx s)) < n)%nat ->
  xfer_bytes c n i buf s = Err NoResponse.
Proof.
  induction n as [|n IH]; intros i buf s Hr Hw Hl Ha; [lia|].
  cbn [xfer_bytes]. unfold xfer_byte, tx_word. rewrite Hr, Hw. cbn [bind].
  unfold data_poll. cbn [data_write rx csr bus].
  destruct (ready (rx s)) as [|d r] eqn:E.
  - rewrite (poll_never _ E). reflexivity.
  - destruct (poll_ready _ _ _ E) as (rest1 & Hp & Hr1).
    rewrite Hp. cbn [bind]. rewrite store_ok by lia. cbn [bind].
    apply IH; auto.
    + rewrite length_app, length_firstn. cbn [length]. rewrite length_skipn. lia.
    + simpl in *. rewrite Hr1. lia.
Qed.

(** ** The verify transfer on the bus *)

Lemma byte_effect c i buf v s :
  nth_error buf i = nth_error (data c) i ->
  match xfer_byte c i buf s, verify_byte c i v s with
  | Ok (buf', s1), Ok (_, s2) =>
      s1 = s2 /\ skipn (S i) buf' = skipn (S i) buf
  | Err f1, Err f2 => f1 = f2
  | _, _ => False
  end.
Proof.
  intros Hn. unfold xfer_byte, verify_byte, tx_word, load. rewrite Hn.
  destruct (write c), (read c); cbn [bind].
  - destruct (nth_error (data c) i) as [e|] eqn:E; cbn [bind]; [|reflexivity].
    destruct (data_poll _) as [[d s1]|]; cbn [bind]; [|reflexivity].
    assert (Hi : (i < length buf)%nat) by (apply nth_error_Some; congruence).
    rewrite store_ok by exact Hi. cbn [bind]. split; [reflexivity|].
    change (firstn i buf ++ u8 d :: skipn (S i) buf)
      with (firstn i buf ++ [u8 d] ++ skipn (S i) buf).
    rewrite app_assoc, skipn_app.
    assert (L : length (firstn i buf ++ [u8 d]) = S i)
      by (rewrite length_app, length_firstn; simpl; lia).
    rewrite skipn_all2 by lia. rewrite L, Nat.sub_diag. reflexivity.
  - destruct (nth_error (data c) i) as [e|] eqn:E; cbn [bind]; [|reflexivity].
    auto.
  - destruct (data_poll _) as [[d s1]|]; cbn [bind]; [|reflexivity].
    destruct (nth_error (data c) i) as [e|] eqn:E; cbn [bind].
    + assert (Hi : (i < length buf)%nat) by (apply nth_error_Some; congruence).
      rewrite store_ok by exact Hi. cbn [bind]. split; [reflexivity|].
      change (firstn i buf ++ u8 d :: skipn (S i) buf)
        with (firstn i buf ++ [u8 d] ++ skipn (S i) buf).
      rewrite app_assoc, skipn_app.
      assert (L : length (firstn i buf ++ [u8 d]) = S i)
        by (rewrite length_app, length_firstn; simpl; lia).
      rewrite skipn_all2 by lia. rewrite L, Nat.sub_diag. reflexivity.
    + assert (Ho : (length buf <= i)%nat)
        by (apply nth_error_None; congruence).
      rewrite store_outside by exact Ho. reflexivity.
  - auto.
Qed.

Lemma bytes_effect c n : forall i buf v s,
  skipn i buf = skipn i (data c) ->
  bus_effect (xfer_bytes c n i buf s) = bus_effect (verify_bytes c n i v s).
Proof.
  induction n as [|n IH]; intros i buf v s Hs; [reflexivity|].
  cbn [xfer_bytes verify_bytes].
  assert (Hn : nth_error buf i = nth_error (data c) i)
    by (rewrite !nth_error_skipn, Hs; reflexivity).
  pose proof (byte_effect c i buf v s Hn) as B.
  destruct (xfer_byte c i buf s) as [[buf1 s1]|f1];
    destruct (verify_byte c i v s) as [[v2 s2]|f2]; try contradiction.
  - destruct B as (<- & B). cbn [bind]. apply IH.
    rewrite B. change (S i) with (1 + i)%nat.
    rewrite <- !skipn_skipn, Hs. reflexivity.
  - subst f2. reflexivity.
Qed.

Lemma chunks_effect xfer : forall n v s,
  bus_effect (xfer_chunks xfer n s) = bus_effect (verify_chunks xfer n v s).
Proof.
  induction xfer as [|c xfer IH]; intros [|n] v s; try reflexivity.
  cbn [xfer_chunks verify_chunks].
  pose proof (bytes_effect c (len c) 0 (data c) v s eq_refl) as B.
  destruct (xfer_bytes c (len c) 0 (data c) s) as [[buf1 s1]|f1];
    destruct (verify_bytes c (len c) 0 v s) as [[v2 s2]|f2];
    simpl in B; try discriminate.
  - inv B. cbn [bind]. specialize (IH n v2 s2).
    destruct (xfer_chunks xfer n s2) as [[r1 t1]|g1];
      destruct (verify_chunks xfer n v2 s2) as [[r2 t2]|g2];
      simpl in IH; try discriminate; inv IH; reflexivity.
  - inv B. reflexivity.
Qed.

Lemma verify_same_bus cs xfer n s :
  bus_effect (spi_xfer_verify cs xfer n s) = bus_effect (spi_xfer cs xfer n s).
Proof.
  unfold spi_xfer_verify, spi_xfer. cbv zeta.
  pose proof (chunks_effect xfer n (mkShould 0 0 0) (cs_low cs s)) as B.
  destruct (xfer_chunks xfer n (cs_low cs s)) as [[r1 t1]|g1];
    destruct (verify_chunks xfer n (mkShould 0 0 0) (cs_low cs s)) as [[r2 t2]|g2];
    simpl in B; try discriminate; inv B; cbn [bind]; [|reflexivity].
  destruct (should_e r2 =? 0); reflexivity.
Qed.


(** ** The chip select *)

Lemma xfer_byte_words c i buf s buf' s' :
  xfer_byte c i buf s = Ok (buf', s') ->
  csr s' = csr s /\ exists ws, bus s' = map DataWr ws ++ bus s.
Proof.
  unfold xfer_byte. intros H. repeat step_ok.
  - apply data_poll_frame in E1 as (Hb & Hc & _). simpl in *.
    split; [exact Hc|]. eexists [_]. rewrite Hb. reflexivity.
  - simpl. split; [reflexivity|]. eexists [_]. reflexivity.
Qed.

Lemma xfer_bytes_words c n : forall i buf s buf' s',
  xfer_bytes c n i buf s = Ok (buf', s') ->
  csr s' = csr s /\ exists ws, bus s' = map DataWr ws ++ bus s.
Proof.
  induction n as [|n IH]; simpl; intros i buf s buf' s' H.
  - inv H. split; [reflexivity|]. exists []. reflexivity.
  - repeat step_ok. apply xfer_byte_words in E as (A1 & w1 & A2).
    apply IH in H as (B1 & w2 & B2). split; [congruence|].
    exists (w2 ++ w1). rewrite B2, A2, map_app, app_assoc. reflexivity.
Qed.

Lemma xfer_chunks_words xfer : forall n s xfer' s',
  xfer_chunks xfer n s = Ok (xfer', s') ->
  csr s' = csr s /\ exists ws, bus s' = map DataWr ws ++ bus s.
Proof.
  induction xfer as [|c xfer IH]; intros [|n] s xfer' s' H; simpl in H;
    try discriminate;
    try (inv H; split; [reflexivity|]; exists []; reflexivity).
  repeat step_ok.
  apply xfer_bytes_words in E as (A1 & w1 & A2).
  apply IH in E0 as (B1 & w2 & B2). split; [congruence|].
  exists (w2 ++ w1). rewrite B2, A2, map_app, app_assoc. reflexivity.
Qed.

Lemma u32_bits z i : 0 <= i ->
  Z.testbit (u32 z) i = Z.testbit z i && (i <? 32).
Proof.
  intros Hi. unfold u32. rewrite <- Z.land_ones by lia.
  rewrite Z.land_spec, Z.testbit_ones by lia.
  replace (0 <=? i) with true by (symmetry; apply Z.leb_le; exact Hi).
  reflexivity.
Qed.

(** X2.  A transfer asserts the chip select, writes data words, and releases
    the chip select: when it returns, bit 16+cs of the control register is set
    and every other bit is as it was. *)
Theorem spi_xfer_chip_select cs xfer n s xfer' s' :
  0 <= cs < 16 -> 0 <= csr s < 2 ^ 32 ->
  spi_xfer cs xfer n s = Ok (xfer', s') ->
  (forall i, 0 <= i ->
     Z.testbit (csr s') i = if i =? 16 + cs then true else Z.testbit (csr s) i) /\
  exists ws, bus s' = CsHigh cs :: map DataWr ws ++ CsLow cs :: bus s.
Proof.
  intros Hcs Hcsr H. unfold spi_xfer in H. cbv zeta in H.
  apply DfuFacts.bind_ok in H as ([x t] & E & H). inv H.
  apply xfer_chunks_words in E as (Hc & ws & Hb). split.
  - intros i Hi. cbn [cs_high csr]. rewrite Hc. cbn [cs_low csr].
    rewrite u32_bits, Z.lor_spec, Z.land_spec, u32_bits, Z.lnot_spec by lia.
    rewrite Z.shiftl_spec by lia.
    assert (Hh : Z.testbit (csr s) i = Z.testbit (csr s) i && (i <? 32)).
    { rewrite <- u32_bits by lia. unfold u32.
      rewrite Z.mod_small by lia. reflexivity. }
    destruct (i =? 16 + cs) eqn:Ei.
    + apply Z.eqb_eq in Ei. subst i.
      replace (16 + cs - (16 + cs)) with 0 by lia.
      replace (16 + cs <? 32) with true by (symmetry; apply Z.ltb_lt; lia).
      change (Z.testbit 1 0) with true. rewrite orb_true_r. reflexivity.
    + apply Z.eqb_neq in Ei.
      assert (Hz : Z.testbit 1 (i - (16 + cs)) = false).
      { destruct (Z_lt_ge_dec (i - (16 + cs)) 0) as [Hn|Hn].
        - apply Z.testbit_neg_r. exact Hn.
        - change 1 with (Z.ones 1). apply Z.ones_spec_high. lia. }
      rewrite Hz. cbn [negb]. rewrite orb_false_r.
      rewrite Hh at 2. destruct (Z.testbit (csr s) i), (i <? 32); reflexivity.
  - exists ws. cbn [cs_high bus]. rewrite Hb. reflexivity.
Qed.

Lemma spi_xfer_chip_select_witness :
  (forall i, 0 <= i ->
     Z.testbit 0x802c0 i = if i =? 16 + 3 then true else Z.testbit 0x2c0 i) /\
  exists ws, [CsHigh 3; DataWr 6; CsLow 3] = CsHigh 3 :: map DataWr ws ++ [CsLow 3].
Proof.
  apply (spi_xfer_chip_select 3 [mkChunk [6] 1 false true] 1
           (mkSpi 0x2c0 [] []) [mkChunk [6] 1 false true]
           (mkSpi 0x802c0 [] [CsHigh 3; DataWr 6; CsLow 3])).
  - lia.
  - simpl. lia.
  - vm_compute. reflexivity.
Defined.

(** ** Transfers that send, and transfers that send and then read *)

Lemma spi_xfer_send cs xfer n s :
  n = length xfer ->
  Forall (fun c => read c = false /\
                   (write c = true -> (len c <= length (data c))%nat)) xfer ->
  spi_xfer cs xfer n s =
    Ok (xfer,
        mkSpi (csr (cs_high cs (cs_low cs s))) (rx s)
          (transfer cs (concat (map sent xfer)) 0 ++ bus s)).
Proof.
  intros -> H. unfold spi_xfer. cbv zeta.
  rewrite xfer_chunks_send by exact H. cbn [bind].
  unfold cs_high, cs_low, transfer. cbn [csr rx bus repeat app].
  rewrite <- app_assoc. reflexivity.
Qed.

(** X3.  A transfer all of whose chunks are only sent (no [read] flag; a chunk
    with [write] has its bytes, one without sends 0x00): it returns, takes no
    answer of the controller, leaves the chunks as they are, and puts the
    bytes on the bus in order between the two chip select events. *)
Theorem spi_xfer_send_only cs xfer s :
  Forall (fun c => read c = false /\
                   (write c = true -> (len c <= length (data c))%nat)) xfer ->
  spi_xfer cs xfer (length xfer) s =
    Ok (xfer,
        mkSpi (csr (cs_high cs (cs_low cs s))) (rx s)
          (transfer cs (concat (map sent xfer)) 0 ++ bus s)).
Proof. intros H. apply spi_xfer_send; [reflexivity|exact H]. Qed.

Lemma spi_xfer_send_only_witness :
  spi_xfer SPI_CS_FLASH [mkChunk [0x02; 0; 0; 0] 4 false true;
                         mkChunk [] 2 false false;
                         mkChunk [7; 8; 9] 2 false true] 3
    (mkSpi 0xff02c0 [5] []) =
  Ok ([mkChunk [0x02; 0; 0; 0] 4 false true; mkChunk [] 2 false false;
       mkChunk [7; 8; 9] 2 false true],
      mkSpi 0xff02c0 [5]
        [CsHigh 0; DataWr 8; DataWr 7; DataWr 0; DataWr 0; DataWr 0; DataWr 0;
         DataWr 0; DataWr 2; CsLow 0]).
Proof.
  apply (spi_xfer_send_only SPI_CS_FLASH
           [mkChunk [0x02; 0; 0; 0] 4 false true; mkChunk [] 2 false false;
            mkChunk [7; 8; 9] 2 false true] (mkSpi 0xff02c0 [5] [])).
  repeat constructor; simpl; try discriminate; lia.
Defined.

Lemma xfer_chunks_send_read pre : forall dst n s,
  Forall (fun c => read c = false /\
                   (write c = true -> (len c <= length (data c))%nat)) pre ->
  (n <= length dst)%nat -> (n <= length (ready (rx s)))%nat ->
  exists rest,
    xfer_chunks (pre ++ [mkChunk dst n true false]) (S (length pre)) s =
      Ok (pre ++ [mkChunk (map u8 (firstn n (ready (rx s))) ++ skipn n dst)
                    n true false],
          mkSpi (csr s) rest
            (repeat (DataWr 0x100) n
               ++ rev (map DataWr (concat (map sent pre))) ++ bus s)) /\
    ready rest = skipn n (ready (rx s)).
Proof.
  induction pre as [|c pre IH]; intros dst n s H Hd Ha.
  - cbn [app length xfer_chunks len data].
    destruct (xfer_bytes_read (mkChunk dst n true false) n 0 dst s)
      as (rest & Hx & Hr); auto.
    exists rest. rewrite Hx. cbn [bind read write firstn app map concat rev].
    auto.
  - inversion H as [|? ? (Hr & Hw) Hrest]; subst.
    cbn [app length xfer_chunks].
    rewrite xfer_bytes_send by (auto; intros W; simpl; auto).
    cbn [bind].
    destruct (IH dst n
                (mkSpi (csr s) (rx s)
                   (rev (map DataWr (if write c then firstn (len c) (skipn 0 (data c))
                                     else repeat 0 (len c))) ++ bus s))
                Hrest Hd Ha) as (rest & Hx & Hrr).
    exists rest. rewrite Hx. cbn [bind csr rx bus] in *.
    rewrite chunk_eta. split; [|exact Hrr].
    cbn [map concat]. rewrite map_app, rev_app_distr.
    rewrite <- !app_assoc. unfold sent. simpl. reflexivity.
Qed.

Lemma send_then_read cs pre dst n s :
  Forall (fun c => read c = false /\
                   (write c = true -> (len c <= length (data c))%nat)) pre ->
  (n <= length dst)%nat -> (n <= length (ready (rx s)))%nat ->
  exists rest,
    spi_xfer cs (pre ++ [mkChunk dst n true false]) (S (length pre)) s =
      Ok (pre ++ [mkChunk (map u8 (firstn n (ready (rx s))) ++ skipn n dst)
                    n true false],
          mkSpi (csr (cs_high cs (cs_low cs s))) rest
            (transfer cs (concat (map sent pre)) n ++ bus s)) /\
    ready rest = skipn n (ready (rx s)).
Proof.
  intros H Hd Ha. unfold spi_xfer. cbv zeta.
  destruct (xfer_chunks_send_read pre dst n (cs_low cs s) H Hd Ha)
    as (rest & Hx & Hr).
  exists rest. rewrite Hx. cbn [bind]. split; [|exact Hr].
  unfold cs_high, cs_low, transfer. cbn [csr rx bus app].
  rewrite <- !app_assoc. reflexivity.
Qed.

(** X4.  A transfer whose chunks are only sent, followed by one chunk that
    only reads [n] bytes into [dst]: the bytes of the first chunks go out,
    then [n] read words; the first [n] answers of the controller with bit 31
    clear are taken, answers with the bit set are skipped; their low bytes
    become the first [n] bytes of [dst], whose other bytes stay. *)
Theorem spi_xfer_send_then_read cs pre dst n s :
  Forall (fun c => read c = false /\
                   (write c = true -> (len c <= length (data c))%nat)) pre ->
  (n <= length dst)%nat -> (n <= length (ready (rx s)))%nat ->
  exists rest,
    spi_xfer cs (pre ++ [mkChunk dst n true false]) (S (length pre)) s =
      Ok (pre ++ [mkChunk (map u8 (firstn n (ready (rx s))) ++ skipn n dst)
                    n true false],
          mkSpi (csr (cs_high cs (cs_low cs s))) rest
            (transfer cs (concat (map sent pre)) n ++ bus s)) /\
    ready rest = skipn n (ready (rx s)).
Proof. exact (send_then_read cs pre dst n s). Qed.

Lemma spi_xfer_send_then_read_witness :
  exists rest,
    spi_xfer SPI_CS_FLASH
      ([mkChunk [0x4b] 1 false true; mkChunk [] 4 false false]
         ++ [mkChunk [0; 0; 0] 2 true false]) 3
      (mkSpi 0xff02c0 [0x80000000; 0x1AB; 0xCD; 0xEF] []) =
      Ok ([mkChunk [0x4b] 1 false true; mkChunk [] 4 false false]
            ++ [mkChunk (map u8 (firstn 2 (ready [0x80000000; 0x1AB; 0xCD; 0xEF]))
                           ++ skipn 2 [0; 0; 0]) 2 true false],
          mkSpi 0xff02c0 rest
            (transfer SPI_CS_FLASH [0x4b; 0; 0; 0; 0] 2 ++ [])) /\
    ready rest = skipn 2 (ready [0x80000000; 0x1AB; 0xCD; 0xEF]).
Proof.
  apply (spi_xfer_send_then_read SPI_CS_FLASH
           [mkChunk [0x4b] 1 false true; mkChunk [] 4 false false] [0; 0; 0] 2
           (mkSpi 0xff02c0 [0x80000000; 0x1AB; 0xCD; 0xEF] [])).
  - repeat constructor; simpl; try discriminate; lia.
  - simpl. lia.
  - simpl. lia.
Defined.

(** A command followed by [n] bytes to read. *)
Lemma xfer_cmd_read cs cmd dst n s :
  (n <= length dst)%nat -> (n <= length (ready (rx s)))%nat ->
  exists rest,
    spi_xfer cs [mkChunk cmd (length cmd) false true; mkChunk dst n true false]
      2 s =
      Ok ([mkChunk cmd (length cmd) false true;
           mkChunk (map u8 (firstn n (ready (rx s))) ++ skipn n dst) n true false],
          mkSpi (csr (cs_high cs (cs_low cs s))) rest
            (transfer cs cmd n ++ bus s)) /\
    ready rest = skipn n (ready (rx s)).
Proof.
  intros Hd Ha. unfold spi_xfer. cbv zeta. cbn [xfer_chunks len data].
  rewrite xfer_bytes_send by (auto; intros _; simpl; lia). cbn [bind write].
  cbn [skipn]. rewrite firstn_all.
  destruct (xfer_bytes_read (mkChunk dst n true false) n 0 dst
              (mkSpi (csr (cs_low cs s)) (rx (cs_low cs s))
                 (rev (map DataWr cmd) ++ bus (cs_low cs s))))
    as (rest & Hx & Hr); auto.
  exists rest. cbn [rx csr bus cs_low] in *. rewrite Hx. cbn [bind read write].
  split; [|exact Hr].
  unfold cs_high, transfer. cbn [csr rx bus firstn app].
  rewrite <- !app_assoc. reflexivity.
Qed.

Lemma xfer_cmd_starved cs cmd dst n s :
  (n <= length dst)%nat -> (length (ready (rx s)) < n)%nat ->
  spi_xfer cs [mkChunk cmd (length cmd) false true; mkChunk dst n true false]
    2 s = Err NoResponse.
Proof.
  intros Hd Ha. unfold spi_xfer. cbv zeta. cbn [xfer_chunks len data].
  rewrite xfer_bytes_send by (auto; intros _; simpl; lia). cbn [bind write].
  rewrite xfer_bytes_starved; auto.
Qed.

Lemma flash_read_spec dst addr n s :
  (n <= length dst)%nat ->
  ((n <= length (ready (rx s)))%nat ->
   exists rest,
     flash_read dst addr n s =
       Ok (map u8 (firstn n (ready (rx s))) ++ skipn n dst,
           mkSpi (csr (cs_high SPI_CS_FLASH (cs_low SPI_CS_FLASH s))) rest
             (transfer SPI_CS_FLASH (cmd_addr FLASH_CMD_READ_DATA addr) n
                ++ bus s)) /\
     ready rest = skipn n (ready (rx s))) /\
  ((length (ready (rx s)) < n)%nat -> flash_read dst addr n s = Err NoResponse).
Proof.
  intros Hd. split; intros Ha.
  - destruct (xfer_cmd_read SPI_CS_FLASH (cmd_addr FLASH_CMD_READ_DATA addr)
                dst n s Hd Ha) as (rest & Hx & Hr).
    exists rest. split; [|exact Hr].
    unfold flash_read. cbn [length cmd_addr] in Hx. rewrite Hx. reflexivity.
  - pose proof (xfer_cmd_starved SPI_CS_FLASH
                  (cmd_addr FLASH_CMD_READ_DATA addr) dst n s Hd Ha) as Hx.
    unfold flash_read. cbn [length cmd_addr] in Hx. rewrite Hx. reflexivity.
Qed.

(** X5.  [flash_read] of [n] bytes into [dst]: the first [n] answers of the
    controller that have bit 31 clear are taken, answers with the bit set are
    skipped; their low bytes become the first [n] bytes of [dst], the rest of
    [dst] stays; on the bus go the command 0x03, three address bytes and [n]
    read words.  With fewer than [n] such answers the controller stops
    answering before the read is through. *)
Theorem flash_read_delivers dst addr n s :
  (n <= length dst)%nat ->
  ((n <= length (ready (rx s)))%nat ->
   exists rest,
     flash_read dst addr n s =
       Ok (map u8 (firstn n (ready (rx s))) ++ skipn n dst,
           mkSpi (csr (cs_high SPI_CS_FLASH (cs_low SPI_CS_FLASH s))) rest
             (transfer SPI_CS_FLASH (cmd_addr FLASH_CMD_READ_DATA addr) n
                ++ bus s)) /\
     ready rest = skipn n (ready (rx s))) /\
  ((length (ready (rx s)) < n)%nat -> flash_read dst addr n s = Err NoResponse).
Proof. exact (flash_read_spec dst addr n s). Qed.

Lemma flash_read_delivers_witness :
  exists rest,
    flash_read [0; 0; 0] 0x200000 2
      (mkSpi 0xff02c0 [0x80000000; 0x1AB; 0x80000000; 0xCD; 0xEF] []) =
      Ok ([0xAB; 0xCD; 0],
          mkSpi 0xff02c0 rest
            [CsHigh 0; DataWr 0x100; DataWr 0x100;
             DataWr 0; DataWr 0; DataWr 0x20; DataWr 3; CsLow 0]) /\
    ready rest = [0xEF].
Proof.
  refine (proj1 (flash_read_delivers [0; 0; 0] 0x200000 2
            (mkSpi 0xff02c0 [0x80000000; 0x1AB; 0x80000000; 0xCD; 0xEF] []) _) _).
  - simpl. lia.
  - simpl. lia.
Defined.

(** ** The verdict of [flash_verify] *)

Lemma compared_bytes_sent c n : forall i pending,
  read c = false -> compared_bytes c n i pending = ([], pending).
Proof.
  induction n as [|n IH]; intros i pending Hr; [reflexivity|].
  cbn [compared_bytes]. rewrite Hr. apply IH. exact Hr.
Qed.

Lemma compared_bytes_read c n : forall i pending,
  read c = true ->
  (i + n <= length (data c))%nat -> (n <= length (ready pending))%nat ->
  exists rest,
    compared_bytes c n i pending =
      (combine (firstn n (skipn i (data c))) (map u8 (firstn n (ready pending))),
       rest).
Proof.
  induction n as [|n IH]; intros i pending Hr Hl Ha.
  - exists pending. reflexivity.
  - cbn [compared_bytes]. rewrite Hr.
    destruct (ready pending) as [|d r] eqn:E; simpl in Ha; [lia|].
    destruct (poll_ready _ _ _ E) as (rest1 & Hp & Hr1). rewrite Hp.
    destruct (nth_error (data c) i) as [e|] eqn:En;
      [|apply nth_error_None in En; lia].
    destruct (IH (S i) rest1 Hr) as (rest & Hc); [lia|rewrite Hr1; lia|].
    rewrite Hc, Hr1. exists rest.
    rewrite (skipn_nth _ _ _ En). reflexivity.
Qed.

Lemma write_needed_combine (a : list Z) : forall b,
  length a = length b -> (write_needed (combine a b) = false <-> a = b).
Proof.
  unfold write_needed.
  induction a as [|x a IH]; intros [|y b] H; simpl in H; try lia.
  - simpl. split; reflexivity.
  - cbn [combine existsb fst snd]. rewrite orb_false_iff, negb_false_iff.
    rewrite Z.eqb_eq, IH by lia. split.
    + intros (-> & ->). reflexivity.
    + intros E. inv E. auto.
Qed.

Lemma erase_needed_exists (p : list (Z * Z)) :
  erase_needed p = true <->
  Exists (fun ea => Z.land (fst ea) (snd ea) <> fst ea) p.
Proof.
  unfold erase_needed. rewrite existsb_exists, Exists_exists.
  split; intros (ea & Hin & H); exists ea; split; auto.
  - apply negb_true_iff, Z.eqb_neq in H. exact H.
  - apply negb_true_iff, Z.eqb_neq. exact H.
Qed.

Lemma flash_verify_spec dst addr n s :
  (n <= length dst)%nat -> (n <= length (ready (rx s)))%nat ->
  let flash := map u8 (firstn n (ready (rx s))) in
  exists r s',
    flash_verify dst addr n s = Ok (r, s') /\
    bus s' = transfer SPI_CS_FLASH (cmd_addr FLASH_CMD_READ_DATA addr) n
               ++ bus s /\
    ready (rx s') = skipn n (ready (rx s)) /\
    (r = 0 \/ r = 1 \/ r = 2 \/ r = 3) /\
    (r = 0 <-> firstn n dst = flash) /\
    (Z.testbit r 0 = true <->
     Exists (fun ea => Z.land (fst ea) (snd ea) <> fst ea)
       (combine (firstn n dst) flash)).
Proof.
  intros Hd Ha flash.
  destruct (xfer_cmd_read SPI_CS_FLASH (cmd_addr FLASH_CMD_READ_DATA addr)
              dst n s Hd Ha) as (rest & Hx & Hr).
  cbn [length cmd_addr] in Hx.
  pose proof (verify_same_bus SPI_CS_FLASH
                [mkChunk (cmd_addr FLASH_CMD_READ_DATA addr) 4 false true;
                 mkChunk dst n true false] 2 s) as B.
  rewrite Hx in B. cbn [bus_effect] in B.
  fold (flash_verify dst addr n s) in B.
  destruct (flash_verify dst addr n s) as [[r s']|f] eqn:V;
    cbn [bus_effect] in B; [|discriminate].
  inv B. exists r. eexists. split; [reflexivity|]. cbn [bus rx].
  split; [reflexivity|]. split; [exact Hr|].
  apply spi_xfer_verify_code in V. cbv zeta in V. destruct V as (Hv & Hrange & _).
  split; [exact Hrange|]. clear Hrange.
  assert (Hp : compared
                 [mkChunk (cmd_addr FLASH_CMD_READ_DATA addr) 4 false true;
                  mkChunk dst n true false] 2 (rx s)
               = combine (firstn n dst) flash).
  { cbn [compared len]. rewrite compared_bytes_sent by reflexivity.
    destruct (compared_bytes_read (mkChunk dst n true false) n 0 (rx s))
      as (rest' & Hc); auto.
    rewrite Hc. cbn [app data skipn]. rewrite app_nil_r. reflexivity. }
  rewrite Hp in Hv.
  assert (Hl : length (firstn n dst) = length flash).
  { unfold flash. rewrite length_map, !length_firstn. lia. }
  pose proof (write_needed_combine _ _ Hl) as Hw.
  pose proof (erase_needed_exists (combine (firstn n dst) flash)) as He.
  pose proof (erase_needs_write (combine (firstn n dst) flash)) as Hew.
  unfold verify_code in Hv.
  destruct (erase_needed (combine (firstn n dst) flash)) eqn:Ee.
  - specialize (Hew eq_refl). split.
    + split.
      * intros ->. destruct (all_erased _); discriminate.
      * intros E. apply Hw in E. congruence.
    + split; [intros _; apply He; reflexivity|intros _].
      subst r. destruct (all_erased _); reflexivity.
  - split.
    + rewrite <- Hw. destruct (write_needed _); subst r; split; auto; discriminate.
    + split.
      * intros Hb. subst r. destruct (write_needed _); discriminate.
      * intros Hx'. apply He in Hx'. discriminate.
Qed.

(** X6.  [flash_verify] of [n] bytes of [dst], with the controller delivering
    at least [n] answers: it returns; it leaves the same trace and takes the
    same answers as [flash_read]; it returns one of 0, 1, 2, 3: 0 exactly when
    the bytes delivered are the bytes of [dst], and a code with bit 0 set
    exactly when some byte of [dst] has a 1 where the byte delivered has a 0.
    *)
Theorem flash_verify_verdict dst addr n s :
  (n <= length dst)%nat -> (n <= length (ready (rx s)))%nat ->
  let flash := map u8 (firstn n (ready (rx s))) in
  exists r s',
    flash_verify dst addr n s = Ok (r, s') /\
    bus s' = transfer SPI_CS_FLASH (cmd_addr FLASH_CMD_READ_DATA addr) n
               ++ bus s /\
    ready (rx s') = skipn n (ready (rx s)) /\
    (r = 0 \/ r = 1 \/ r = 2 \/ r = 3) /\
    (r = 0 <-> firstn n dst = flash) /\
    (Z.testbit r 0 = true <->
     Exists (fun ea => Z.land (fst ea) (snd ea) <> fst ea)
       (combine (firstn n dst) flash)).
Proof. exact (flash_verify_spec dst addr n s). Qed.

Lemma flash_verify_verdict_witness :
  let flash := map u8 (firstn 2 (ready [0xF0; 0x0F; 0x33])) in
  exists r s',
    flash_verify [0xF0; 0x0F] 0x200000 2 (mkSpi 0xff02c0 [0xF0; 0x0F; 0x33] [])
      = Ok (r, s') /\
    bus s' = transfer SPI_CS_FLASH (cmd_addr FLASH_CMD_READ_DATA 0x200000) 2
               ++ [] /\
    ready (rx s') = skipn 2 (ready [0xF0; 0x0F; 0x33]) /\
    (r = 0 \/ r = 1 \/ r = 2 \/ r = 3) /\
    (r = 0 <-> firstn 2 [0xF0; 0x0F] = flash) /\
    (Z.testbit r 0 = true <->
     Exists (fun ea => Z.land (fst ea) (snd ea) <> fst ea)
       (combine (firstn 2 [0xF0; 0x0F]) flash)).
Proof.
  apply (flash_verify_verdict [0xF0; 0x0F] 0x200000 2
           (mkSpi 0xff02c0 [0xF0; 0x0F; 0x33] [])); simpl; lia.
Defined.



(** ** Commands with an address *)

Lemma cmd_addr_spec cmd addr :
  Forall (fun b => 0 <= b < 256) (tl (cmd_addr cmd addr)) /\
  addr24 (cmd_addr cmd addr) = addr mod 2 ^ 24 /\
  cmd_addr cmd (addr + 2 ^ 24) = cmd_addr cmd addr.
Proof.
  assert (Hb : forall x, Z.land x 0xff = x mod 256).
  { intros x. change 0xff with (Z.ones 8). rewrite Z.land_ones by lia.
    reflexivity. }
  unfold cmd_addr, addr24. cbn [tl nth].
  rewrite !Hb, !Z.shiftr_div_pow2 by lia.
  change (2 ^ 16) with 65536. change (2 ^ 8) with 256.
  change (2 ^ 24) with 16777216.
  repeat apply conj.
  - repeat constructor; apply Z.mod_pos_bound; lia.
  - pose proof (Z.div_mod addr 256 ltac:(lia)).
    pose proof (Z.div_mod (addr / 256) 256 ltac:(lia)).
    pose proof (Z.div_mod (addr / 256 / 256) 256 ltac:(lia)).
    pose proof (Z.mod_pos_bound addr 256 ltac:(lia)).
    pose proof (Z.mod_pos_bound (addr / 256) 256 ltac:(lia)).
    pose proof (Z.mod_pos_bound (addr / 256 / 256) 256 ltac:(lia)).
    replace (addr / 65536) with (addr / 256 / 256)
      by (rewrite Z.div_div by lia; reflexivity).
    apply Z.mod_unique_pos with (q := addr / 256 / 256 / 256); lia.
  - f_equal.
    assert (H1 : (addr + 16777216) / 65536 = addr / 65536 + 256).
    { replace (addr + 16777216) with (addr + 256 * 65536) by lia.
      apply Z.div_add. lia. }
    assert (H2 : (addr + 16777216) / 256 = addr / 256 + 65536).
    { replace (addr + 16777216) with (addr + 65536 * 256) by lia.
      apply Z.div_add. lia. }
    rewrite H1, H2.
    replace (addr / 65536 + 256) with (addr / 65536 + 1 * 256) by lia.
    replace (addr / 256 + 65536) with (addr / 256 + 256 * 256) by lia.
    replace (addr + 16777216) with (addr + 65536 * 256) by lia.
    rewrite !Z.mod_add by lia. reflexivity.
Qed.

(** X7.  The three address bytes of a command are the low 24 bits of the
    address, most significant byte first: each is a byte, together they give
    back the address modulo 2^24, and two addresses 16 MiB apart give the same
    command. *)
Theorem cmd_addr_address cmd addr :
  Forall (fun b => 0 <= b < 256) (tl (cmd_addr cmd addr)) /\
  addr24 (cmd_addr cmd addr) = addr mod 2 ^ 24 /\
  cmd_addr cmd (addr + 2 ^ 24) = cmd_addr cmd addr.
Proof. exact (cmd_addr_spec cmd addr). Qed.

(** ** The status registers *)

Lemma flash_cmd_trace cmd s :
  flash_cmd cmd s =
    Ok (mkSpi (csr (cs_high SPI_CS_FLASH (cs_low SPI_CS_FLASH s))) (rx s)
          (transfer SPI_CS_FLASH [cmd] 0 ++ bus s)).
Proof.
  unfold flash_cmd.
  rewrite spi_xfer_send; [reflexivity|reflexivity|].
  repeat constructor; simpl; lia.
Qed.

Lemma flash_write_reg_trace reg val s :
  flash_write_reg reg val s =
    Ok (mkSpi (csr (cs_high SPI_CS_FLASH (cs_low SPI_CS_FLASH s))) (rx s)
          (transfer SPI_CS_FLASH [reg; val] 0 ++ bus s)).
Proof.
  unfold flash_write_reg.
  rewrite spi_xfer_send; [reflexivity|reflexivity|].
  repeat constructor; simpl; lia.
Qed.

(** X8.  [flash_write_sr], its two arguments bytes, writes status register 1,
    2 or 3 with the commands 0x01, 0x31 and 0x11; for any other register
    number it returns without touching the bus. *)
Theorem flash_write_sr_cases srno sr s :
  0 <= srno < 256 -> 0 <= sr < 256 ->
  flash_write_sr srno sr s =
    if (srno =? 1) || (srno =? 2) || (srno =? 3) then
      Ok (mkSpi (csr (cs_high SPI_CS_FLASH (cs_low SPI_CS_FLASH s))) (rx s)
            (transfer SPI_CS_FLASH
               [if srno =? 1 then 0x01 else if srno =? 2 then 0x31 else 0x11; sr]
               0 ++ bus s))
    else Ok s.
Proof.
  intros _ _. unfold flash_write_sr. cbv zeta.
  destruct (srno =? 3) eqn:E3.
  { apply Z.eqb_eq in E3. subst srno. cbn -[spi_xfer].
    rewrite spi_xfer_send;
      [reflexivity|reflexivity|repeat constructor; simpl; lia]. }
  destruct (srno =? 2) eqn:E2.
  { apply Z.eqb_eq in E2. subst srno. cbn -[spi_xfer].
    rewrite spi_xfer_send;
      [reflexivity|reflexivity|repeat constructor; simpl; lia]. }
  destruct (srno =? 1) eqn:E1.
  { apply Z.eqb_eq in E1. subst srno. cbn -[spi_xfer].
    rewrite spi_xfer_send;
      [reflexivity|reflexivity|repeat constructor; simpl; lia]. }
  reflexivity.
Qed.

Lemma flash_write_sr_cases_witness :
  flash_write_sr 4 0x02 (mkSpi 0xff02c0 [] []) = Ok (mkSpi 0xff02c0 [] []).
Proof.
  apply (flash_write_sr_cases 4 0x02 (mkSpi 0xff02c0 [] [])); lia.
Defined.

(** A register read whose answer is ready. *)
Lemma flash_read_reg_answer reg s d rest :
  rx s = d :: rest -> Z.testbit d 31 = false ->
  exists s',
    flash_read_reg reg s = Ok (u8 d, s') /\ rx s' = rest /\
    bus s' = transfer SPI_CS_FLASH [reg] 1 ++ bus s.
Proof.
  intros Hrx Hb. unfold flash_read_reg, spi_xfer. simpl.
  unfold xfer_byte, tx_word. simpl.
  unfold data_poll. simpl. rewrite Hrx. simpl. rewrite Hb. simpl.
  eexists. split; [reflexivity|]. rewrite Z.lor_0_r. auto.
Qed.

Lemma flash_cmd_sends cmd s :
  exists s',
    flash_cmd cmd s = Ok s' /\ rx s' = rx s /\
    bus s' = transfer SPI_CS_FLASH [cmd] 0 ++ bus s.
Proof. rewrite flash_cmd_trace. eexists. split; [reflexivity|]. auto. Qed.

Lemma flash_write_reg_sends reg val s :
  exists s',
    flash_write_reg reg val s = Ok s' /\ rx s' = rx s /\
    bus s' = transfer SPI_CS_FLASH [reg; val] 0 ++ bus s.
Proof. rewrite flash_write_reg_trace. eexists. split; [reflexivity|]. auto. Qed.

(** ** Waiting for the flash *)

Lemma concat_repeat_comm {A : Type} (t : list A) n :
  concat (repeat t n) ++ t = t ++ concat (repeat t n).
Proof.
  induction n as [|n IH]; simpl.
  - rewrite app_nil_r. reflexivity.
  - rewrite <- app_assoc, IH. reflexivity.
Qed.

Lemma wait_ready_polls busy : forall ok rest fuel s,
  rx s = busy ++ ok :: rest ->
  Forall (fun d => Z.testbit d 31 = false /\ Z.land (u8 d) 1 <> 0) busy ->
  Z.testbit ok 31 = false -> Z.land (u8 ok) 1 = 0 ->
  (length busy < fuel)%nat ->
  exists s',
    wait_ready fuel s = Ok s' /\ rx s' = rest /\
    bus s' = concat (repeat (transfer SPI_CS_FLASH [FLASH_CMD_READ_SR1] 1)
                       (S (length busy))) ++ bus s.
Proof.
  induction busy as [|b busy IH]; intros ok rest fuel s Hrx Hb Ho1 Ho2 Hf;
    (destruct fuel as [|fuel]; [simpl in Hf; lia|]); cbn [wait_ready].
  - destruct (flash_read_reg_answer FLASH_CMD_READ_SR1 s ok rest Hrx Ho1)
      as (s1 & H1 & R1 & B1).
    change (flash_read_reg FLASH_CMD_READ_SR1 s) with (flash_read_sr s) in H1.
    rewrite H1. cbn [bind]. rewrite Ho2.
    exists s1. split; [reflexivity|]. split; [exact R1|].
    rewrite B1. cbn [length repeat concat]. rewrite app_nil_r. reflexivity.
  - inversion Hb as [|? ? (Hb1 & Hb2) Hb']; subst.
    destruct (flash_read_reg_answer FLASH_CMD_READ_SR1 s b
                (busy ++ ok :: rest) Hrx Hb1) as (s1 & H1 & R1 & B1).
    change (flash_read_reg FLASH_CMD_READ_SR1 s) with (flash_read_sr s) in H1.
    rewrite H1. cbn [bind]. apply Z.eqb_neq in Hb2. rewrite Hb2.
    destruct (IH ok rest fuel s1 R1 Hb' Ho1 Ho2) as (s2 & H2 & R2 & B2);
      [simpl in Hf; lia|].
    exists s2. split; [exact H2|]. split; [exact R2|].
    rewrite B2, B1. cbn [length]. rewrite app_assoc, concat_repeat_comm.
    rewrite <- app_assoc. reflexivity.
Qed.

(** ** Write protection *)

(** Writing a register: command 0x06, then the register's write command
    with the value, then status reads until bit 0 of the status is clear. *)
Lemma write_and_wait wreg val busy ok rest s :
  rx s = busy ++ ok :: rest ->
  Forall (fun d => Z.testbit d 31 = false /\ Z.land (u8 d) 1 <> 0) busy ->
  Z.testbit ok 31 = false -> Z.land (u8 ok) 1 = 0 ->
  exists s',
    (s <- flash_write_enable s ;;
     s <- flash_write_reg wreg val s ;;
     wait_ready (wait_budget s) s) = Ok s' /\
    rx s' = rest /\
    bus s' = concat (repeat (transfer SPI_CS_FLASH [FLASH_CMD_READ_SR1] 1)
                       (S (length busy)))
             ++ transfer SPI_CS_FLASH [wreg; val] 0
             ++ transfer SPI_CS_FLASH [FLASH_CMD_WRITE_ENABLE] 0 ++ bus s.
Proof.
  intros Hrx Hb Ho1 Ho2.
  destruct (flash_cmd_sends FLASH_CMD_WRITE_ENABLE s) as (s1 & H1 & R1 & B1).
  destruct (flash_write_reg_sends wreg val s1) as (s2 & H2 & R2 & B2).
  destruct (wait_ready_polls busy ok rest (wait_budget s2) s2)
    as (s3 & H3 & R3 & B3); auto.
  { congruence. }
  { unfold wait_budget. rewrite R2, R1, Hrx, length_app. simpl. lia. }
  unfold flash_write_enable. rewrite H1. cbn [bind]. rewrite H2. cbn [bind].
  exists s3. split; [exact H3|]. split; [exact R3|].
  rewrite B3, B2, B1. reflexivity.
Qed.

(** X9.  [winbond_flash_write_protect] on a flash whose registers already have
    the wanted bits (SR1 & 0xFC is the value wanted, SR3 & 0x64 is 0x60):  it
    reads the two registers and writes nothing. *)
Theorem winbond_already_protected wanted sr1 sr3 rest s :
  rx s = sr1 :: sr3 :: rest ->
  Z.testbit sr1 31 = false -> Z.testbit sr3 31 = false ->
  Z.land (u8 sr1) 0xFC = wanted -> Z.land (u8 sr3) 0x64 = 0x60 ->
  exists s',
    winbond_flash_write_protect wanted s = Ok s' /\ rx s' = rest /\
    bus s' = transfer SPI_CS_FLASH [0x15] 1
             ++ transfer SPI_CS_FLASH [0x05] 1 ++ bus s.
Proof.
  intros Hrx H1 H3 E1 E3.
  destruct (flash_read_reg_answer 0x05 s sr1 (sr3 :: rest) Hrx H1)
    as (s1 & A1 & R1 & B1).
  destruct (flash_read_reg_answer 0x15 s1 sr3 rest R1 H3)
    as (s2 & A2 & R2 & B2).
  unfold winbond_flash_write_protect. cbv zeta.
  rewrite A1. cbn [bind]. rewrite E1, Z.eqb_refl. cbn [negb bind].
  rewrite A2. cbn [bind]. rewrite E3. cbn.
  exists s2. rewrite B2, B1. auto.
Qed.

Lemma winbond_already_protected_witness :
  exists s',
    winbond_flash_write_protect 0x30 (mkSpi 0xff02c0 [0x32; 0x60; 7] [])
      = Ok s' /\
    rx s' = [7] /\
    bus s' = transfer SPI_CS_FLASH [0x15] 1
             ++ transfer SPI_CS_FLASH [0x05] 1 ++ [].
Proof.
  apply (winbond_already_protected 0x30 0x32 0x60 [7]
           (mkSpi 0xff02c0 [0x32; 0x60; 7] [])); reflexivity.
Defined.

(** X10.  [winbond_flash_write_protect], the value wanted a byte, on a flash
    whose SR1 has other protect bits than wanted and whose SR3 is as wanted:
    after reading SR1 it sends write-enable, writes the wanted value to SR1
    (command 0x01), and reads the status until bit 0 is clear, once more than
    the flash answers with the bit set; then it reads SR3 and writes nothing
    more. *)
Theorem winbond_sets_protection wanted sr1 busy ok sr3 rest s :
  0 <= wanted < 256 ->
  rx s = sr1 :: busy ++ ok :: sr3 :: rest ->
  Z.testbit sr1 31 = false -> Z.land (u8 sr1) 0xFC <> wanted ->
  Forall (fun d => Z.testbit d 31 = false /\ Z.land (u8 d) 1 <> 0) busy ->
  Z.testbit ok 31 = false -> Z.land (u8 ok) 1 = 0 ->
  Z.testbit sr3 31 = false -> Z.land (u8 sr3) 0x64 = 0x60 ->
  exists s',
    winbond_flash_write_protect wanted s = Ok s' /\ rx s' = rest /\
    bus s' = transfer SPI_CS_FLASH [0x15] 1
             ++ concat (repeat (transfer SPI_CS_FLASH [0x05] 1)
                          (S (length busy)))
             ++ transfer SPI_CS_FLASH [0x01; wanted] 0
             ++ transfer SPI_CS_FLASH [0x06] 0
             ++ transfer SPI_CS_FLASH [0x05] 1 ++ bus s.
Proof.
  intros _ Hrx H1 E1 Hb Ho1 Ho2 H3 E3.
  destruct (flash_read_reg_answer 0x05 s sr1 _ Hrx H1) as (s1 & A1 & R1 & B1).
  destruct (write_and_wait 0x01 wanted busy ok (sr3 :: rest) s1 R1 Hb Ho1 Ho2)
    as (s2 & A2 & R2 & B2).
  destruct (flash_read_reg_answer 0x15 s2 sr3 rest R2 H3)
    as (s3 & A3 & R3 & B3).
  unfold winbond_flash_write_protect. cbv zeta.
  rewrite A1. cbn [bind]. apply Z.eqb_neq in E1. rewrite E1. cbn [negb].
  rewrite A2. cbn [bind]. rewrite A3. cbn [bind]. rewrite E3. cbn.
  exists s3. split; [reflexivity|]. split; [exact R3|].
  rewrite B3, B2, B1. rewrite <- ?app_assoc. reflexivity.
Qed.

Lemma winbond_sets_protection_witness :
  exists s',
    winbond_flash_write_protect 0x30
      (mkSpi 0xff02c0 [0x00; 0x03; 0x01; 0x00; 0x60; 7] []) = Ok s' /\
    rx s' = [7] /\
    bus s' = transfer SPI_CS_FLASH [0x15] 1
             ++ concat (repeat (transfer SPI_CS_FLASH [0x05] 1)
                          (S (length [0x03; 0x01])))
             ++ transfer SPI_CS_FLASH [0x01; 0x30] 0
             ++ transfer SPI_CS_FLASH [0x06] 0
             ++ transfer SPI_CS_FLASH [0x05] 1 ++ [].
Proof.
  apply (winbond_sets_protection 0x30 0x00 [0x03; 0x01] 0x00 0x60 [7]
           (mkSpi 0xff02c0 [0x00; 0x03; 0x01; 0x00; 0x60; 7] []));
    try reflexivity; try discriminate;
    [lia|repeat constructor; discriminate].
Defined.

(** X11.  [issi_flash_write_protect] on a flash whose status register already
    has the wanted protect bits (SR & 0x3C) and whose function register has
    bit 1 set: it reads the two registers and writes nothing; the one-time
    programmable function register is left alone. *)
Theorem issi_already_protected wanted sr fr rest s :
  rx s = sr :: fr :: rest ->
  Z.testbit sr 31 = false -> Z.testbit fr 31 = false ->
  Z.land (u8 sr) 0x3C = wanted -> Z.land (u8 fr) 0x02 = 0x02 ->
  exists s',
    issi_flash_write_protect wanted s = Ok s' /\ rx s' = rest /\
    bus s' = transfer SPI_CS_FLASH [0x48] 1
             ++ transfer SPI_CS_FLASH [0x05] 1 ++ bus s.
Proof.
  intros Hrx H1 H3 E1 E3.
  destruct (flash_read_reg_answer 0x05 s sr (fr :: rest) Hrx H1)
    as (s1 & A1 & R1 & B1).
  destruct (flash_read_reg_answer 0x48 s1 fr rest R1 H3)
    as (s2 & A2 & R2 & B2).
  unfold issi_flash_write_protect. cbv zeta.
  rewrite A1. cbn [bind]. rewrite E1, Z.eqb_refl. cbn [negb bind].
  rewrite A2. cbn [bind]. rewrite E3. cbn.
  exists s2. rewrite B2, B1. auto.
Qed.

Lemma issi_already_protected_witness :
  exists s',
    issi_flash_write_protect 0x18 (mkSpi 0xff02c0 [0x18; 0x02; 7] [])
      = Ok s' /\
    rx s' = [7] /\
    bus s' = transfer SPI_CS_FLASH [0x48] 1
             ++ transfer SPI_CS_FLASH [0x05] 1 ++ [].
Proof.
  apply (issi_already_protected 0x18 0x18 0x02 [7]
           (mkSpi 0xff02c0 [0x18; 0x02; 7] [])); reflexivity.
Defined.

(** The manufacturer id, read with the answers ready. *)
Lemma flash_manuf_id_answer b0 b1 b2 rest s :
  rx s = b0 :: b1 :: b2 :: rest ->
  Z.testbit b0 31 = false -> Z.testbit b1 31 = false ->
  Z.testbit b2 31 = false ->
  exists s',
    flash_manuf_id [0; 0; 0; 0] s = Ok ([u8 b0; u8 b1; u8 b2; 0], s') /\
    rx s' = rest /\
    bus s' = transfer SPI_CS_FLASH [FLASH_CMD_READ_MANUF_ID] 3 ++ bus s.
Proof.
  intros Hrx H0 H1 H2. unfold flash_manuf_id, spi_xfer. simpl.
  unfold xfer_byte, tx_word. simpl.
  unfold data_poll. simpl. rewrite Hrx. simpl. rewrite H0. simpl.
  rewrite H1. simpl. rewrite H2. simpl.
  eexists. split; [reflexivity|]. rewrite Z.lor_0_r. auto.
Qed.

Lemma u8_bound z : 0 <= u8 z < 256.
Proof. unfold u8. apply Z.mod_pos_bound. lia. Qed.

(** X12.  [flash_write_protect_bootloader] and
    [flash_write_unprotect_bootloader] read the three bytes of the
    manufacturer id and go on by them: EF 40 18 (read as the number 0x1840EF)
    is handled as a Winbond flash, 9D 60 18 as an ISSI flash, and for any
    other id nothing more is done on the bus. *)
Theorem flash_write_protect_by_id b0 b1 b2 rest s :
  rx s = b0 :: b1 :: b2 :: rest ->
  Z.testbit b0 31 = false -> Z.testbit b1 31 = false ->
  Z.testbit b2 31 = false ->
  exists s1,
    rx s1 = rest /\
    bus s1 = transfer SPI_CS_FLASH [FLASH_CMD_READ_MANUF_ID] 3 ++ bus s /\
    flash_write_protect_bootloader s =
      (if list_eq_dec Z.eq_dec [u8 b0; u8 b1; u8 b2] [0xEF; 0x40; 0x18]
       then winbond_flash_write_protect 0x30 s1
       else if list_eq_dec Z.eq_dec [u8 b0; u8 b1; u8 b2] [0x9D; 0x60; 0x18]
       then issi_flash_write_protect 0x18 s1
       else Ok s1) /\
    flash_write_unprotect_bootloader s =
      (if list_eq_dec Z.eq_dec [u8 b0; u8 b1; u8 b2] [0xEF; 0x40; 0x18]
       then winbond_flash_write_protect 0 s1
       else if list_eq_dec Z.eq_dec [u8 b0; u8 b1; u8 b2] [0x9D; 0x60; 0x18]
       then issi_flash_write_protect 0 s1
       else Ok s1).
Proof.
  intros Hrx H0 H1 H2.
  destruct (flash_manuf_id_answer b0 b1 b2 rest s Hrx H0 H1 H2)
    as (s1 & A & R & B).
  exists s1. split; [exact R|]. split; [exact B|].
  unfold flash_write_protect_bootloader, flash_write_unprotect_bootloader.
  rewrite A. cbn [bind]. cbv zeta. unfold le32. cbn [nth].
  pose proof (u8_bound b0). pose proof (u8_bound b1). pose proof (u8_bound b2).
  destruct (list_eq_dec Z.eq_dec [u8 b0; u8 b1; u8 b2] [0xEF; 0x40; 0x18])
    as [E|E].
  - inversion E as [[E0 E1 E2]]. rewrite E0, E1, E2. cbn.
    split.
    + destruct (winbond_flash_write_protect 48 s1); reflexivity.
    + destruct (winbond_flash_write_protect 0 s1); reflexivity.
  - assert (N1 : (u8 b0 + 256 * u8 b1 + 65536 * u8 b2 + 16777216 * 0
                  =? 0x1840EF) = false).
    { apply Z.eqb_neq. intros Hc. apply E.
      assert (u8 b0 = 0xEF /\ u8 b1 = 0x40 /\ u8 b2 = 0x18) as (-> & -> & ->)
        by lia. reflexivity. }
    rewrite N1. cbn [bind].
    destruct (list_eq_dec Z.eq_dec [u8 b0; u8 b1; u8 b2] [0x9D; 0x60; 0x18])
      as [F|F].
    + inversion F as [[F0 F1 F2]]. rewrite F0, F1, F2. cbn. auto.
    + assert (N2 : (u8 b0 + 256 * u8 b1 + 65536 * u8 b2 + 16777216 * 0
                    =? 0x18609D) = false).
      { apply Z.eqb_neq. intros Hc. apply F.
        assert (u8 b0 = 0x9D /\ u8 b1 = 0x60 /\ u8 b2 = 0x18) as (-> & -> & ->)
          by lia. reflexivity. }
      rewrite N2. auto.
Qed.

Lemma flash_write_protect_by_id_witness :
  exists s1,
    rx s1 = [] /\
    bus s1 = transfer SPI_CS_FLASH [FLASH_CMD_READ_MANUF_ID] 3 ++ [] /\
    flash_write_protect_bootloader (mkSpi 0xff02c0 [0xC2; 0x20; 0x18] []) =
      (if list_eq_dec Z.eq_dec [u8 0xC2; u8 0x20; u8 0x18] [0xEF; 0x40; 0x18]
       then winbond_flash_write_protect 0x30 s1
       else if list_eq_dec Z.eq_dec [u8 0xC2; u8 0x20; u8 0x18] [0x9D; 0x60; 0x18]
       then issi_flash_write_protect 0x18 s1
       else Ok s1) /\
    flash_write_unprotect_bootloader (mkSpi 0xff02c0 [0xC2; 0x20; 0x18] []) =
      (if list_eq_dec Z.eq_dec [u8 0xC2; u8 0x20; u8 0x18] [0xEF; 0x40; 0x18]
       then winbond_flash_write_protect 0 s1
       else if list_eq_dec Z.eq_dec [u8 0xC2; u8 0x20; u8 0x18] [0x9D; 0x60; 0x18]
       then issi_flash_write_protect 0 s1
       else Ok s1).
Proof.
  apply (flash_write_protect_by_id 0xC2 0x20 0x18 []
           (mkSpi 0xff02c0 [0xC2; 0x20; 0x18] [])); reflexivity.
Defined.

(** ** Program and erase commands *)

Lemma flash_page_program_sends src addr n s :
  (n <= length src)%nat ->
  flash_page_program src addr n s =
    Ok (mkSpi (csr (cs_high SPI_CS_FLASH (cs_low SPI_CS_FLASH s))) (rx s)
          (transfer SPI_CS_FLASH
             (cmd_addr FLASH_CMD_PAGE_PROGRAM addr ++ firstn n src) 0
             ++ bus s)).
Proof.
  intros Hn. unfold flash_page_program.
  rewrite spi_xfer_send; [|reflexivity|repeat constructor; simpl; lia].
  cbn [bind map concat sent write len data firstn cmd_addr app].
  rewrite app_nil_r. reflexivity.
Qed.

Lemma flash_erase_sends cmd addr s :
  _flash_erase cmd addr s =
    Ok (mkSpi (csr (cs_high SPI_CS_FLASH (cs_low SPI_CS_FLASH s))) (rx s)
          (transfer SPI_CS_FLASH (cmd_addr cmd addr) 0 ++ bus s)).
Proof.
  unfold _flash_erase.
  rewrite spi_xfer_send; [|reflexivity|repeat constructor; simpl; lia].
  reflexivity.
Qed.

Lemma cmd_addr_mod cmd addr :
  cmd_addr cmd (addr mod 2 ^ 24) = cmd_addr cmd addr.
Proof.
  assert (Hb : forall x, Z.land x 0xff = x mod 256).
  { intros x. change 0xff with (Z.ones 8). rewrite Z.land_ones by lia.
    reflexivity. }
  unfold cmd_addr. rewrite !Hb, !Z.shiftr_div_pow2 by lia.
  change (2 ^ 16) with 65536. change (2 ^ 8) with 256.
  change (2 ^ 24) with 16777216.
  repeat (first [solve [Z.div_mod_to_equations; lia] | f_equal]).
Qed.

(** X13.  The erase commands send their opcode (0x20 for a sector, 0x52 for 32
    KiB, 0xd8 for 64 KiB) and three address bytes in one frame, take no answer
    and always return; none of them sends write-enable or waits for the
    flash.  The address is cut to 24 bits: an erase at [addr] is the same
    command as one at [addr mod 2^24]. *)
Theorem flash_erase_commands addr s :
  flash_sector_erase addr s = command_frame (cmd_addr 0x20 addr) s /\
  flash_block_erase_32k addr s = command_frame (cmd_addr 0x52 addr) s /\
  flash_block_erase_64k addr s = command_frame (cmd_addr 0xd8 addr) s /\
  forall cmd, _flash_erase cmd addr s = _flash_erase cmd (addr mod 2 ^ 24) s.
Proof.
  unfold flash_sector_erase, flash_block_erase_32k, flash_block_erase_64k.
  rewrite !flash_erase_sends. repeat apply conj; try reflexivity.
  intros cmd. rewrite !flash_erase_sends, cmd_addr_mod. reflexivity.
Qed.

Lemma flash_cmd_frame cmd s : flash_cmd cmd s = command_frame [cmd] s.
Proof.
  unfold flash_cmd.
  rewrite spi_xfer_send; [|reflexivity|repeat constructor; simpl; lia].
  reflexivity.
Qed.

(** X14.  The commands of one byte send their opcode in a frame of its own,
    take no answer of the controller and always return: write enable 0x06,
    volatile write enable 0x50, write disable 0x04, deep power down 0xb9, wake
    up 0xab.  [spi_init] sets the control register to 0xff02c0 and wakes the
    flash up; the register has that value again when it returns. *)
Theorem flash_opcode_commands s :
  flash_write_enable s = command_frame [0x06] s /\
  flash_write_enable_volatile s = command_frame [0x50] s /\
  flash_write_disable s = command_frame [0x04] s /\
  flash_deep_power_down s = command_frame [0xb9] s /\
  flash_wake_up s = command_frame [0xab] s /\
  spi_init s =
    Ok (mkSpi 0xff02c0 (rx s) (transfer SPI_CS_FLASH [0xab] 0 ++ bus s)).
Proof.
  unfold flash_write_enable, flash_write_enable_volatile, flash_write_disable,
    flash_deep_power_down, spi_init, flash_wake_up.
  rewrite !flash_cmd_frame. repeat apply conj; reflexivity.
Qed.

(** X15.  The two identification reads, with the answers there: the
    manufacturer id sends 0x9f and reads three bytes; the unique id sends 0x4b
    and four bytes 0x00 for its chunk with the null pointer, through which
    nothing is loaded or stored, and reads eight bytes.  The bytes read are
    the low bytes of the first answers with bit 31 clear; the object read into
    keeps its bytes beyond them. *)
Theorem flash_ids_read obj s :
  ((3 <= length obj)%nat -> (3 <= length (ready (rx s)))%nat ->
   exists s',
     flash_manuf_id obj s =
       Ok (map u8 (firstn 3 (ready (rx s))) ++ skipn 3 obj, s') /\
     ready (rx s') = skipn 3 (ready (rx s)) /\
     bus s' = transfer SPI_CS_FLASH [0x9f] 3 ++ bus s) /\
  ((8 <= length obj)%nat -> (8 <= length (ready (rx s)))%nat ->
   exists s',
     flash_unique_id obj s =
       Ok (map u8 (firstn 8 (ready (rx s))) ++ skipn 8 obj, s') /\
     ready (rx s') = skipn 8 (ready (rx s)) /\
     bus s' = transfer SPI_CS_FLASH [0x4b; 0; 0; 0; 0] 8 ++ bus s).
Proof.
  split; intros Hd Ha.
  - destruct (send_then_read SPI_CS_FLASH
                [mkChunk [FLASH_CMD_READ_MANUF_ID] 1 false true] obj 3 s)
      as (rest & Hx & Hr); [repeat constructor; simpl; lia|exact Hd|exact Ha|].
    cbn [app length] in Hx. unfold flash_manuf_id. rewrite Hx.
    cbn [bind nth data]. eexists. split; [reflexivity|].
    split; [exact Hr|reflexivity].
  - destruct (send_then_read SPI_CS_FLASH
                [mkChunk [FLASH_CMD_READ_UNIQUE_ID] 1 false true;
                 mkChunk [] 4 false false] obj 8 s)
      as (rest & Hx & Hr);
      [repeat constructor; simpl; try lia; discriminate|exact Hd|exact Ha|].
    cbn [app length] in Hx. unfold flash_unique_id. rewrite Hx.
    cbn [bind nth data]. eexists. split; [reflexivity|].
    split; [exact Hr|reflexivity].
Qed.

Lemma flash_ids_read_witness :
  exists s',
    flash_unique_id [0; 0; 0; 0; 0; 0; 0; 0; 0xEE]
      (mkSpi 0xff02c0 [1; 2; 3; 4; 0x80000000; 5; 6; 7; 8; 9] []) =
      Ok ([1; 2; 3; 4; 5; 6; 7; 8; 0xEE], s') /\
    ready (rx s') = [9] /\
    bus s' = transfer SPI_CS_FLASH [0x4b; 0; 0; 0; 0] 8 ++ [].
Proof.
  apply (proj2 (flash_ids_read [0; 0; 0; 0; 0; 0; 0; 0; 0xEE]
                  (mkSpi 0xff02c0 [1; 2; 3; 4; 0x80000000; 5; 6; 7; 8; 9] []))).
  - simpl. lia.
  - simpl. lia.
Defined.

End DriverFacts.

(** * The DFU machine: the writer, the host's cursors, the handlers *)

Module MachineFacts.
Import Dfu.
Import SpiFacts.
Import DfuFacts.
Import DriverFacts.

#[local] Arguments Z.testbit : simpl never.
#[local] Arguments Z.land : simpl never.
#[local] Arguments Z.lor : simpl never.
#[local] Arguments Z.lxor : simpl never.
#[local] Arguments Z.shiftl : simpl never.
#[local] Arguments Z.shiftr : simpl never.
#[local] Arguments Z.modulo : simpl never.
#[local] Arguments Z.pow : simpl never.
#[local] Arguments Z.eqb : simpl never.
#[local] Arguments Z.ltb : simpl never.
#[local] Arguments Z.leb : simpl never.
#[local] Arguments Z.add : simpl never.
#[local] Arguments Z.sub : simpl never.
#[local] Arguments Z.mul : simpl never.
#[local] Arguments u8 : simpl never.
#[local] Arguments u32 : simpl never.
#[local] Arguments s32 : simpl never.
#[local] Arguments Spi.flash_read_sr : simpl never.
#[local] Arguments Spi.flash_verify : simpl never.
#[local] Arguments Spi.flash_write_enable : simpl never.
#[local] Arguments Spi.flash_sector_erase : simpl never.
#[local] Arguments Spi.flash_page_program : simpl never.
#[local] Arguments Spi.flash_read : simpl never.
#[local] Arguments buf_at : simpl never.
#[local] Arguments Z.to_nat : simpl never.

(** Reduces the fields of a program state written with the setters. *)
Ltac fields :=
  cbn [state status intf alt tick used wr rd data addr_recv addr_read
       addr_prog addr_erase addr_end selected op_ofs op_len op prog_retry
       should spi_regs flashchip reboots
       set_state set_status set_intf set_alt set_used set_wr set_rd set_data
       set_addr_recv set_addr_read set_addr_prog set_addr_erase set_addr_end
       set_selected set_op_ofs set_op_len set_op set_prog_retry set_should
       set_spi_regs set_flashchip set_reboots
       flashchip_select usb_dfu_cb_reboot tick_fatal
       Spi.csr Spi.rx Spi.bus].


(** ** The writer's bookkeeping *)

Lemma land_ff z : Z.land z 0xff = z mod 256.
Proof. change 0xff with (Z.ones 8). rewrite Z.land_ones by lia. reflexivity. Qed.

Lemma u32_small z : 0 <= z < 2 ^ 32 -> u32 z = z.
Proof. intros H. unfold u32. apply Z.mod_small. exact H. Qed.

Lemma s32_small z : 0 <= z < 2 ^ 31 -> s32 z = z.
Proof.
  intros H. unfold s32. rewrite u32_small by lia.
  destruct (z <? 2 ^ 31) eqn:E; [reflexivity|].
  apply Z.ltb_ge in E. lia.
Qed.

(** In a writer that keeps its books, a page is 256 bytes at a page
    boundary. *)
Lemma page_len_aligned w :
  writer_wf w -> op w <> FL_IDLE -> op_ofs w <> op_len w ->
  page_len w = 256 /\ (addr_prog w + op_ofs w) mod 256 = 0 /\
  op_ofs w + 256 <= 4096.
Proof.
  unfold writer_wf. intros (Ha & Hb & _ & Ho & Hm & _ & Hl & _) Hop Hne.
  specialize (Hl Hop).
  assert (Hp : (addr_prog w + op_ofs w) mod 256 = 0).
  { change (2 ^ 32) with 4294967296 in *. Z.div_mod_to_equations. lia. }
  assert (Hq : op_ofs w + 256 <= 4096) by (Z.div_mod_to_equations; lia).
  assert (Hs : 0 <= addr_prog w + op_ofs w < 4294967296)
    by (change (2 ^ 32) with 4294967296 in *; Z.div_mod_to_equations; lia).
  split; [|auto].
  unfold page_len. cbv zeta. rewrite land_ff.
  rewrite (u32_small (addr_prog w + op_ofs w)) by exact Hs.
  rewrite Hp. change (u32 (256 - 0)) with 256.
  rewrite u32_small by (change (2 ^ 32) with 4294967296; lia).
  destruct (256 <? op_len w - op_ofs w) eqn:E; [reflexivity|].
  apply Z.ltb_ge in E. lia.
Qed.
Ltac wf_same H :=
  unfold writer_wf in *; simpl; exact H.

Lemma writer_wf_gate w go w1 :
  writer_wf w -> tick_gate w = Ok (go, w1) ->
  writer_wf w1 /\ (go = true -> op w1 <> FL_IDLE) /\
  prog_retry w1 = prog_retry w.
Proof.
  intros Hwf H. unfold tick_gate in H.
  destruct (op w) eqn:Ho.
  - destruct (used w =? 0); inv H.
    + split; [exact Hwf|]. split; [discriminate|reflexivity].
    + split; [|split; [discriminate|reflexivity]].
      unfold writer_wf in *. simpl.
      destruct Hwf as (A & B & C & _). repeat apply conj; auto; lia.
  - repeat tick_step; (split; [wf_same Hwf|]); simpl; rewrite Ho;
      split; auto; discriminate.
  - repeat tick_step; (split; [wf_same Hwf|]); simpl; rewrite Ho;
      split; auto; discriminate.
Qed.

Lemma writer_wf_erase w w1 :
  writer_wf w -> op w = FL_ERASE -> prog_retry w <> 0 ->
  tick_erase w = Ok w1 ->
  writer_wf w1 /\ (op w1 = FL_ERASE \/ op w1 = FL_PROGRAM /\ op_ofs w1 = 0).
Proof.
  intros Hwf Ho Hr H. unfold tick_erase in H.
  pose proof Hwf as Hwf0.
  destruct Hwf as (A & B & C & D & E & F & G & I).
  specialize (G ltac:(congruence)). specialize (I Ho).
  repeat tick_step.
  - split; [|right; simpl; auto].
    unfold writer_wf. simpl. repeat apply conj; auto; try lia; discriminate.
  - unfold retry_dec. cbn [prog_retry set_should set_spi_regs].
    apply Z.eqb_neq in Hr. rewrite Hr. simpl.
    apply Z.eqb_neq in Hr.
    split; [|left; exact Ho].
    unfold writer_wf. simpl. repeat apply conj; auto; lia.
Qed.

Lemma u32_mod_4096 z : u32 z mod 4096 = z mod 4096.
Proof.
  unfold u32. change (2 ^ 32) with 4294967296.
  Z.div_mod_to_equations. lia.
Qed.

Lemma u32_range z : 0 <= u32 z < 2 ^ 32.
Proof. unfold u32. apply Z.mod_pos_bound. lia. Qed.

Lemma writer_wf_program w w1 :
  writer_wf w -> op w = FL_PROGRAM -> tick_program w = Ok w1 ->
  writer_wf w1.
Proof.
  intros Hwf Ho H. unfold tick_program in H.
  pose proof Hwf as Hwf0.
  destruct Hwf as (A & B & C & D & E & F & G & I).
  specialize (G ltac:(congruence)).
  destruct (Z.land (should w) 2 =? 0).
  { inv H. unfold writer_wf. simpl. unfold PROG_RETRY in *.
    pose proof (u32_range (addr_prog w + op_len w)).
    assert (Hm : u32 (addr_prog w + op_len w) mod 4096 = 0)
      by (rewrite u32_mod_4096, G; Z.div_mod_to_equations; lia).
    repeat apply conj; auto; try lia; try congruence. }
  destruct (op_ofs w =? op_len w) eqn:Eq.
  { inv H. unfold writer_wf, retry_dec.
    destruct (prog_retry w =? 0) eqn:Er; simpl;
      repeat apply conj; auto; try lia; try congruence. }
  apply Z.eqb_neq in Eq.
  destruct (page_len_aligned w Hwf0 ltac:(congruence) Eq) as (Hl & Hp & Hq).
  rewrite Hl in H. repeat tick_step.
  unfold writer_wf. simpl. rewrite s32_small by (change (2 ^ 31) with 2147483648; lia).
  assert (Hm : (op_ofs w + 256) mod 256 = 0) by (Z.div_mod_to_equations; lia).
  repeat apply conj; auto; try lia; try congruence.
Qed.

Lemma writer_wf_tick w w' : writer_wf w -> _dfu_tick w = Ok w' -> writer_wf w'.
Proof.
  intros Hwf H. unfold _dfu_tick in H.
  apply bind_ok in H as ([go w1] & G & H).
  apply writer_wf_gate in G as (Hwf1 & Hgo & _); [|exact Hwf].
  destruct go; [|inv H; exact Hwf1].
  specialize (Hgo eq_refl).
  unfold tick_work, flashchip_select in H. cbv zeta in H.
  change (prog_retry (set_flashchip (selected w1) w1)) with (prog_retry w1) in H.
  change (op (set_flashchip (selected w1) w1)) with (op w1) in H.
  assert (Hwf2 : writer_wf (set_flashchip (selected w1) w1)) by (wf_same Hwf1).
  destruct (prog_retry w1 =? 0) eqn:Er.
  { inv H. unfold writer_wf in *. unfold tick_fatal, usb_dfu_cb_reboot. simpl.
    destruct Hwf1 as (A & B & C & D & E & F & G & I).
    repeat apply conj; auto; try lia; intros X; congruence. }
  apply Z.eqb_neq in Er.
  apply bind_ok in H as (w2 & E & H).
  destruct (op w1) eqn:Ho; [congruence| |].
  - apply writer_wf_erase in E as (Hwf3 & Hop);
      [|exact Hwf2|simpl; exact Ho|simpl; exact Er].
    destruct Hop as [Hop | (Hop & _)]; rewrite Hop in H.
    + inv H. exact Hwf3.
    + exact (writer_wf_program w2 w' Hwf3 Hop H).
  - inv E. simpl in H. rewrite Ho in H.
    apply (writer_wf_program _ w' Hwf2); [simpl; exact Ho|exact H].
Qed.
Lemma writer_wf_same w w' :
  addr_prog w' = addr_prog w -> prog_retry w' = prog_retry w ->
  op_ofs w' = op_ofs w -> op_len w' = op_len w -> op w' = op w ->
  writer_wf w -> writer_wf w'.
Proof. unfold writer_wf. intros -> -> -> -> ->. auto. Qed.

Lemma zones_aligned :
  Forall (fun z => start z mod 4096 = 0 /\ 0 <= start z < 2 ^ 32) dfu_zones.
Proof. repeat constructor; simpl; try reflexivity; lia. Qed.

Lemma set_intf_writer base sel w resp w' :
  _dfu_set_intf base sel w = Ok (resp, w') ->
  writer_wf w -> writer_wf w'.
Proof.
  unfold _dfu_set_intf. intros H Hwf.
  destruct (negb (is_dfu_intf sel)); [out H; exact Hwf|].
  cbv zeta in H.
  apply bind_ok in H as (v1 & E1 & H). apply bind_ok in H as (v2 & E2 & H).
  apply bind_ok in H as (v3 & E3 & H). apply bind_ok in H as (v4 & E4 & H).
  apply bind_ok in H as (v5 & E5 & H). apply bind_ok in H as (v6 & E6 & H).
  out H. simpl in *.
  unfold zone_field in E3.
  destruct (bAlternateSetting sel <? 0); [discriminate|].
  destruct (nth_error dfu_zones (Z.to_nat (bAlternateSetting sel))) as [z|] eqn:E;
    [|discriminate].
  inv E3. apply nth_error_In in E.
  pose proof (proj1 (Forall_forall _ _) zones_aligned z E) as (Hz1 & Hz2).
  unfold writer_wf in *. simpl.
  destruct Hwf as (_ & _ & Hwf). auto.
Qed.

Lemma writer_wf_reach vendor w : reach vendor any_event w -> writer_wf w.
Proof.
  apply (reach_inv vendor any_event writer_wf).
  - intros s. unfold writer_wf, boot, usb_dfu_init. simpl. unfold PROG_RETRY.
    repeat apply conj; try reflexivity; try lia; auto; intros X; congruence.
  - intros ev w0 w' Hwf _ H.
    destruct ev; simpl in H.
    + out H. destruct configured; [|exact Hwf].
      eapply writer_wf_same; [| | | | |exact Hwf]; reflexivity.
    + out H. unfold _dfu_bus_reset. destruct (state w0); try exact Hwf;
        (eapply writer_wf_same; [| | | | |exact Hwf]; reflexivity).
    + apply bind_ok in H as ([r wx] & E & H). out H.
      eapply set_intf_writer; eauto.
    + apply bind_ok in H as ([[r x] wx] & E & H). out H.
      apply ctrl_req_spec in E. destruct E as (w1 & P & S).
      assert (I1 : writer_wf w1).
      { unfold proto_step in P.
        destruct P as (_ & _ & _ & _ & _ & _ & _ & Pp & _ & _ & _ & Po & Pl
                       & Pop & Pr & _).
        eapply writer_wf_same; [| | | | |exact Hwf]; assumption. }
      assert (Hs : forall a b, same_machine a b -> writer_wf a -> writer_wf b).
      { intros a b Sm. unfold same_machine in Sm.
        destruct Sm as (_ & _ & _ & _ & _ & _ & _ & _ & Sp & _ & _ & _ & So
                        & Sl & Sop & Sr & _).
        eapply writer_wf_same; eauto. }
      destruct S as [S | (_ & _ & w2 & Pm & S)].
      * eapply Hs; eauto.
      * eapply Hs; eauto. eapply (pumped_inv _ writer_wf_tick); eauto.
    + out H. eapply writer_wf_same; [| | | | |exact Hwf]; reflexivity.
    + out H. eapply writer_wf_same; [| | | | |exact Hwf]; reflexivity.
    + out H. eapply writer_wf_same; [| | | | |exact Hwf]; reflexivity.
    + eapply writer_wf_tick; eauto.
    + out H. eapply writer_wf_same; [| | | | |exact Hwf]; reflexivity.
Qed.



(** ** The first tick on a committed block *)

Lemma buf_at_slot w :
  (rd w = 0 \/ rd w = 1) -> length (data w) = Z.to_nat 8192 ->
  buf_at w (rd w) 0 = Ok (skipn (Z.to_nat (rd w * 4096)) (data w)) /\
  (Z.to_nat 4096 <= length (skipn (Z.to_nat (rd w * 4096)) (data w)))%nat.
Proof.
  intros Hr Hl. unfold buf_at. cbv zeta.
  rewrite Z.add_0_r.
  assert (Hc : (0 <=? rd w * 4096) && (rd w * 4096 <=? 8192) = true)
    by (apply andb_true_iff; rewrite !Z.leb_le; lia).
  rewrite Hc. split; [reflexivity|].
  rewrite length_skipn, Hl. destruct Hr as [-> | ->]; vm_compute; lia.
Qed.

(** The state in which the writer begins a block. *)
Lemma tick_begins_block w :
  op w = FL_IDLE -> used w <> 0 -> prog_retry w <> 0 ->
  _dfu_tick w =
    (w2 <- tick_erase
             (flashchip_select (selected w)
                (set_op_ofs 0 (set_op_len 4096 (set_op FL_ERASE w)))) ;;
     match op w2 with
     | FL_PROGRAM => tick_program w2
     | _ => Ok w2
     end).
Proof.
  intros Ho Hu Hr. unfold _dfu_tick, tick_gate. rewrite Ho.
  apply Z.eqb_neq in Hu. rewrite Hu. cbn [bind].
  unfold tick_work. cbv zeta.
  change (prog_retry (flashchip_select _ _)) with (prog_retry w).
  apply Z.eqb_neq in Hr. rewrite Hr.
  reflexivity.
Qed.

(** X17.  The first tick on a committed block that the flash already holds:
    one verify read of 4096 bytes at [addr_prog], and the block is done:
    [addr_prog] moves on by 4096, the slot is released, the retry counter is
    set back to [PROG_RETRY], and nothing is erased or programmed. *)
Theorem tick_skips_block_in_flash w :
  op w = FL_IDLE -> used w <> 0 -> prog_retry w <> 0 ->
  (rd w = 0 \/ rd w = 1) -> length (data w) = Z.to_nat 8192 ->
  (Z.to_nat 4096 <= length (Spi.ready (Spi.rx (spi_regs w))))%nat ->
  map u8 (firstn (Z.to_nat 4096) (Spi.ready (Spi.rx (spi_regs w)))) = slot w ->
  exists w',
    _dfu_tick w = Ok w' /\
    op w' = FL_IDLE /\ addr_prog w' = u32 (addr_prog w + 4096) /\
    used w' = u8 (used w - 1) /\ rd w' = Z.lxor (rd w) 1 /\
    prog_retry w' = PROG_RETRY /\ data w' = data w /\
    Spi.bus (spi_regs w') =
      Spi.transfer Spi.SPI_CS_FLASH
        (Spi.cmd_addr Spi.FLASH_CMD_READ_DATA (addr_prog w)) (Z.to_nat 4096)
        ++ Spi.bus (spi_regs w).
Proof.
  intros Ho Hu Hr Hrd Hl Ha Hs.
  rewrite (tick_begins_block w Ho Hu Hr).
  destruct (buf_at_slot w Hrd Hl) as (Hb & Hlen).
  destruct (flash_verify_spec (skipn (Z.to_nat (rd w * 4096)) (data w))
              (addr_prog w) (Z.to_nat 4096) (spi_regs w) Hlen Ha)
    as (r & s' & V & Bus & _ & _ & Hz & _).
  assert (Er : r = 0) by (apply Hz; symmetry; exact Hs).
  subst r.
  unfold tick_erase.
  change (buf_at (flashchip_select _ _) _ _) with (buf_at w (rd w) 0).
  rewrite Hb. cbn [bind].
  change (addr_prog (flashchip_select _ _)) with (addr_prog w).
  change (spi_regs (flashchip_select _ _)) with (spi_regs w).
  rewrite V. cbn [bind]. cbv zeta.
  cbn [should set_should].
  change (Z.land 0 1 =? 0) with true. cbv iota. cbn [bind].
  cbn [op set_op]. unfold tick_program.
  cbn [should set_should set_op set_addr_erase].
  change (Z.land 0 2 =? 0) with true. cbv iota.
  eexists. split; [reflexivity|].
  unfold flashchip_select. simpl. rewrite Bus.
  repeat apply conj; reflexivity.
Qed.

Lemma tick_skips_block_in_flash_witness :
  exists w',
    _dfu_tick manifest_pending = Ok w' /\
    op w' = FL_IDLE /\ addr_prog w' = u32 (addr_prog manifest_pending + 4096) /\
    used w' = u8 (used manifest_pending - 1) /\
    rd w' = Z.lxor (rd manifest_pending) 1 /\
    prog_retry w' = PROG_RETRY /\ data w' = data manifest_pending /\
    Spi.bus (spi_regs w') =
      Spi.transfer Spi.SPI_CS_FLASH
        (Spi.cmd_addr Spi.FLASH_CMD_READ_DATA (addr_prog manifest_pending))
        (Z.to_nat 4096)
        ++ Spi.bus (spi_regs manifest_pending).
Proof.
  apply (tick_skips_block_in_flash manifest_pending).
  - vm_compute. reflexivity.
  - vm_compute. discriminate.
  - vm_compute. discriminate.
  - left. vm_compute. reflexivity.
  - vm_compute. reflexivity.
  - apply Nat.leb_le. vm_compute. reflexivity.
  - vm_compute. reflexivity.
Defined.
Lemma bit0_land r : Z.testbit r 0 = true -> (Z.land r 1 =? 0) = false.
Proof.
  intros H. apply Z.eqb_neq. intros E.
  assert (Hb : Z.testbit (Z.land r 1) 0 = true).
  { rewrite Z.land_spec, H. reflexivity. }
  rewrite E in Hb. discriminate Hb.
Qed.

Lemma bit0_clear r : Z.testbit r 0 = false -> (Z.land r 1 =? 0) = true.
Proof.
  intros H. apply Z.eqb_eq. apply Z.bits_inj'. intros n Hn.
  rewrite Z.land_spec, Z.bits_0.
  destruct (Z.eq_dec n 0) as [->|Hne].
  - rewrite H. reflexivity.
  - change 1 with (Z.ones 1). rewrite Z.ones_spec_high by lia.
    apply andb_false_r.
Qed.

Lemma spi_step_ok f w s :
  f (spi_regs w) = Ok s -> spi_step f w = Ok (set_spi_regs s w).
Proof. intros H. unfold spi_step. rewrite H. reflexivity. Qed.

(** X18.  The first tick on a committed block for which the flash has a 0
    where the block has a 1: after the verify read the writer sends
    write-enable and a sector erase for [addr_prog], takes one from the retry
    counter and stays in ERASE with the slot kept. *)
Theorem tick_erases_sector w :
  op w = FL_IDLE -> used w <> 0 -> prog_retry w <> 0 ->
  (rd w = 0 \/ rd w = 1) -> length (data w) = Z.to_nat 8192 ->
  (Z.to_nat 4096 <= length (Spi.ready (Spi.rx (spi_regs w))))%nat ->
  Exists (fun ea => Z.land (fst ea) (snd ea) <> fst ea)
    (combine (slot w)
       (map u8 (firstn (Z.to_nat 4096) (Spi.ready (Spi.rx (spi_regs w)))))) ->
  exists w',
    _dfu_tick w = Ok w' /\
    op w' = FL_ERASE /\ prog_retry w' = prog_retry w - 1 /\
    addr_prog w' = addr_prog w /\ addr_erase w' = u32 (addr_prog w + 4096) /\
    used w' = used w /\ rd w' = rd w /\ data w' = data w /\
    op_ofs w' = 0 /\ op_len w' = 4096 /\
    Spi.bus (spi_regs w') =
      Spi.transfer Spi.SPI_CS_FLASH
        (Spi.cmd_addr Spi.FLASH_CMD_SECTOR_ERASE (addr_prog w)) 0
      ++ Spi.transfer Spi.SPI_CS_FLASH [Spi.FLASH_CMD_WRITE_ENABLE] 0
      ++ Spi.transfer Spi.SPI_CS_FLASH
           (Spi.cmd_addr Spi.FLASH_CMD_READ_DATA (addr_prog w)) (Z.to_nat 4096)
      ++ Spi.bus (spi_regs w).
Proof.
  intros Ho Hu Hr Hrd Hl Ha He.
  rewrite (tick_begins_block w Ho Hu Hr).
  destruct (buf_at_slot w Hrd Hl) as (Hb & Hlen).
  destruct (flash_verify_spec (skipn (Z.to_nat (rd w * 4096)) (data w))
              (addr_prog w) (Z.to_nat 4096) (spi_regs w) Hlen Ha)
    as (r & s' & V & Bus & _ & _ & _ & Hz).
  assert (Er : Z.testbit r 0 = true) by (apply Hz; exact He).
  apply bit0_land in Er.
  unfold tick_erase.
  change (buf_at (flashchip_select _ _) _ _) with (buf_at w (rd w) 0).
  rewrite Hb. cbn [bind].
  change (addr_prog (flashchip_select _ _)) with (addr_prog w).
  change (spi_regs (flashchip_select _ _)) with (spi_regs w).
  rewrite V. cbn [bind]. cbv zeta.
  cbn [should set_should]. rewrite Er.
  unfold retry_dec. cbn [prog_retry set_should set_spi_regs flashchip_select
                         set_flashchip set_op_ofs set_op_len set_op].
  apply Z.eqb_neq in Hr. rewrite Hr.
  rewrite (spi_step_ok _ _ _ (flash_cmd_trace Spi.FLASH_CMD_WRITE_ENABLE _)).
  cbn [bind].
  rewrite (spi_step_ok _ _ _ (flash_erase_sends Spi.FLASH_CMD_SECTOR_ERASE _ _)).
  cbn [bind].
  eexists. split; [reflexivity|].
  simpl. rewrite Bus.
  repeat apply conj; reflexivity.
Qed.

Lemma tick_erases_sector_witness :
  exists w',
    _dfu_tick block_for_zero_flash = Ok w' /\
    op w' = FL_ERASE /\ prog_retry w' = prog_retry block_for_zero_flash - 1 /\
    addr_prog w' = addr_prog block_for_zero_flash /\
    addr_erase w' = u32 (addr_prog block_for_zero_flash + 4096) /\
    used w' = used block_for_zero_flash /\ rd w' = rd block_for_zero_flash /\
    data w' = data block_for_zero_flash /\
    op_ofs w' = 0 /\ op_len w' = 4096 /\
    Spi.bus (spi_regs w') =
      Spi.transfer Spi.SPI_CS_FLASH
        (Spi.cmd_addr Spi.FLASH_CMD_SECTOR_ERASE
           (addr_prog block_for_zero_flash)) 0
      ++ Spi.transfer Spi.SPI_CS_FLASH [Spi.FLASH_CMD_WRITE_ENABLE] 0
      ++ Spi.transfer Spi.SPI_CS_FLASH
           (Spi.cmd_addr Spi.FLASH_CMD_READ_DATA
              (addr_prog block_for_zero_flash)) (Z.to_nat 4096)
      ++ Spi.bus (spi_regs block_for_zero_flash).
Proof.
  apply (tick_erases_sector block_for_zero_flash).
  - vm_compute. reflexivity.
  - vm_compute. discriminate.
  - vm_compute. discriminate.
  - left. vm_compute. reflexivity.
  - vm_compute. reflexivity.
  - apply Nat.leb_le. vm_compute. reflexivity.
  - apply erase_needed_exists. vm_compute. reflexivity.
Defined.
Lemma slot_page w (o : nat) :
  (o + 256 <= 4096)%nat ->
  firstn 256 (skipn (Z.to_nat (rd w * 4096) + o) (data w))
  = firstn 256 (skipn o (slot w)).
Proof.
  intros Ho. unfold slot. change (Z.to_nat 4096) with 4096%nat.
  rewrite skipn_firstn_comm, firstn_firstn, skipn_skipn.
  replace (Nat.min 256 (4096 - o)) with 256%nat by lia.
  f_equal. f_equal. lia.
Qed.

(** X19.  The first tick on a committed block that differs from what the flash
    holds only in bits the flash still has at 1: after the verify read the
    writer goes on to program in the same tick, and sends write-enable and the
    first page of 256 bytes. *)
Theorem tick_writes_first_page w :
  op w = FL_IDLE -> used w <> 0 -> prog_retry w <> 0 ->
  (rd w = 0 \/ rd w = 1) -> length (data w) = Z.to_nat 8192 ->
  addr_prog w mod 256 = 0 -> 0 <= addr_prog w < 2 ^ 32 ->
  (Z.to_nat 4096 <= length (Spi.ready (Spi.rx (spi_regs w))))%nat ->
  slot w <> map u8 (firstn (Z.to_nat 4096) (Spi.ready (Spi.rx (spi_regs w)))) ->
  ~ Exists (fun ea => Z.land (fst ea) (snd ea) <> fst ea)
      (combine (slot w)
         (map u8 (firstn (Z.to_nat 4096) (Spi.ready (Spi.rx (spi_regs w)))))) ->
  exists w',
    _dfu_tick w = Ok w' /\
    op w' = FL_PROGRAM /\ should w' = 2 /\
    op_ofs w' = 256 /\ op_len w' = 4096 /\
    prog_retry w' = prog_retry w /\ addr_prog w' = addr_prog w /\
    used w' = used w /\ rd w' = rd w /\ data w' = data w /\
    Spi.bus (spi_regs w') =
      Spi.transfer Spi.SPI_CS_FLASH
        (Spi.cmd_addr Spi.FLASH_CMD_PAGE_PROGRAM (addr_prog w)
           ++ firstn 256 (slot w)) 0
      ++ Spi.transfer Spi.SPI_CS_FLASH [Spi.FLASH_CMD_WRITE_ENABLE] 0
      ++ Spi.transfer Spi.SPI_CS_FLASH
           (Spi.cmd_addr Spi.FLASH_CMD_READ_DATA (addr_prog w)) (Z.to_nat 4096)
      ++ Spi.bus (spi_regs w).
Proof.
  intros Ho Hu Hr Hrd Hl Hal Hap Ha Hne Hno.
  rewrite (tick_begins_block w Ho Hu Hr).
  destruct (buf_at_slot w Hrd Hl) as (Hb & Hlen).
  destruct (flash_verify_spec (skipn (Z.to_nat (rd w * 4096)) (data w))
              (addr_prog w) (Z.to_nat 4096) (spi_regs w) Hlen Ha)
    as (r & s' & V & Bus & _ & Hrange & Hz & He).
  assert (Er : r = 2).
  { destruct Hrange as [-> | [-> | [-> | ->]]]; auto.
    - exfalso. apply Hne. apply Hz. reflexivity.
    - exfalso. apply Hno. apply He. reflexivity.
    - exfalso. apply Hno. apply He. reflexivity. }
  subst r.
  unfold tick_erase.
  change (buf_at (flashchip_select _ _) _ _) with (buf_at w (rd w) 0).
  rewrite Hb. cbn [bind].
  change (addr_prog (flashchip_select _ _)) with (addr_prog w).
  change (spi_regs (flashchip_select _ _)) with (spi_regs w).
  rewrite V. cbn [bind]. cbv zeta.
  cbn [should set_should].
  change (Z.land 2 1 =? 0) with true. cbv iota. cbn [bind].
  cbn [op set_op]. unfold tick_program.
  cbn [should set_should set_op set_addr_erase].
  change (Z.land 2 2 =? 0) with false. cbv iota. fields.
  change (0 =? 4096) with false. cbv iota zeta.
  assert (Hpl : forall x, addr_prog x = addr_prog w -> op_ofs x = 0 ->
                          op_len x = 4096 -> page_len x = 256).
  { intros x E1 E2 E3. unfold page_len. cbv zeta.
    rewrite E1, E2, E3, Z.add_0_r, land_ff.
    rewrite (u32_small (addr_prog w)) by exact Hap.
    rewrite Hal. reflexivity. }
  rewrite Hpl by reflexivity.
  rewrite (spi_step_ok _ _ _ (flash_cmd_trace Spi.FLASH_CMD_WRITE_ENABLE _)).
  cbn [bind]. fields.
  match goal with
  | |- context [buf_at ?x ?y ?z] =>
      change (buf_at x y z) with (buf_at w (rd w) 0)
  end.
  rewrite Hb. cbn [bind].
  assert (Hn : (Z.to_nat 256
                <= length (skipn (Z.to_nat (rd w * 4096)) (data w)))%nat) by lia.
  rewrite (spi_step_ok _ _ _ (flash_page_program_sends _ _ _ _ Hn)).
  cbn [bind].
  eexists. split; [reflexivity|]. fields.
  rewrite Z.add_0_r, u32_small by exact Hap.
  repeat apply conj; try reflexivity.
  rewrite Bus. change (Z.to_nat 256) with 256%nat.
  pose proof (slot_page w 0 ltac:(lia)) as Hsp.
  rewrite Nat.add_0_r in Hsp. cbn [skipn] in Hsp. rewrite Hsp.
  rewrite <- ?app_assoc. reflexivity.
Qed.

Lemma tick_writes_first_page_witness :
  exists w',
    _dfu_tick block_for_erased_flash = Ok w' /\
    op w' = FL_PROGRAM /\ should w' = 2 /\
    op_ofs w' = 256 /\ op_len w' = 4096 /\
    prog_retry w' = prog_retry block_for_erased_flash /\
    addr_prog w' = addr_prog block_for_erased_flash /\
    used w' = used block_for_erased_flash /\
    rd w' = rd block_for_erased_flash /\
    data w' = data block_for_erased_flash /\
    Spi.bus (spi_regs w') =
      Spi.transfer Spi.SPI_CS_FLASH
        (Spi.cmd_addr Spi.FLASH_CMD_PAGE_PROGRAM
           (addr_prog block_for_erased_flash)
           ++ firstn 256 (slot block_for_erased_flash)) 0
      ++ Spi.transfer Spi.SPI_CS_FLASH [Spi.FLASH_CMD_WRITE_ENABLE] 0
      ++ Spi.transfer Spi.SPI_CS_FLASH
           (Spi.cmd_addr Spi.FLASH_CMD_READ_DATA
              (addr_prog block_for_erased_flash)) (Z.to_nat 4096)
      ++ Spi.bus (spi_regs block_for_erased_flash).
Proof.
  apply (tick_writes_first_page block_for_erased_flash).
  - vm_compute. reflexivity.
  - vm_compute. discriminate.
  - vm_compute. discriminate.
  - left. vm_compute. reflexivity.
  - vm_compute. reflexivity.
  - vm_compute. reflexivity.
  - vm_compute. split; [discriminate|reflexivity].
  - apply Nat.leb_le. vm_compute. reflexivity.
  - intros H. apply (f_equal (fun l => nth 0 l 0)) in H. vm_compute in H.
    discriminate H.
  - intros H. apply erase_needed_exists in H. vm_compute in H. discriminate H.
Defined.

(** ** Programming a block *)

(** One tick of a writer that programs: the status read finds the flash
    ready, and the next page goes out. *)
Lemma tick_programs_page w sr rest (j : nat) :
  op w = FL_PROGRAM -> prog_retry w <> 0 -> Z.land (should w) 2 <> 0 ->
  writer_wf w -> (rd w = 0 \/ rd w = 1) -> length (data w) = Z.to_nat 8192 ->
  op_ofs w = 256 * Z.of_nat j -> (j < 16)%nat ->
  Spi.rx (spi_regs w) = sr :: rest ->
  Z.testbit sr 31 = false -> Z.land (u8 sr) 1 = 0 ->
  exists w',
    _dfu_tick w = Ok w' /\
    op w' = FL_PROGRAM /\ op_ofs w' = 256 * Z.of_nat (S j) /\
    Spi.rx (spi_regs w') = rest /\
    Spi.bus (spi_regs w') =
      page_tick (addr_prog w) (slot w) j ++ Spi.bus (spi_regs w) /\
    used w' = used w /\ rd w' = rd w /\ addr_prog w' = addr_prog w /\
    data w' = data w /\ prog_retry w' = prog_retry w /\
    should w' = should w.
Proof.
  intros Ho Hr Hs Hwf Hrd Hl Hofs Hj Hrx Hb Hz.
  pose proof Hwf as (_ & Hap & _ & _ & _ & _ & Hlen & _).
  specialize (Hlen ltac:(congruence)).
  assert (Hne : op_ofs w <> op_len w) by lia.
  destruct (page_len_aligned w Hwf ltac:(congruence) Hne) as (Hpl & _ & Hq).
  destruct (flash_read_reg_answer Spi.FLASH_CMD_READ_SR1 (spi_regs w) sr rest
              Hrx Hb) as (s1 & A1 & R1 & B1).
  change (Spi.flash_read_reg Spi.FLASH_CMD_READ_SR1 (spi_regs w))
    with (Spi.flash_read_sr (spi_regs w)) in A1.
  unfold _dfu_tick, tick_gate. rewrite Ho, A1. cbn [bind]. cbv zeta.
  rewrite Hz. change (0 =? 0) with true. cbv iota. cbn [bind]. cbv beta iota.
  unfold tick_work. cbv zeta.
  change (prog_retry (flashchip_select _ _)) with (prog_retry w).
  apply Z.eqb_neq in Hr. rewrite Hr.
  change (op (flashchip_select _ _)) with (op w). rewrite Ho. cbn [bind].
  change (op (flashchip_select _ _)) with (op w). rewrite Ho.
  unfold tick_program.
  change (should (flashchip_select _ _)) with (should w).
  apply Z.eqb_neq in Hs. rewrite Hs.
  change (op_ofs (flashchip_select _ _)) with (op_ofs w).
  change (op_len (flashchip_select _ _)) with (op_len w).
  apply Z.eqb_neq in Hne. rewrite Hne. cbv zeta.
  change (page_len (flashchip_select _ _)) with (page_len w). rewrite Hpl.
  rewrite (spi_step_ok _ _ _ (flash_cmd_trace Spi.FLASH_CMD_WRITE_ENABLE _)).
  cbn [bind].
  assert (Hbuf : buf_at w (rd w) (op_ofs w)
                 = Ok (skipn (Z.to_nat (rd w * 4096) + 256 * j) (data w))).
  { unfold buf_at. cbv zeta.
    assert (Hc : (0 <=? rd w * 4096 + op_ofs w)
                 && (rd w * 4096 + op_ofs w <=? 8192) = true)
      by (apply andb_true_iff; rewrite !Z.leb_le; lia).
    rewrite Hc. f_equal. f_equal. lia. }
  match goal with
  | |- context [buf_at ?x ?y ?z] =>
      change (buf_at x y z) with (buf_at w (rd w) (op_ofs w))
  end.
  rewrite Hbuf. cbn [bind].
  assert (Hn : (Z.to_nat 256
                <= length (skipn (Z.to_nat (rd w * 4096) + 256 * j) (data w)))%nat).
  { rewrite length_skipn, Hl. destruct Hrd as [-> | ->]; lia. }
  rewrite (spi_step_ok _ _ _ (flash_page_program_sends _ _ _ _ Hn)).
  cbn [bind].
  eexists. split; [reflexivity|].
  fields.
  rewrite s32_small by (change (2 ^ 31) with 2147483648; lia).
  rewrite u32_small by (pose proof Hwf as (Hm & _);
                        change (2 ^ 32) with 4294967296 in *;
                        Z.div_mod_to_equations; lia).
  repeat apply conj; try reflexivity; try lia; try assumption.
  rewrite B1. unfold page_tick. change (Z.to_nat 256) with 256%nat.
  rewrite slot_page by lia. rewrite Hofs, <- !app_assoc. reflexivity.
Qed.

(** X20.  A writer that programs, with the flash ready at each status read: in
    [k] ticks it sends pages [j] to [j+k-1] of the slot, each with
    write-enable and a page-program command for 256 bytes at [addr_prog +
    256*page], in order, and [op_ofs] is then at page [j+k]; the slot,
    [addr_prog] and the retry counter stay.  From [j = 0] and with [k = 16]
    the whole block of 4096 bytes has gone out, and [op_ofs] has reached
    [op_len]. *)
Theorem block_programmed_in_pages vendor k : forall w j statuses rest,
  op w = FL_PROGRAM -> prog_retry w <> 0 -> Z.land (should w) 2 <> 0 ->
  writer_wf w -> (rd w = 0 \/ rd w = 1) -> length (data w) = Z.to_nat 8192 ->
  op_ofs w = 256 * Z.of_nat j -> (j + k <= 16)%nat ->
  Spi.rx (spi_regs w) = statuses ++ rest -> length statuses = k ->
  Forall (fun d => Z.testbit d 31 = false /\ Z.land (u8 d) 1 = 0) statuses ->
  exists w',
    run vendor (repeat EvTick k) w = Ok w' /\
    op w' = FL_PROGRAM /\ op_ofs w' = 256 * Z.of_nat (j + k) /\
    op_len w' = 4096 /\
    Spi.rx (spi_regs w') = rest /\
    Spi.bus (spi_regs w') =
      page_ticks (addr_prog w) (slot w) j k ++ Spi.bus (spi_regs w) /\
    used w' = used w /\ rd w' = rd w /\ addr_prog w' = addr_prog w /\
    data w' = data w /\ prog_retry w' = prog_retry w.
Proof.
  induction k as [|k IH];
    intros w j statuses rest Ho Hr Hs Hwf Hrd Hl Hofs Hj Hrx Hlen Hst.
  - destruct statuses; [|discriminate]. simpl in Hrx.
    exists w. simpl. rewrite Nat.add_0_r.
    pose proof Hwf as (_ & _ & _ & _ & _ & _ & G & _).
    repeat apply conj; auto. apply G. congruence.
  - destruct statuses as [|sr st]; [discriminate|].
    simpl in Hrx, Hlen. inversion Hst as [|? ? (Hb & Hz) Hst']; subst.
    destruct (tick_programs_page w sr (st ++ rest) j Ho Hr Hs Hwf Hrd Hl Hofs
                ltac:(lia) Hrx Hb Hz)
      as (w1 & T & Ho1 & Hofs1 & Hrx1 & Hbus1 & Hu1 & Hrd1 & Hap1 & Hd1 & Hr1 & Hs1).
    destruct (IH w1 (S j) st rest) as (w' & R & P1 & P2 & P3 & P4 & P5 & P6 & P7
                                        & P8 & P9 & P10); auto; try congruence;
      try lia.
    { eapply writer_wf_tick; eauto. }
    exists w'. cbn [repeat run step]. rewrite T. cbn [bind].
    split; [exact R|].
    assert (Hslot : slot w1 = slot w) by (unfold slot; rewrite Hd1, Hrd1; reflexivity).
    rewrite Hslot, Hap1, Hbus1 in P5.
    repeat apply conj; try congruence.
    + rewrite P2. f_equal. lia.
    + rewrite P5. cbn [page_ticks]. rewrite <- app_assoc. reflexivity.
Qed.

Lemma block_programmed_in_pages_witness :
  exists w',
    run no_vendor (repeat EvTick 2) first_page_written = Ok w' /\
    op w' = FL_PROGRAM /\ op_ofs w' = 256 * Z.of_nat (1 + 2) /\
    op_len w' = 4096 /\
    Spi.rx (spi_regs w') = [] /\
    Spi.bus (spi_regs w') =
      page_ticks (addr_prog first_page_written) (slot first_page_written) 1 2
        ++ Spi.bus (spi_regs first_page_written) /\
    used w' = used first_page_written /\ rd w' = rd first_page_written /\
    addr_prog w' = addr_prog first_page_written /\
    data w' = data first_page_written /\
    prog_retry w' = prog_retry first_page_written.
Proof.
  apply (block_programmed_in_pages no_vendor 2 first_page_written 1%nat
           [0; 0] []).
  - vm_compute. reflexivity.
  - vm_compute. discriminate.
  - vm_compute. discriminate.
  - apply (writer_wf_reach no_vendor). unfold first_page_written.
    apply downloaded_reach.
  - left. vm_compute. reflexivity.
  - vm_compute. reflexivity.
  - vm_compute. reflexivity.
  - lia.
  - vm_compute. reflexivity.
  - reflexivity.
  - repeat constructor.
Defined.

(** ** When a slot is released *)








(** ** What a control request leaves *)

Lemma data_spi_only_refl w : data_spi_only w w.
Proof. unfold data_spi_only. destruct w; reflexivity. Qed.

Lemma data_spi_only_trans a b c :
  data_spi_only a b -> data_spi_only b c -> data_spi_only a c.
Proof.
  unfold data_spi_only. intros H1 H2. rewrite H2, H1 at 1. reflexivity.
Qed.

Lemma xfer_store_only i v x w x' w' :
  xfer_store i v (x, w) = Ok (x', w') -> data_spi_only w w'.
Proof.
  unfold xfer_store. intros H.
  destruct (xfer_data x).
  - apply bind_ok in H as (b & _ & H). inv H. apply data_spi_only_refl.
  - destruct (0 <=? ofs); [|discriminate].
    apply bind_ok in H as (d & _ & H). inv H.
    unfold data_spi_only. destruct w; reflexivity.
Qed.

Lemma getstatus_stores_only a b c d e f x w resp x' w' :
  (xw <- xfer_store 0 a (x, w) ;;
   xw <- xfer_store 1 b xw ;;
   xw <- xfer_store 2 c xw ;;
   xw <- xfer_store 3 d xw ;;
   xw <- xfer_store 4 e xw ;;
   xw <- xfer_store 5 f xw ;;
   ctrl_success xw) = Ok (resp, x', w') ->
  resp = USB_FND_SUCCESS /\ data_spi_only w w'.
Proof.
  intros H.
  apply bind_ok in H as ([x1 w1] & E1 & H).
  apply bind_ok in H as ([x2 w2] & E2 & H).
  apply bind_ok in H as ([x3 w3] & E3 & H).
  apply bind_ok in H as ([x4 w4] & E4 & H).
  apply bind_ok in H as ([x5 w5] & E5 & H).
  apply bind_ok in H as ([x6 w6] & E6 & H).
  apply ctrl_success_inv in H as (Hr & H). inv H. split; [reflexivity|].
  apply xfer_store_only in E1, E2, E3, E4, E5, E6.
  repeat (eapply data_spi_only_trans; [eassumption|]).
  apply data_spi_only_refl.
Qed.

(** What the handler of a control request does to the program state: one
    of the steps below, and after it changes to the buffer and the SPI
    controller only. *)
Lemma ctrl_req_shape vendor req xfer w resp x w' :
  _dfu_ctrl_req vendor req xfer w = Ok (resp, x, w') ->
  exists w1,
    data_spi_only w1 w' /\
    (w1 = w \/
     (resp = USB_FND_ERROR /\
      (w1 = set_status errUNKNOWN (set_state dfuERROR w) \/
       w1 = set_status errUNKNOWN
              (set_state dfuERROR
                 (set_addr_recv (u32 (addr_recv w + wLength req)) w)))) \/
     (resp = USB_FND_SUCCESS /\ admitted req w /\
      (wRequestAndType req = USB_RT_DFU_DNLOAD /\
       (w1 = set_state dfuMANIFEST_SYNC w \/
        w1 = set_addr_recv (u32 (addr_recv w + wLength req)) w) \/
       wRequestAndType req = USB_RT_DFU_UPLOAD /\
       (exists n,
          (n = wLength req /\ u32 (addr_read w + n) <= addr_end w \/
           n = s32 (addr_end w - addr_read w) /\
           addr_end w < u32 (addr_read w + wLength req)) /\
          w1 = set_addr_read (u32 (addr_read w + n)) w) \/
       wRequestAndType req = USB_RT_DFU_GETSTATUS /\
       (state w = dfuDNLOAD_SYNC /\ w1 = set_state dfuDNLOAD_IDLE w \/
        state w = dfuMANIFEST_SYNC /\ pumped (set_state dfuIDLE w) w1) \/
       wRequestAndType req = USB_RT_DFU_CLRSTATUS /\
       w1 = set_status OK (set_state dfuIDLE w) \/
       wRequestAndType req = USB_RT_DFU_ABORT /\
       w1 = set_state dfuIDLE w))).
Proof.
  unfold _dfu_ctrl_req. intros H.
  destruct (wIndex req =? intf w) eqn:Ei; simpl in H.
  2:{ out H. exists w. split; [apply data_spi_only_refl|auto]. }
  apply Z.eqb_eq in Ei.
  destruct (_ =? Z.lor USB_REQ_TYPE_VENDOR USB_REQ_RCPT_INTF) eqn:Ev.
  { apply bind_ok in H as ([[[r x0] d] s] & _ & H). out H.
    exists w. split; [|auto]. unfold data_spi_only. destruct w; reflexivity. }
  destruct (_ =? Z.lor USB_REQ_TYPE_CLASS USB_REQ_RCPT_INTF) eqn:Ec; simpl in H.
  2:{ out H. exists w. split; [apply data_spi_only_refl|auto]. }
  destruct (Z.land (dfu_valid_req (state w)) (bit (bRequest req)) =? 0) eqn:Eg.
  { out H. eexists. split; [apply data_spi_only_refl|]. right. left. auto. }
  apply Z.eqb_neq in Eg.
  assert (Ad : admitted req w) by (split; assumption).
  cbv zeta in H.
  destruct (wRequestAndType req =? USB_RT_DFU_DETACH).
  { apply ctrl_success_inv in H as (_ & H). out H.
    exists w. split; [apply data_spi_only_refl|auto]. }
  destruct (wRequestAndType req =? USB_RT_DFU_DNLOAD) eqn:Ed.
  { apply Z.eqb_eq in Ed. unfold ctrl_dnload in H.
    destruct (wLength req =? 0) eqn:El; simpl in H.
    - apply ctrl_success_inv in H as (-> & H). out H.
      eexists. split; [apply data_spi_only_refl|]. right. right. auto 10.
    - destruct (addr_end w <? u32 (addr_recv w + wLength req)) eqn:Eo.
      + out H. eexists. split; [apply data_spi_only_refl|]. right. left. auto.
      + apply bind_ok in H as (wm & Em & H).
        apply ctrl_success_inv in H as (-> & H). out H.
        exists (set_addr_recv (u32 (addr_recv w + wLength req)) w).
        split; [|right; right; auto 10].
        destruct (wLength req <? 4096).
        * unfold memset_buf in Em.
          destruct (_ && _); out Em.
          unfold data_spi_only. destruct w; reflexivity.
        * out Em. apply data_spi_only_refl. }
  destruct (wRequestAndType req =? USB_RT_DFU_UPLOAD) eqn:Eu.
  { apply Z.eqb_eq in Eu. unfold ctrl_upload in H. cbv zeta in H.
    destruct (addr_end w <? u32 (addr_read w + wLength req)) eqn:Eo.
    - apply Z.ltb_lt in Eo.
      destruct (negb _) eqn:En.
      + apply bind_ok in H as ([d s] & _ & H).
        apply ctrl_success_inv in H as (-> & H). out H.
        exists (set_addr_read
                  (u32 (addr_read w + s32 (addr_end w - addr_read w))) w).
        split; [unfold data_spi_only; destruct w; reflexivity|].
        right. right. repeat (split; [auto|]). right. left.
        split; [auto|]. eexists. split; [right; eauto|reflexivity].
      + apply ctrl_success_inv in H as (-> & H). out H.
        exists w. split; [apply data_spi_only_refl|auto].
    - apply Z.ltb_ge in Eo.
      destruct (negb _) eqn:En.
      + apply bind_ok in H as ([d s] & _ & H).
        apply ctrl_success_inv in H as (-> & H). out H.
        exists (set_addr_read (u32 (addr_read w + wLength req)) w).
        split; [unfold data_spi_only; destruct w; reflexivity|].
        right. right. repeat (split; [auto|]). right. left.
        split; [auto|]. eexists. split; [left; eauto|reflexivity].
      + apply ctrl_success_inv in H as (-> & H). out H.
        exists w. split; [apply data_spi_only_refl|auto]. }
  destruct (wRequestAndType req =? USB_RT_DFU_GETSTATUS) eqn:Es.
  { apply Z.eqb_eq in Es. unfold ctrl_getstatus in H.
    apply bind_ok in H as ([st wm] & Eu' & H).
    apply getstatus_stores_only in H as (-> & H).
    unfold getstatus_update in Eu'.
    destruct (state w) eqn:Est;
      try (out Eu'; exists w; split; [exact H|auto]).
    - destruct (used w <? 2); out Eu'.
      + eexists. split; [exact H|]. right. right. auto 10.
      + exists w. split; [exact H|auto].
    - apply bind_ok in Eu' as (w2 & Ep & Eu'). out Eu'.
      apply pump_sound in Ep.
      eexists. split; [exact H|]. right. right. auto 10. }
  destruct (wRequestAndType req =? USB_RT_DFU_CLRSTATUS) eqn:Ecl.
  { apply Z.eqb_eq in Ecl. apply ctrl_success_inv in H as (-> & H). out H.
    eexists. split; [apply data_spi_only_refl|]. right. right. auto 10. }
  destruct (wRequestAndType req =? USB_RT_DFU_GETSTATE).
  { apply bind_ok in H as ([x1 w1] & E1 & H).
    apply ctrl_success_inv in H as (_ & H). out H.
    apply xfer_store_only in E1.
    exists w. split; [exact E1|auto]. }
  destruct (wRequestAndType req =? USB_RT_DFU_ABORT) eqn:Eab.
  { apply Z.eqb_eq in Eab. apply ctrl_success_inv in H as (-> & H). out H.
    eexists. split; [apply data_spi_only_refl|]. right. right. auto 12. }
  out H. eexists. split; [apply data_spi_only_refl|]. right. left. auto.
Qed.
Lemma data_spi_only_fields w w' :
  data_spi_only w w' -> same_machine w w' /\ addr_read w' = addr_read w.
Proof.
  unfold data_spi_only. intros H. rewrite H.
  split; [|reflexivity]. unfold same_machine. fields.
  repeat apply conj; reflexivity.
Qed.

Lemma tick_frame_pumped w w' : pumped w w' -> writer_frame w w'.
Proof.
  intros P.
  apply (pumped_inv (fun x => writer_frame w x)) with (w := w) (w' := w');
    [|exact P|apply writer_frame_refl].
  intros a b Fa T. apply tick_spec in T. destruct T as (F & _).
  eapply writer_frame_trans; eauto.
Qed.

(** ** UPLOAD stays inside the zone *)






(** X23.  An UPLOAD request in a state that admits it, with the read cursor
    inside the zone: the length served is [wLength] cut down to what is left
    of the zone; that many bytes are read from the flash at [addr_read] into
    the buffer from its first byte on, the transfer is pointed there, and
    [addr_read] moves on by that length; the protocol state stays.  At the end
    of the zone the length is 0 and nothing happens on the bus. *)
Theorem upload_reads_flash vendor req xfer w :
  0 <= bmRequestType req < 256 -> 0 <= bRequest req ->
  wIndex req = intf w ->
  wRequestAndType req = USB_RT_DFU_UPLOAD ->
  Z.land (dfu_valid_req (state w)) (bit USB_REQ_DFU_UPLOAD) <> 0 ->
  0 <= addr_read w <= addr_end w -> addr_end w <= 0x01000000 ->
  0 <= wLength req < 65536 ->
  let n := Z.min (wLength req) (addr_end w - addr_read w) in
  (Z.to_nat n <= length (data w))%nat ->
  (Z.to_nat n <= length (Spi.ready (Spi.rx (spi_regs w))))%nat ->
  exists w',
    _dfu_ctrl_req vendor req xfer w =
      Ok (USB_FND_SUCCESS, mkXfer (PtrDfuBuf 0) n (cb_done xfer), w') /\
    addr_read w' = addr_read w + n /\ addr_read w' <= addr_end w' /\
    state w' = state w /\ status w' = status w /\
    data w' = map u8 (firstn (Z.to_nat n) (Spi.ready (Spi.rx (spi_regs w))))
              ++ skipn (Z.to_nat n) (data w) /\
    Spi.bus (spi_regs w') =
      (if n =? 0 then []
       else Spi.transfer Spi.SPI_CS_FLASH
              (Spi.cmd_addr Spi.FLASH_CMD_READ_DATA (addr_read w)) (Z.to_nat n))
      ++ Spi.bus (spi_regs w).
Proof.
  intros Ht Hb Hi Hrt Hok Hr He Hlen n Hd Ha.
  destruct (ctrl_req_dispatch vendor req xfer w USB_RT_DFU_UPLOAD
              USB_REQ_DFU_UPLOAD 0xa1 Ht Hb Hi Hrt eq_refl eq_refl eq_refl Hok)
    as (_ & ->).
  change (USB_RT_DFU_UPLOAD =? USB_RT_DFU_DETACH) with false.
  change (USB_RT_DFU_UPLOAD =? USB_RT_DFU_DNLOAD) with false.
  rewrite Z.eqb_refl. cbv iota.
  unfold ctrl_upload. cbv zeta.
  rewrite (u32_small (addr_read w + wLength req))
    by (change (2 ^ 32) with 4294967296; lia).
  assert (Hn : (if addr_end w <? addr_read w + wLength req
                then s32 (addr_end w - addr_read w) else wLength req) = n).
  { unfold n. destruct (addr_end w <? addr_read w + wLength req) eqn:E.
    - apply Z.ltb_lt in E.
      rewrite s32_small by (change (2 ^ 31) with 2147483648; lia). lia.
    - apply Z.ltb_ge in E. lia. }
  rewrite Hn.
  assert (Hn0 : 0 <= n < 65536) by (unfold n; lia).
  destruct (n =? 0) eqn:E0; cbn [negb].
  - apply Z.eqb_eq in E0. exists w. unfold ctrl_success. cbn [fst snd].
    split; [reflexivity|]. rewrite E0.
    change (Z.to_nat 0) with 0%nat. cbn [firstn map skipn app].
    repeat apply conj; auto; lia.
  - rewrite (u32_small n) by (change (2 ^ 32) with 4294967296; lia).
    destruct (flash_read_spec (data w) (addr_read w) (Z.to_nat n)
                (spi_regs w) Hd) as (Hdel & _).
    destruct (Hdel Ha) as (rest & Hx & _).
    rewrite Hx. cbn [bind]. unfold ctrl_success. cbn [fst snd].
    eexists. split; [reflexivity|]. fields.
    rewrite u32_small by (unfold n; change (2 ^ 32) with 4294967296; lia).
    repeat apply conj; auto. unfold n. lia.
Qed.

Lemma upload_reads_flash_witness :
  exists w',
    _dfu_ctrl_req no_vendor (upload_req 300) xfer0 zone6_readable =
      Ok (USB_FND_SUCCESS, mkXfer (PtrDfuBuf 0) 256 (cb_done xfer0), w') /\
    addr_read w' = addr_read zone6_readable + 256 /\
    addr_read w' <= addr_end w' /\
    state w' = state zone6_readable /\ status w' = status zone6_readable /\
    data w' =
      map u8 (firstn (Z.to_nat 256) (Spi.ready (Spi.rx (spi_regs zone6_readable))))
        ++ skipn (Z.to_nat 256) (data zone6_readable) /\
    Spi.bus (spi_regs w') =
      Spi.transfer Spi.SPI_CS_FLASH
        (Spi.cmd_addr Spi.FLASH_CMD_READ_DATA (addr_read zone6_readable))
        (Z.to_nat 256)
      ++ Spi.bus (spi_regs zone6_readable).
Proof.
  refine (upload_reads_flash no_vendor (upload_req 300) xfer0 zone6_readable
            _ _ _ _ _ _ _ _ _ _).
  - simpl. lia.
  - simpl. lia.
  - vm_compute. reflexivity.
  - reflexivity.
  - vm_compute. discriminate.
  - vm_compute. split; discriminate.
  - vm_compute. discriminate.
  - simpl. lia.
  - apply Nat.leb_le. vm_compute. reflexivity.
  - apply Nat.leb_le. vm_compute. reflexivity.
Defined.

(** ** The error state *)

Lemma error_row b :
  Z.land (dfu_valid_req dfuERROR) (bit b) <> 0 -> b = 3 \/ b = 4 \/ b = 5.
Proof.
  intros H.
  destruct (Z.eq_dec b 3) as [|N3]; [auto|].
  destruct (Z.eq_dec b 4) as [|N4]; [auto|].
  destruct (Z.eq_dec b 5) as [|N5]; [auto|].
  exfalso. apply H. apply Z.bits_inj'. intros n Hn.
  rewrite Z.land_spec, Z.bits_0. unfold bit.
  destruct (Z_lt_ge_dec b 0) as [Hb|Hb].
  { rewrite Z.shiftl_1_l, Z.pow_neg_r by lia. rewrite Z.bits_0.
    apply andb_false_r. }
  rewrite Z.shiftl_1_l, Z.pow2_bits_eqb by lia.
  destruct (b =? n) eqn:E; [|apply andb_false_r].
  apply Z.eqb_eq in E. subst n. rewrite andb_true_r.
  change (dfu_valid_req dfuERROR) with 56.
  destruct (Z_lt_ge_dec b 6) as [H6|H6].
  - assert (b = 0 \/ b = 1 \/ b = 2) as [-> | [-> | ->]] by lia; reflexivity.
  - change 56 with (Z.land 56 (Z.ones 6)).
    rewrite Z.land_spec, Z.ones_spec_high by lia. apply andb_false_r.
Qed.

(** X24.  In the error state, with a well-formed setup packet: whatever
    request arrives, the machine stays in dfuERROR, except for a CLRSTATUS
    request to the DFU interface, which is answered with SUCCESS and takes it
    to dfuIDLE with status OK. *)
Theorem error_left_by_clrstatus vendor req xfer w :
  0 <= bmRequestType req < 256 -> 0 <= bRequest req ->
  state w = dfuERROR ->
  (forall resp x w',
     _dfu_ctrl_req vendor req xfer w = Ok (resp, x, w') ->
     state w' = dfuERROR \/
     wRequestAndType req = USB_RT_DFU_CLRSTATUS /\ wIndex req = intf w /\
     resp = USB_FND_SUCCESS /\ state w' = dfuIDLE /\ status w' = OK) /\
  (wIndex req = intf w -> wRequestAndType req = USB_RT_DFU_CLRSTATUS ->
   _dfu_ctrl_req vendor req xfer w =
     Ok (USB_FND_SUCCESS, xfer, set_status OK (set_state dfuIDLE w))).
Proof.
  intros Ht Hb Hs. split.
  - intros resp x w' H. apply ctrl_req_shape in H as (w1 & Hd & C).
    apply data_spi_only_fields in Hd as ((Ss & St & _) & _).
    rewrite Ss, St.
    destruct C as [-> | [(_ & [-> | ->]) | (-> & (Hi & Ad) & C)]]; fields;
      auto.
    rewrite Hs in Ad. apply error_row in Ad.
    destruct C as [(Hrt & _) | [(Hrt & _) | [(Hrt & C) | [(Hrt & ->) | (Hrt & _)]]]].
    + apply (request_and_type req _ Ht Hb) in Hrt as (_ & Hrq).
      exfalso. change (USB_RT_DFU_DNLOAD / 256) with 1 in Hrq. lia.
    + apply (request_and_type req _ Ht Hb) in Hrt as (_ & Hrq).
      exfalso. change (USB_RT_DFU_UPLOAD / 256) with 2 in Hrq. lia.
    + destruct C as [(C & _) | (C & _)]; congruence.
    + right. fields. auto 10.
    + apply (request_and_type req _ Ht Hb) in Hrt as (_ & Hrq).
      exfalso. change (USB_RT_DFU_ABORT / 256) with 6 in Hrq. lia.
  - intros Hi Hrt.
    assert (Hok : Z.land (dfu_valid_req (state w)) (bit USB_REQ_DFU_CLRSTATUS) <> 0)
      by (rewrite Hs; vm_compute; discriminate).
    destruct (ctrl_req_dispatch vendor req xfer w USB_RT_DFU_CLRSTATUS
                USB_REQ_DFU_CLRSTATUS 0x21 Ht Hb Hi Hrt eq_refl eq_refl eq_refl
                Hok) as (_ & ->).
    reflexivity.
Qed.

Lemma error_left_by_clrstatus_witness :
  _dfu_ctrl_req no_vendor clrstatus_req xfer0 over_zone6 =
    Ok (USB_FND_SUCCESS, xfer0, set_status OK (set_state dfuIDLE over_zone6)).
Proof.
  refine (proj2 (error_left_by_clrstatus no_vendor clrstatus_req xfer0
                   over_zone6 _ _ _) _ _).
  - simpl. lia.
  - simpl. lia.
  - vm_compute. reflexivity.
  - vm_compute. reflexivity.
  - reflexivity.
Defined.
Lemma error_inv_same w w' :
  state w' = state w -> status w' = status w -> error_inv w -> error_inv w'.
Proof. unfold error_inv. intros -> ->. auto. Qed.

Lemma error_inv_ctrl vendor req xfer w resp x w' :
  _dfu_ctrl_req vendor req xfer w = Ok (resp, x, w') ->
  error_inv w -> error_inv w'.
Proof.
  intros H Hwf. apply ctrl_req_shape in H as (w1 & Hd & C).
  apply data_spi_only_fields in Hd as ((Ss & St & _) & _).
  apply (error_inv_same w1 w' Ss St).
  destruct C as [-> | [(_ & [-> | ->]) | (_ & _ & C)]];
    try exact Hwf; try (unfold error_inv; fields; auto; fail).
  destruct C as [(_ & [-> | ->]) | [(_ & n & Hn & ->) | [(_ & C) | [(_ & ->) | (_ & ->)]]]];
    try (unfold error_inv; fields; auto; discriminate).
  destruct C as [(_ & ->) | (_ & P)].
  - unfold error_inv; fields; discriminate.
  - apply tick_frame_pumped in P. destruct P as (Ps & _).
    unfold error_inv. rewrite Ps. fields. discriminate.
Qed.

Lemma error_inv_reach vendor w : reach vendor any_event w -> error_inv w.
Proof.
  apply (reach_inv vendor any_event error_inv).
  - intros s. unfold error_inv, boot, usb_dfu_init. fields. discriminate.
  - intros ev w0 w' Hwf _ H.
    destruct ev; simpl in H.
    + out H. destruct configured; [|exact Hwf].
      unfold error_inv. fields. discriminate.
    + out H. unfold _dfu_bus_reset. destruct (state w0) eqn:E; try exact Hwf;
        (eapply error_inv_same; [| |exact Hwf]; reflexivity).
    + apply bind_ok in H as ([r wx] & E & H). out H.
      apply set_intf_spec in E.
      destruct E as [(_ & ->) | (_ & Es & _)]; [exact Hwf|].
      unfold error_inv. rewrite Es. discriminate.
    + apply bind_ok in H as ([[r x] wx] & E & H). out H.
      eapply error_inv_ctrl; eauto.
    + out H. eapply error_inv_same; [| |exact Hwf]; reflexivity.
    + out H. unfold error_inv. fields. discriminate.
    + out H. eapply error_inv_same; [| |exact Hwf]; reflexivity.
    + apply tick_spec in H. destruct H as ((Fs & Ft & _) & _).
      eapply error_inv_same; [exact Fs|exact Ft|exact Hwf].
    + out H. eapply error_inv_same; [| |exact Hwf]; reflexivity.
Qed.

(** X25.  In every state the machine reaches, the error state comes with the
    error status: in dfuERROR the status is errUNKNOWN. *)
Theorem error_state_has_status vendor w :
  reach vendor any_event w -> state w = dfuERROR -> status w = errUNKNOWN.
Proof. intros H. exact (error_inv_reach vendor w H). Qed.

Lemma error_state_has_status_witness : status over_zone6 = errUNKNOWN.
Proof.
  apply (error_state_has_status no_vendor over_zone6).
  - unfold over_zone6, start_zone.
    apply after_run_reach, after_run_reach, reach_boot.
  - vm_compute. reflexivity.
Defined.

(** ** When the reboot hook is called *)

Lemma tick_erase_reboots w w1 : tick_erase w = Ok w1 -> reboots w1 = reboots w.
Proof.
  unfold tick_erase. intros H.
  apply bind_ok in H as (p & Hp & H).
  apply bind_ok in H as ([sh s1] & V & H). cbv beta iota zeta in H.
  cbn [should set_should] in H.
  destruct (Z.land sh 1 =? 0).
  - inv H. reflexivity.
  - repeat tick_step. unfold retry_dec.
    destruct (prog_retry _ =? 0); reflexivity.
Qed.

Lemma tick_program_reboots w w1 :
  tick_program w = Ok w1 -> reboots w1 = reboots w.
Proof.
  unfold tick_program. intros H.
  destruct (Z.land (should w) 2 =? 0); [inv H; reflexivity|].
  destruct (op_ofs w =? op_len w).
  - inv H. unfold retry_dec. destruct (prog_retry w =? 0); reflexivity.
  - repeat tick_step. reflexivity.
Qed.

Lemma tick_reboots w w' :
  _dfu_tick w = Ok w' -> prog_retry w <> 0 -> reboots w' = reboots w.
Proof.
  intros H Hr. unfold _dfu_tick in H.
  apply bind_ok in H as ([go w1] & G & H).
  assert (G1 : reboots w1 = reboots w /\ prog_retry w1 = prog_retry w).
  { apply tick_gate_spec in G.
    destruct G as [(_ & _ & _ & ->) | [(_ & _ & _ & ->) | (_ & s & -> & _)]];
      split; reflexivity. }
  destruct G1 as (G1 & G2).
  destruct go; [|inv H; exact G1].
  unfold tick_work, flashchip_select in H. cbv zeta in H.
  change (prog_retry (set_flashchip (selected w1) w1)) with (prog_retry w1) in H.
  change (op (set_flashchip (selected w1) w1)) with (op w1) in H.
  destruct (prog_retry w1 =? 0) eqn:Er; [apply Z.eqb_eq in Er; congruence|].
  apply bind_ok in H as (w2 & E & H).
  assert (E2 : reboots w2 = reboots w1).
  { destruct (op w1);
      [inv E; reflexivity|apply tick_erase_reboots in E; exact E
      |inv E; reflexivity]. }
  destruct (op w2);
    [inv H; congruence|inv H; congruence
    |apply tick_program_reboots in H; congruence].
Qed.

(** X26.  The reboot hook is called from four places only: a bus reset once
    the state has left appDETACH, the completion of a DETACH transfer, a tick
    of the writer with the retry counter at 0, and the ticks a GETSTATUS runs
    in dfuMANIFEST_SYNC.  No other callback, request or tick of usb_dfu.c
    calls it (the vendor handler is outside it and acts on the buffer and the
    controller only). *)
Theorem reboot_only_from vendor ev w w' :
  step vendor ev w = Ok w' -> reboots w' <> reboots w ->
  ev = EvBusReset /\ state w <> appDETACH \/
  ev = EvDetachDone \/
  ev = EvTick /\ prog_retry w = 0 \/
  exists req xfer,
    ev = EvCtrlReq req xfer /\ state w = dfuMANIFEST_SYNC /\
    wRequestAndType req = USB_RT_DFU_GETSTATUS /\ wIndex req = intf w.
Proof.
  intros H Hn. destruct ev; simpl in H.
  - out H. exfalso. apply Hn. destruct configured; reflexivity.
  - out H. left. split; [reflexivity|]. intros E. apply Hn.
    unfold _dfu_bus_reset. rewrite E. reflexivity.
  - apply bind_ok in H as ([r wx] & E & H). out H. exfalso. apply Hn.
    unfold _dfu_set_intf in E.
    destruct (negb (is_dfu_intf sel)); [out E; reflexivity|].
    cbv zeta in E.
    apply bind_ok in E as (v1 & E1 & E). apply bind_ok in E as (v2 & E2 & E).
    apply bind_ok in E as (v3 & E3 & E). apply bind_ok in E as (v4 & E4 & E).
    apply bind_ok in E as (v5 & E5 & E). apply bind_ok in E as (v6 & E6 & E).
    out E. reflexivity.
  - apply bind_ok in H as ([[r x] wx] & E & H). out H.
    apply ctrl_req_shape in E as (w1 & Hd & C).
    apply data_spi_only_fields in Hd as (Hs & _).
    assert (Hb : reboots wx = reboots w1).
    { unfold same_machine in Hs. intuition. }
    rewrite Hb in Hn.
    destruct C as [-> | [(_ & [-> | ->]) | (_ & (Hi & _) & C)]];
      try (exfalso; apply Hn; reflexivity).
    destruct C as [(_ & [-> | ->]) | [(_ & n & _ & ->) | [(Hrt & C) | [(_ & ->) | (_ & ->)]]]];
      try (exfalso; apply Hn; reflexivity).
    destruct C as [(_ & ->) | (Hst & _)]; [exfalso; apply Hn; reflexivity|].
    right. right. right. exists req, xfer. auto.
  - out H. exfalso. apply Hn. reflexivity.
  - out H. exfalso. apply Hn. reflexivity.
  - auto.
  - right. right. left. split; [reflexivity|].
    destruct (Z.eq_dec (prog_retry w) 0) as [E|E]; [exact E|].
    exfalso. apply Hn. apply tick_reboots; assumption.
  - out H. exfalso. apply Hn. reflexivity.
Qed.

Lemma reboot_only_from_witness :
  EvBusReset = EvBusReset /\ state just_configured <> appDETACH \/
  EvBusReset = EvDetachDone \/
  EvBusReset = EvTick /\ prog_retry just_configured = 0 \/
  exists req xfer,
    EvBusReset = EvCtrlReq req xfer /\
    state just_configured = dfuMANIFEST_SYNC /\
    wRequestAndType req = USB_RT_DFU_GETSTATUS /\
    wIndex req = intf just_configured.
Proof.
  apply (reboot_only_from no_vendor EvBusReset just_configured
           (usb_dfu_cb_reboot just_configured)).
  - reflexivity.
  - vm_compute. discriminate.
Defined.

(** ** The setting of the interface *)





(** ** The padding of a short block *)

Lemma nth_memset (l : list Z) (from n : nat) (c : Z) (i : nat) :
  (from + n <= length l)%nat ->
  nth i (firstn from l ++ repeat c n ++ skipn (from + n) l) 0 =
  if (from <=? i)%nat && (i <? from + n)%nat then c else nth i l 0.
Proof.
  intros Hl.
  destruct (Nat.leb_spec from i) as [H1|H1]; cbn [andb].
  - rewrite app_nth2 by (rewrite length_firstn; lia).
    rewrite length_firstn, Nat.min_l by lia.
    destruct (Nat.ltb_spec i (from + n)) as [H2|H2].
    + rewrite app_nth1 by (rewrite repeat_length; lia).
      apply nth_repeat_lt. lia.
    + rewrite app_nth2 by (rewrite repeat_length; lia).
      rewrite repeat_length, nth_skipn. f_equal. lia.
  - rewrite app_nth1 by (rewrite length_firstn; lia).
    rewrite nth_firstn. destruct (Nat.ltb_spec i from); [reflexivity|lia].
Qed.

(** X28.  A DNLOAD of fewer than 4096 bytes that fits the zone is accepted
    with the transfer pointed at the write slot, and the rest of the slot,
    from byte [wLength] to byte 4095, is filled with 0xFF; every other byte of
    the buffer stays, and so does its length. *)
Theorem dnload_pads_block vendor req xfer w :
  0 <= bmRequestType req < 256 -> 0 <= bRequest req ->
  wIndex req = intf w ->
  wRequestAndType req = USB_RT_DFU_DNLOAD ->
  Z.land (dfu_valid_req (state w)) (bit USB_REQ_DFU_DNLOAD) <> 0 ->
  0 < wLength req < 4096 ->
  u32 (addr_recv w + wLength req) <= addr_end w ->
  (wr w = 0 \/ wr w = 1) -> length (data w) = Z.to_nat 8192 ->
  exists w',
    _dfu_ctrl_req vendor req xfer w =
      Ok (USB_FND_SUCCESS,
          mkXfer (PtrDfuBuf (wr w * 4096)) (wLength req) (Some dnload_done_cb),
          w') /\
    length (data w') = length (data w) /\
    (forall i, nth i (data w') 0 =
               if in_padding (wr w) (wLength req) i then 0xff
               else nth i (data w) 0) /\
    state w' = state w /\ wr w' = wr w /\ used w' = used w /\
    addr_recv w' = u32 (addr_recv w + wLength req).
Proof.
  intros Ht Hb Hi Hrt Hok Hlen Hfit Hwr Hd.
  destruct (ctrl_req_dispatch vendor req xfer w USB_RT_DFU_DNLOAD
              USB_REQ_DFU_DNLOAD 0x21 Ht Hb Hi Hrt eq_refl eq_refl eq_refl Hok)
    as (_ & ->).
  change (USB_RT_DFU_DNLOAD =? USB_RT_DFU_DETACH) with false.
  rewrite Z.eqb_refl. cbv iota.
  unfold ctrl_dnload.
  destruct (wLength req =? 0) eqn:E0; [apply Z.eqb_eq in E0; lia|].
  cbn [negb]. cbv zeta. fields.
  destruct (addr_end w <? u32 (addr_recv w + wLength req)) eqn:E1;
    [apply Z.ltb_lt in E1; lia|].
  cbn [xfer_len].
  destruct (wLength req <? 4096) eqn:E2; [|apply Z.ltb_ge in E2; lia].
  unfold memset_buf. fields.
  assert (Hin : (0 <=? wr w * 4096 + wLength req) &&
                (0 <=? 4096 - wLength req) &&
                (wr w * 4096 + wLength req + (4096 - wLength req)
                   <=? Z.of_nat (length (data w))) = true).
  { rewrite Hd. repeat (apply andb_true_intro; split); apply Z.leb_le; lia. }
  rewrite Hin. cbn [bind]. unfold ctrl_success. cbn [fst snd].
  eexists. split; [reflexivity|]. fields.
  assert (Hsum : Z.to_nat (wr w * 4096 + wLength req + (4096 - wLength req)) =
                 (Z.to_nat (wr w * 4096 + wLength req)
                  + Z.to_nat (4096 - wLength req))%nat) by lia.
  rewrite Hsum.
  repeat apply conj; auto.
  - rewrite !length_app, length_firstn, repeat_length, length_skipn. lia.
  - intros i. rewrite nth_memset by lia. unfold in_padding.
    destruct (Nat.leb_spec (Z.to_nat (wr w * 4096 + wLength req)) i) as [H1|H1];
      destruct (Z.leb_spec (wr w * 4096 + wLength req) (Z.of_nat i)) as [H3|H3];
      try lia; cbn [andb]; [|reflexivity].
    destruct (Nat.ltb_spec i (Z.to_nat (wr w * 4096 + wLength req)
                              + Z.to_nat (4096 - wLength req))) as [H2|H2];
      destruct (Z.ltb_spec (Z.of_nat i) (wr w * 4096 + 4096)) as [H4|H4];
      try lia; reflexivity.
Qed.

Lemma dnload_pads_block_witness :
  exists w',
    _dfu_ctrl_req no_vendor (dnload_req 100) xfer0 (start_zone 0) =
      Ok (USB_FND_SUCCESS,
          mkXfer (PtrDfuBuf (wr (start_zone 0) * 4096)) 100
            (Some dnload_done_cb), w') /\
    length (data w') = length (data (start_zone 0)) /\
    (forall i, nth i (data w') 0 =
               if in_padding (wr (start_zone 0)) 100 i then 0xff
               else nth i (data (start_zone 0)) 0) /\
    state w' = state (start_zone 0) /\ wr w' = wr (start_zone 0) /\
    used w' = used (start_zone 0) /\
    addr_recv w' = u32 (addr_recv (start_zone 0) + 100).
Proof.
  apply (dnload_pads_block no_vendor (dnload_req 100) xfer0 (start_zone 0)).
  - simpl. lia.
  - simpl. lia.
  - vm_compute. reflexivity.
  - reflexivity.
  - vm_compute. discriminate.
  - simpl. lia.
  - vm_compute. discriminate.
  - left. vm_compute. reflexivity.
  - vm_compute. reflexivity.
Defined.

End MachineFacts.
